(** * Onboarding service: registration store, verification gate,
      issuance client, mail service and registration workflow.

    A shallow embedding of the Go sources and the properties proved about
    them.  The packages [configuration], [common], [db], [credissuance],
    [mail] and [server] are translated function by function.

    - Go strings are byte strings ([string]); byte slices are lists of 8-bit
      integers; [int] counters and [time.Time] (nanoseconds) are integers;
      Go maps are finite maps.
    - Functions that change the server, read the clock or draw random
      numbers are written in a state monad over a [World]; every
      [time.Now()] is one reading of the clock.
    - The [registrations] table is the list of its rows; a statement fails
      only when it breaks a UNIQUE constraint.  A row holds the instants of
      its DATETIME columns; the text the driver stores for an instant, which
      is what [ORDER BY] compares, is a parameter of the listing.
    - [encoding/json] is modelled on JSON values, [regexp] by derivatives,
      [crypto/ecdsa] by the affine arithmetic of P-256.
    - The token exchange, the HTTP round trip, the file system, the
      templates and the SMTP network are collaborators whose answers are
      parameters; the handlers use the mail service through what its calls
      give, an error value or a panic.
    - Requests are handled one at a time; the locks of the server are not
      part of the model. *)

From Stdlib Require Import ZArith String Ascii List Bool Lia Sorted.
From stdpp Require Import base tactics option list strings gmap pretty.
Import ListNotations.

Set Warnings "-register-all".

Local Open Scope string_scope.
Local Open Scope Z_scope.
Local Open Scope list_scope.

(** ** Go runtime values shared by all packages *)

Module go.

(** The error values the modelled code can observe.  [Errorf] stands for the
    values this program builds itself with [fmt.Errorf]; the other
    constructors are the failures reported by the libraries it calls:
    [ErrExternal origin msg] is an error of the library [origin] whose text
    is [msg], and [ErrUniqueConstraint] the error of the SQLite driver for
    the result code 2067 (SQLITE_CONSTRAINT_UNIQUE). *)
Inductive error : Type :=
| Errorf (msg : string)
| ErrNoRows
| ErrUniqueConstraint (column : string)
| ErrUnmarshalType (value : string) (field : string)
| ErrExternal (origin : string) (msg : string).

Definition Error (e : error) : string :=
  match e with
  | Errorf msg => msg
  | ErrNoRows => "sql: no rows in result set"
  | ErrUniqueConstraint column =>
      "constraint failed: UNIQUE constraint failed: registrations." +:+ column
      +:+ " (2067)"
  | ErrUnmarshalType value field =>
      "json: cannot unmarshal " +:+ value +:+ " into Go struct field " +:+ field
  | ErrExternal origin msg => msg
  end.

Inductive result (A : Type) : Type :=
| Ok (a : A)
| Err (e : error).
Arguments Ok {A} a.
Arguments Err {A} e.

(** What a call to the operating system or the network gives: a value, or a
    failure with its message.  [from origin] is the Go result: the failure
    becomes the error of the library [origin]. *)
Inductive io (A : Type) : Type :=
| Done (a : A)
| Failed (msg : string).
Arguments Done {A} a.
Arguments Failed {A} msg.

Definition from {A} (origin : string) (r : io A) : result A :=
  match r with
  | Done a => Ok a
  | Failed msg => Err (ErrExternal origin msg)
  end.

(** [time.Time] as nanoseconds counted from the zero [Time]; a
    [time.Duration] is a signed 64-bit count of nanoseconds and [Time.Sub]
    saturates at its bounds. *)
Definition Time := Z.
Definition Duration := Z.

Definition zeroTime : Time := 0.
Definition maxDuration : Duration := 2 ^ 63 - 1.
Definition minDuration : Duration := - 2 ^ 63.

Definition Second : Duration := 1000000000.
Definition Minute : Duration := 60 * Second.

Definition Sub (t u : Time) : Duration :=
  Z.max minDuration (Z.min maxDuration (t - u)).

(** The wall clock: [time.Now()] returns the next reading of the time
    source. *)
Record Clock : Type := mkClock {
  ticks : nat;
  reading : nat -> Time
}.

Definition Now (c : Clock) : Time * Clock :=
  (reading c (ticks c), mkClock (S (ticks c)) (reading c)).

Definition monotone (c : Clock) : Prop :=
  forall n m : nat, (n <= m)%nat -> reading c n <= reading c m.

End go.

Export go.

(** ** package configuration *)

Module configuration.

Definition RuntimeEnv := string.

Definition Development : RuntimeEnv := "dev".
Definition Preproduction : RuntimeEnv := "pre".
Definition Production : RuntimeEnv := "pro".

(** The mail part of the configuration. *)
Record SMTPConfig : Type := mkSMTPConfig {
  Enabled : bool;
  Host : string;
  Port : Z;
  TLS : bool;
  Username : string;
  PasswordFile : string
}.

Record MailConfig : Type := mkMailConfig {
  OnboardTeamEmail : list string;
  IssuerTeamEmail : list string;
  CCTeamEmail : list string;
  SMTP : SMTPConfig
}.

End configuration.

(** ** package db: the registrations table *)

Module db.

Record Registration : Type := mkRegistration {
  RegistrationID : string;
  Email : string;
  FirstName : string;
  LastName : string;
  CompanyName : string;
  Country : string;
  VatID : string;
  CreatedAt : Time;
  UpdatedAt : Time;
  IssuanceAt : Time;
  IssuanceError : string;
  NotifEmailAt : Time;
  NotifEmailError : string
}.

(** One row of
    [CREATE TABLE registrations (registration_id TEXT UNIQUE, email TEXT UNIQUE,
    ..., vat_id TEXT UNIQUE, ...)]. *)
Record Row : Type := mkRow {
  registration_id : string;
  email : string;
  first_name : string;
  last_name : string;
  company_name : string;
  country : string;
  vat_id : string;
  created_at : Time;
  updated_at : Time;
  issuance_at : Time;
  issuance_error : string;
  notif_email_at : Time;
  notif_email_error : string
}.

Abbreviation Table := (list Row).

Record Service : Type := mkService {
  conn : Table;
  runtime : configuration.RuntimeEnv
}.

(** The UNIQUE column of [r] whose value some row of [t] already holds,
    the first one in the order in which SQLite checks the indexes of the
    table: the index declared last is checked first. *)
Definition unique_conflict (r : Row) (t : Table) : option string :=
  if existsb (fun o => String.eqb (vat_id o) (vat_id r)) t
  then Some "vat_id"
  else if existsb (fun o => String.eqb (email o) (email r)) t
  then Some "email"
  else if existsb (fun o => String.eqb (registration_id o) (registration_id r)) t
  then Some "registration_id"
  else None.

(** [INSERT INTO registrations (...) VALUES (?, ..., ?)]. *)
Definition exec_insert (r : Row) (t : Table) : Table * option error :=
  match unique_conflict r t with
  | Some column => (t, Some (ErrUniqueConstraint column))
  | None => (t ++ [r], None)
  end.

(** [UPDATE registrations SET ... WHERE ...]: rows are visited in order; a
    visited row that satisfies [sel] is replaced by [set] of it, unless this
    changes its [registration_id] to one held by another row, in which case
    the statement fails.  (No statement of the package sets [email] or
    [vat_id].) *)
Fixpoint update_rows (sel : Row -> bool) (set : Row -> Row)
    (done todo : list Row) : option (list Row) :=
  match todo with
  | [] => Some done
  | r :: rest =>
      if sel r then
        let r' := set r in
        if negb (String.eqb (registration_id r') (registration_id r))
           && existsb (fun o => String.eqb (registration_id o) (registration_id r'))
                      (done ++ rest)
        then None
        else update_rows sel set (done ++ [r']) rest
      else update_rows sel set (done ++ [r]) rest
  end.

Definition exec_update (sel : Row -> bool) (set : Row -> Row) (t : Table)
    : Table * option error :=
  match update_rows sel set [] t with
  | Some t' => (t', None)
  | None => (t, Some (ErrUniqueConstraint "registration_id"))
  end.

Definition insert_values (reg : Registration) : Row :=
  mkRow (RegistrationID reg) (Email reg) (FirstName reg) (LastName reg)
        (CompanyName reg) (Country reg) (VatID reg)
        (CreatedAt reg) (UpdatedAt reg) (IssuanceAt reg) (IssuanceError reg)
        (NotifEmailAt reg) (NotifEmailError reg).

Definition scan (r : Row) : Registration :=
  mkRegistration (registration_id r) (email r) (first_name r) (last_name r)
                 (company_name r) (country r) (vat_id r)
                 (created_at r) (updated_at r) (issuance_at r) (issuance_error r)
                 (notif_email_at r) (notif_email_error r).

(** [SELECT ... FROM registrations WHERE vat_id = ? AND email = ?], first row
    scanned. *)
Definition GetRegistration (s : Service) (vatID : string) (mail : string)
    : option Registration * option error :=
  match find (fun r => String.eqb (vat_id r) vatID && String.eqb (email r) mail)
             (conn s) with
  | Some r => (Some (scan r), None)
  | None => (None, Some ErrNoRows)
  end.

Definition set_UpdatedAt (reg : Registration) (t : Time) : Registration :=
  mkRegistration (RegistrationID reg) (Email reg) (FirstName reg) (LastName reg)
                 (CompanyName reg) (Country reg) (VatID reg)
                 (CreatedAt reg) t (IssuanceAt reg) (IssuanceError reg)
                 (NotifEmailAt reg) (NotifEmailError reg).

Definition set_IssuanceAt (reg : Registration) (t : Time) : Registration :=
  mkRegistration (RegistrationID reg) (Email reg) (FirstName reg) (LastName reg)
                 (CompanyName reg) (Country reg) (VatID reg)
                 (CreatedAt reg) (UpdatedAt reg) t (IssuanceError reg)
                 (NotifEmailAt reg) (NotifEmailError reg).

Definition set_IssuanceError (reg : Registration) (msg : string) : Registration :=
  mkRegistration (RegistrationID reg) (Email reg) (FirstName reg) (LastName reg)
                 (CompanyName reg) (Country reg) (VatID reg)
                 (CreatedAt reg) (UpdatedAt reg) (IssuanceAt reg) msg
                 (NotifEmailAt reg) (NotifEmailError reg).

Definition set_NotifEmailAt (reg : Registration) (t : Time) : Registration :=
  mkRegistration (RegistrationID reg) (Email reg) (FirstName reg) (LastName reg)
                 (CompanyName reg) (Country reg) (VatID reg)
                 (CreatedAt reg) (UpdatedAt reg) (IssuanceAt reg) (IssuanceError reg)
                 t (NotifEmailError reg).

Definition set_NotifEmailError (reg : Registration) (msg : string) : Registration :=
  mkRegistration (RegistrationID reg) (Email reg) (FirstName reg) (LastName reg)
                 (CompanyName reg) (Country reg) (VatID reg)
                 (CreatedAt reg) (UpdatedAt reg) (IssuanceAt reg) (IssuanceError reg)
                 (NotifEmailAt reg) msg.

(** [UPDATE registrations SET updated_at = ?, issuance_at = ?,
    issuance_error = ?, notif_email_at = ?, notif_email_error = ?
    WHERE registration_id = ? AND email = ?]. *)
Definition status_where (reg : Registration) (r : Row) : bool :=
  String.eqb (registration_id r) (RegistrationID reg)
  && String.eqb (email r) (Email reg).

Definition status_set (reg : Registration) (r : Row) : Row :=
  mkRow (registration_id r) (email r) (first_name r) (last_name r)
        (company_name r) (country r) (vat_id r) (created_at r)
        (UpdatedAt reg) (IssuanceAt reg) (IssuanceError reg)
        (NotifEmailAt reg) (NotifEmailError reg).

Definition UpdateRegistrationStatus (c : Clock) (s : Service) (reg : Registration)
    : Clock * Service * Registration * option error :=
  let '(now, c) := Now c in
  let reg := set_UpdatedAt reg now in
  let '(t, err) := exec_update (status_where reg) (status_set reg) (conn s) in
  (c, mkService t (runtime s), reg, err).

(** [UPDATE registrations SET registration_id = ?, first_name = ?,
    last_name = ?, company_name = ?, country = ?, updated_at = ?,
    issuance_at = ?, issuance_error = ?, notif_email_at = ?,
    notif_email_error = ? WHERE email = ? AND vat_id = ?]. *)
Definition amend_where (reg : Registration) (r : Row) : bool :=
  String.eqb (email r) (Email reg) && String.eqb (vat_id r) (VatID reg).

Definition amend_set (reg : Registration) (r : Row) : Row :=
  mkRow (RegistrationID reg) (email r) (FirstName reg) (LastName reg)
        (CompanyName reg) (Country reg) (vat_id r) (created_at r)
        (UpdatedAt reg) (IssuanceAt reg) (IssuanceError reg)
        (NotifEmailAt reg) (NotifEmailError reg).

Definition AmendRegistration (c : Clock) (s : Service) (reg : Registration)
    : Clock * Service * Registration * option error :=
  let '(now, c) := Now c in
  let reg := set_UpdatedAt reg now in
  let '(t, err) := exec_update (amend_where reg) (amend_set reg) (conn s) in
  (c, mkService t (runtime s), reg, err).

Definition isErrNoRows (e : error) : bool :=
  match e with ErrNoRows => true | _ => false end.

Definition SaveRegistration (c : Clock) (s : Service) (reg : Registration)
    : Clock * Service * Registration * option error :=
  let '(now, c) := Now c in
  let reg :=
    mkRegistration (RegistrationID reg) (Email reg) (FirstName reg) (LastName reg)
                   (CompanyName reg) (Country reg) (VatID reg)
                   now now now "" now "" in
  if String.eqb (runtime s) configuration.Development
     || String.eqb (runtime s) configuration.Preproduction then
    match GetRegistration s (VatID reg) (Email reg) with
    | (oldReg, err) =>
        match err with
        | Some e =>
            if negb (isErrNoRows e) then (c, s, reg, Some e)
            else
              match oldReg with
              | Some _ => AmendRegistration c s reg
              | None =>
                  let '(t, err) := exec_insert (insert_values reg) (conn s) in
                  (c, mkService t (runtime s), reg, err)
              end
        | None =>
            match oldReg with
            | Some _ => AmendRegistration c s reg
            | None =>
                let '(t, err) := exec_insert (insert_values reg) (conn s) in
                (c, mkService t (runtime s), reg, err)
            end
        end
    end
  else if String.eqb (runtime s) configuration.Production then
    let '(t, err) := exec_insert (insert_values reg) (conn s) in
    (c, mkService t (runtime s), reg, err)
  else
    (c, s, reg,
     Some (Errorf ("unknown runtime environment: " +:+ runtime s))).

(** [ORDER BY created_at DESC].  The column holds text: the driver writes a
    [time.Time] as [t.String()], the wall clock of the zone the process runs
    in followed by the zone offset, and reads the text back as the instant.
    SQLite orders such values as byte strings.  The instants of this
    development carry no zone, so the text written for an instant (a
    function of the instant for a process in one location) is the parameter
    [stored], and the rows are put in descending order of the stored text of
    [created_at].  Rows of equal text keep their table order
    here; SQLite leaves their order open, and what is proved of the listing
    holds for any fixed order of them. *)
Fixpoint insert_desc (stored : Time -> string) (r : Row) (sorted : list Row)
    : list Row :=
  match sorted with
  | [] => [r]
  | o :: rest =>
      if String.leb (stored (created_at o)) (stored (created_at r))
      then r :: sorted
      else o :: insert_desc stored r rest
  end.

Definition order_by_created_at_desc (stored : Time -> string) (t : Table)
    : list Row :=
  fold_right (insert_desc stored) [] t.

(** [SELECT ... FROM registrations ORDER BY created_at DESC LIMIT ? OFFSET ?],
    every row scanned.  A negative LIMIT is no limit and a negative OFFSET is
    no offset. *)
Definition GetRegistrations (stored : Time -> string) (s : Service)
    (limit offset : Z) : list Registration * option error :=
  let rows := order_by_created_at_desc stored (conn s) in
  let rows := skipn (Z.to_nat offset) rows in
  let rows := if limit <? 0 then rows else firstn (Z.to_nat limit) rows in
  (scan <$> rows, None).

End db.

(** ** package common *)

Module common.

Record Country : Type := mkCountry { Code : string; Name : string }.

Definition Countries : list Country :=
  [ mkCountry "US" "United States"; mkCountry "GB" "United Kingdom";
    mkCountry "CA" "Canada"; mkCountry "AU" "Australia";
    mkCountry "DE" "Germany"; mkCountry "FR" "France";
    mkCountry "ES" "Spain"; mkCountry "IT" "Italy";
    mkCountry "NL" "Netherlands"; mkCountry "BE" "Belgium";
    mkCountry "CH" "Switzerland"; mkCountry "AT" "Austria";
    mkCountry "SE" "Sweden"; mkCountry "NO" "Norway";
    mkCountry "DK" "Denmark"; mkCountry "FI" "Finland";
    mkCountry "IE" "Ireland"; mkCountry "PT" "Portugal";
    mkCountry "GR" "Greece"; mkCountry "LU" "Luxembourg";
    mkCountry "JP" "Japan"; mkCountry "CN" "China";
    mkCountry "IN" "India"; mkCountry "BR" "Brazil";
    mkCountry "MX" "Mexico"; mkCountry "ZA" "South Africa";
    mkCountry "AE" "United Arab Emirates"; mkCountry "SG" "Singapore";
    mkCountry "KR" "South Korea"; mkCountry "NZ" "New Zealand" ].

Definition IsValidCountry (code : string) : bool :=
  existsb (fun c => String.eqb (Code c) code) Countries.

(** [GetCountryName]: the name of the first country with that code, the
    empty string when there is none. *)
Definition GetCountryName (code : string) : string :=
  match find (fun c => String.eqb (Code c) code) Countries with
  | Some c => Name c
  | None => ""
  end.

End common.

(** ** unicode/utf8 *)

Module utf8.

(** A byte of a string as an integer in [0, 256). *)
Definition byte (c : ascii) : Z := Z.of_N (N_of_ascii c).

(** What is left of [s] after a first byte between [lo] and [hi]. *)
Definition after_byte (lo hi : Z) (s : string) : option string :=
  match s with
  | String c rest => if (lo <=? byte c) && (byte c <=? hi) then Some rest else None
  | EmptyString => None
  end.

(** The size of [utf8.DecodeRuneInString(s)] when [s] begins with a valid
    encoding, and 0 when it does not (the library then gives [RuneError] with
    size 1, or size 0 for the empty string).  The first byte decides the
    length and the range of the second byte; the other bytes are between
    0x80 and 0xBF. *)
Definition rune_length (s : string) : nat :=
  match s with
  | EmptyString => 0
  | String c rest =>
      let b := byte c in
      if b <? 128 then 1
      else if (194 <=? b) && (b <=? 223) then
        match after_byte 128 191 rest with
        | Some _ => 2
        | None => 0
        end
      else if (224 <=? b) && (b <=? 239) then
        match after_byte (if b =? 224 then 160 else 128)
                         (if b =? 237 then 159 else 191) rest with
        | Some rest =>
            match after_byte 128 191 rest with
            | Some _ => 3
            | None => 0
            end
        | None => 0
        end
      else if (240 <=? b) && (b <=? 244) then
        match after_byte (if b =? 240 then 144 else 128)
                         (if b =? 244 then 143 else 191) rest with
        | Some rest =>
            match after_byte 128 191 rest with
            | Some rest =>
                match after_byte 128 191 rest with
                | Some _ => 4
                | None => 0
                end
            | None => 0
            end
        | None => 0
        end
      else 0
  end.

(** U+FFFD in UTF-8. *)
Definition RuneError : string :=
  String (ascii_of_nat 239) (String (ascii_of_nat 191) (String (ascii_of_nat 189) "")).

(** [utf8.ValidString]: [s] is a sequence of valid encodings.  [inside] is
    the number of bytes still to come of the encoding being read. *)
Fixpoint valid_from (inside : nat) (s : string) : bool :=
  match s with
  | EmptyString => true
  | String c rest =>
      match inside with
      | S k => valid_from k rest
      | O =>
          match rune_length (String c rest) with
          | O => false
          | S k => valid_from k rest
          end
      end
  end.

Definition ValidString (s : string) : bool := valid_from 0 s.

(** The string that [encoding/json] writes and reads for [s]: every byte
    that does not begin a valid encoding is replaced by U+FFFD. *)
Fixpoint coerce_from (inside : nat) (s : string) : string :=
  match s with
  | EmptyString => EmptyString
  | String c rest =>
      match inside with
      | S k => String c (coerce_from k rest)
      | O =>
          match rune_length (String c rest) with
          | O => RuneError +:+ coerce_from 0 rest
          | S k => String c (coerce_from k rest)
          end
      end
  end.

Definition coerced (s : string) : string := coerce_from 0 s.

End utf8.

(** ** encoding/json, on JSON values

    The wire text is the compact rendering of a [value]; the functions below
    give what [json.Marshal] and [json.Unmarshal] do on the value a text
    denotes.  The strings of the value that a [Marshal] function builds are
    the Go strings it is given; the text written for them has U+FFFD in the
    place of every byte that is not part of a valid UTF-8 encoding, and
    [written] is the value that text denotes.  The decoder reads U+FFFD for
    such bytes as well, so the strings of a value that a text denotes are
    valid UTF-8.  A nil slice and an empty slice are both the empty list. *)

Module json.

Inductive value : Type :=
| JNull
| JBool (b : bool)
| JNumber (literal : string)
| JString (s : string)
| JArray (elems : list value)
| JObject (members : list (string * value)).

Definition kind (v : value) : string :=
  match v with
  | JNull => "null"
  | JBool _ => "bool"
  | JNumber _ => "number"
  | JString _ => "string"
  | JArray _ => "array"
  | JObject _ => "object"
  end.

(** A field tagged [omitempty] is left out when its value is empty. *)
Definition omitempty_string (name : string) (s : string) : list (string * value) :=
  if String.eqb s "" then [] else [(name, JString s)].

Definition code (c : ascii) : Z := Z.of_N (N_of_ascii c).

Definition upper (c : ascii) : ascii :=
  if (97 <=? code c) && (code c <=? 122)
  then ascii_of_N (N_of_ascii c - 32) else c.

(** [foldName]: ASCII letters go to upper case; of the other runes only
    U+017F and U+212A fold to an ASCII letter ([S] and [K]). *)
Fixpoint foldName (s : string) : string :=
  match s with
  | EmptyString => EmptyString
  | String c rest =>
      match rest with
      | EmptyString => String (upper c) EmptyString
      | String c1 rest1 =>
          if (code c =? 197) && (code c1 =? 191)
          then String "S" (foldName rest1)
          else
            match rest1 with
            | EmptyString => String (upper c) (foldName rest)
            | String c2 rest2 =>
                if (code c =? 226) && (code c1 =? 132) && (code c2 =? 170)
                then String "K" (foldName rest2)
                else String (upper c) (foldName rest)
            end
      end
  end.

(** The struct field an object key addresses: the field of that exact name,
    else the first field equal to it under [foldName], else none (the member
    is skipped). *)
Definition field_of (names : list string) (key : string) : option string :=
  match find (String.eqb key) names with
  | Some n => Some n
  | None => find (fun n => String.eqb (foldName n) (foldName key)) names
  end.

(** Decoding into a Go [string]: a JSON string is stored, [null] leaves the
    destination as it is, anything else is an [UnmarshalTypeError]. *)
Definition decode_string (field : string) (v : value) (cur : string)
    : result string :=
  match v with
  | JString s => Ok s
  | JNull => Ok cur
  | _ => Err (ErrUnmarshalType (kind v) field)
  end.

Fixpoint foldM {A B : Type} (f : A -> B -> result A) (a : A) (l : list B)
    : result A :=
  match l with
  | [] => Ok a
  | b :: l' =>
      match f a b with
      | Ok a' => foldM f a' l'
      | Err e => Err e
      end
  end.

Fixpoint mapM {A B : Type} (f : A -> result B) (l : list A) : result (list B) :=
  match l with
  | [] => Ok []
  | a :: l' =>
      match f a with
      | Ok b =>
          match mapM f l' with
          | Ok bs => Ok (b :: bs)
          | Err e => Err e
          end
      | Err e => Err e
      end
  end.

(** Decoding into a struct: the members of an object are stored one after
    the other, [null] leaves the struct as it is. *)
Definition decode_struct {A : Type} (field : string)
    (member : A -> string * value -> result A) (v : value) (cur : A)
    : result A :=
  match v with
  | JObject members => foldM member cur members
  | JNull => Ok cur
  | _ => Err (ErrUnmarshalType (kind v) field)
  end.

(** Decoding into a slice whose elements start from their zero value (as for
    the first occurrence of a key): an array gives its elements, [null] the
    nil slice. *)
Definition decode_slice {A : Type} (field : string)
    (elem : value -> result A) (v : value) : result (list A) :=
  match v with
  | JArray elems => mapM elem elems
  | JNull => Ok []
  | _ => Err (ErrUnmarshalType (kind v) field)
  end.

(** The value that the text written for [v] denotes: the encoder writes a
    string rune by rune, and U+FFFD where [utf8.DecodeRuneInString] finds no
    valid encoding. *)
Fixpoint written (v : value) : value :=
  match v with
  | JString s => JString (utf8.coerced s)
  | JArray elems => JArray (map written elems)
  | JObject members =>
      JObject (map (fun kx => (utf8.coerced (fst kx), written (snd kx))) members)
  | _ => v
  end.

End json.

(** ** Byte strings, encoding/hex, base58 and the P-256 keys of crypto/ecdsa *)

Module bytes.

(** A byte is an integer in [0, 256). *)
Definition byte := Z.

(** The [n] big-endian bytes of [x]. *)
Fixpoint big_endian (n : nat) (x : Z) : list byte :=
  match n with
  | O => []
  | S n' => (x / 256 ^ Z.of_nat n') mod 256 :: big_endian n' x
  end.

(** The integer a big-endian byte string denotes. *)
Definition to_Z (bs : list byte) : Z :=
  fold_left (fun acc b => acc * 256 + b) bs 0.

(** [b[lo:hi]]. *)
Definition slice {A : Type} (l : list A) (lo hi : nat) : list A :=
  firstn (hi - lo) (skipn lo l).

End bytes.

Module strings_.

(** [strings.TrimPrefix]. *)
Definition TrimPrefix (s prefix : string) : string :=
  if String.prefix prefix s
  then String.substring (String.length prefix)
                        (String.length s - String.length prefix) s
  else s.

Definition lower (c : ascii) : ascii :=
  if (65 <=? json.code c) && (json.code c <=? 90)
  then ascii_of_N (N_of_ascii c + 32) else c.

(** [strings.ToLower], as far as ASCII is concerned: ASCII letters go to
    lower case, and of the other runes only U+0130 and U+212A have an ASCII
    lower case ([i] and [k]); every other byte is kept. *)
Fixpoint ToLower (s : string) : string :=
  match s with
  | EmptyString => EmptyString
  | String c rest =>
      match rest with
      | EmptyString => String (lower c) EmptyString
      | String c1 rest1 =>
          if (json.code c =? 196) && (json.code c1 =? 176)
          then String "i" (ToLower rest1)
          else
            match rest1 with
            | EmptyString => String (lower c) (ToLower rest)
            | String c2 rest2 =>
                if (json.code c =? 226) && (json.code c1 =? 132)
                   && (json.code c2 =? 170)
                then String "k" (ToLower rest2)
                else String (lower c) (ToLower rest)
            end
      end
  end.

(** [strings.Join]. *)
Fixpoint Join (elems : list string) (sep : string) : string :=
  match elems with
  | [] => ""
  | [x] => x
  | x :: rest => x +:+ sep +:+ Join rest sep
  end.

(** The white space of Unicode in UTF-8, first byte first: the ASCII
    characters U+0009 to U+000D and U+0020, then U+0085, U+00A0, U+1680,
    U+2000 to U+200A, U+2028, U+2029, U+202F, U+205F and U+3000. *)
Definition spaces : list (list Z) :=
  [[9]; [10]; [11]; [12]; [13]; [32]; [194; 133]; [194; 160]; [225; 154; 128];
   [226; 128; 128]; [226; 128; 129]; [226; 128; 130]; [226; 128; 131];
   [226; 128; 132]; [226; 128; 133]; [226; 128; 134]; [226; 128; 135];
   [226; 128; 136]; [226; 128; 137]; [226; 128; 138]; [226; 128; 168];
   [226; 128; 169]; [226; 128; 175]; [226; 129; 159]; [227; 128; 128]].

(** What is left of [bs] after the bytes [p], if it begins with them. *)
Fixpoint strip (p bs : list Z) : option (list Z) :=
  match p, bs with
  | [], _ => Some bs
  | x :: p', b :: bs' => if x =? b then strip p' bs' else None
  | _ :: _, [] => None
  end.

(** What is left after one leading white space, if there is one. *)
Definition strip_space (select : list Z -> list Z) (bs : list Z) : option (list Z) :=
  fold_right (fun sp found =>
                match strip (select sp) bs with
                | Some rest => Some rest
                | None => found
                end) None spaces.

Fixpoint trim (select : list Z -> list Z) (fuel : nat) (bs : list Z) : list Z :=
  match fuel with
  | O => bs
  | S fuel' =>
      match strip_space select bs with
      | Some rest => trim select fuel' rest
      | None => bs
      end
  end.

Definition to_bytes (s : string) : list Z :=
  map json.code (list_ascii_of_string s).

Definition of_bytes (bs : list Z) : string :=
  string_of_list_ascii (map (fun b => ascii_of_N (Z.to_N b)) bs).

(** [strings.TrimSpace]: the leading white space is trimmed, then the
    trailing one, read backwards. *)
Definition TrimSpace (s : string) : string :=
  let bs := to_bytes s in
  let bs := trim (fun sp => sp) (length bs) bs in
  of_bytes (rev (trim (@rev Z) (length bs) (rev bs))).

End strings_.

Module hex.

Definition fromHexChar (c : ascii) : option Z :=
  let n := json.code c in
  if (48 <=? n) && (n <=? 57) then Some (n - 48)
  else if (97 <=? n) && (n <=? 102) then Some (n - 87)
  else if (65 <=? n) && (n <=? 70) then Some (n - 55)
  else None.

(** [hex.DecodeString]: the bytes decoded before the first invalid or
    unpaired character, and whether the whole string was decoded. *)
Fixpoint DecodeString (s : string) : list bytes.byte * bool :=
  match s with
  | EmptyString => ([], true)
  | String p EmptyString => ([], false)
  | String p (String q rest) =>
      match fromHexChar p, fromHexChar q with
      | Some a, Some b =>
          let '(bs, ok) := DecodeString rest in ((a * 16 + b) :: bs, ok)
      | _, _ => ([], false)
      end
  end.

End hex.

Module base58.

Definition alphabet : string :=
  "123456789ABCDEFGHJKLMNPQRSTUVWXYZabcdefghijkmnopqrstuvwxyz".

Definition encode (d : Z) : ascii :=
  match String.get (Z.to_nat d) alphabet with
  | Some c => c
  | None => "1"%char
  end.

Fixpoint leading_zeros (bin : list bytes.byte) : nat :=
  match bin with
  | b :: rest => if b =? 0 then S (leading_zeros rest) else O
  | [] => O
  end.

(** The base-58 digits of [n], most significant first. *)
Fixpoint digits (fuel : nat) (n : Z) (acc : list Z) : list Z :=
  match fuel with
  | O => acc
  | S fuel' => if n <=? 0 then acc else digits fuel' (n / 58) (n mod 58 :: acc)
  end.

(** [base58.Encode]: one [1] per leading zero byte, then the digits of the
    number the bytes denote. *)
Definition Encode (bin : list bytes.byte) : string :=
  string_of_list_ascii
    (repeat "1"%char (leading_zeros bin)
     ++ map encode (digits (2 * length bin) (bytes.to_Z bin) [])).

End base58.

Module ecdsa.

(** The curve P-256: y^2 = x^3 - 3x + b over the field of order [p], with
    base point [G] of order [n]. *)
Definition p : Z :=
  0xffffffff00000001000000000000000000000000ffffffffffffffffffffffff.
Definition n : Z :=
  0xffffffff00000000ffffffffffffffffbce6faada7179e84f3b9cac2fc632551.
Definition Gx : Z :=
  0x6b17d1f2e12c4247f8bce6e563a440f277037d812deb33a0f4a13945d898c296.
Definition Gy : Z :=
  0x4fe342e2fe1a7f9b8ee7eb4a7c0f9e162bce33576b315ececbb6406837bf51f5.

Fixpoint pow_mod (a : Z) (e : positive) : Z :=
  match e with
  | xH => a mod p
  | xO e' => let r := pow_mod a e' in (r * r) mod p
  | xI e' => let r := pow_mod a e' in ((r * r) mod p * a) mod p
  end.

Definition inv (a : Z) : Z :=
  match p - 2 with
  | Zpos e => pow_mod a e
  | _ => 0
  end.

(** A point of the curve in affine coordinates; [None] is the point at
    infinity. *)
Definition point := option (Z * Z).

Definition double (P : point) : point :=
  match P with
  | None => None
  | Some (x, y) =>
      if y mod p =? 0 then None
      else
        let l := ((3 * x * x - 3) * inv (2 * y)) mod p in
        let x3 := (l * l - 2 * x) mod p in
        Some (x3, (l * (x - x3) - y) mod p)
  end.

Definition add (P Q : point) : point :=
  match P, Q with
  | None, _ => Q
  | _, None => P
  | Some (x1, y1), Some (x2, y2) =>
      if (x1 - x2) mod p =? 0 then
        if (y1 - y2) mod p =? 0 then double P else None
      else
        let l := ((y2 - y1) * inv (x2 - x1)) mod p in
        let x3 := (l * l - x1 - x2) mod p in
        Some (x3, (l * (x1 - x3) - y1) mod p)
  end.

Fixpoint mul (k : positive) (P : point) : point :=
  match k with
  | xH => P
  | xO k' => double (mul k' P)
  | xI k' => add (double (mul k' P)) P
  end.

Definition ScalarBaseMult (d : Z) : point :=
  match d with
  | Zpos k => mul k (Some (Gx, Gy))
  | _ => None
  end.

Record PublicKey : Type := mkPublicKey { X : Z; Y : Z }.

Record PrivateKey : Type := mkPrivateKey { PublicKey_ : PublicKey; D : Z }.

(** [ecdsa.ParseRawPrivateKey(elliptic.P256(), data)]: [data] is the 32-byte
    big-endian scalar, which must lie strictly between 0 and [n]; the public
    key is the scalar multiple of the base point.  A scalar of another
    length is refused by the scalar multiplication; the refusals of a scalar
    out of range carry one text here, where the library has one per
    cause. *)
Definition ParseRawPrivateKey (data : list bytes.byte) : result PrivateKey :=
  if negb (length data =? 32)%nat then
    Err (ErrExternal "crypto/ecdsa" "invalid scalar length")
  else
    let d := bytes.to_Z data in
    if (d <=? 0) || (n <=? d) then
      Err (ErrExternal "crypto/ecdsa" "invalid private key")
    else
      match ScalarBaseMult d with
      | Some (x, y) => Ok (mkPrivateKey (mkPublicKey x y) d)
      | None => Err (ErrExternal "crypto/ecdsa" "invalid private key")
      end.

(** [PublicKey.Bytes()]: the uncompressed SEC 1 encoding, 0x04 || X || Y. *)
Definition Bytes (pub : PublicKey) : result (list bytes.byte) :=
  Ok (4 :: bytes.big_endian 32 (X pub) ++ bytes.big_endian 32 (Y pub)).

End ecdsa.

(** ** package credissuance: the issuance request and its wire form *)

Module credissuance.

Import json.

(** The [action] claim: one or many string tokens. *)
Definition Strings := list string.

Record Mandator : Type := mkMandator {
  OrganizationIdentifier : string;
  Organization : string;
  Country : string;
  CommonName : string;
  EmailAddress : string;
  SerialNumber : string
}.

Record Mandatee : Type := mkMandatee {
  FirstName : string;
  LastName : string;
  Nationality : string;
  Email : string
}.

Record Power : Type := mkPower {
  Type_ : string;
  Domain : string;
  Function : string;
  Action : Strings
}.

Record Payload : Type := mkPayload {
  Mandator_ : Mandator;
  Mandatee_ : Mandatee;
  Power_ : list Power
}.

Record LEARIssuanceRequestBody : Type := mkLEARIssuanceRequestBody {
  Schema : string;
  OperationMode : string;
  Format : string;
  ResponseUri : string;
  Payload_ : Payload
}.

(** [func (s Strings) MarshalJSON()]: a list of one element is rendered as
    that element, any other list as [json.Marshal([]string(s))] renders it.
    The list without elements is the nil slice, rendered as [null]; a slice
    that is empty and not nil, which would be rendered as the empty array,
    is not told apart, and [Marshal] writes neither: it leaves out an
    [action] without elements. *)
Definition Strings_MarshalJSON (s : Strings) : value :=
  match s with
  | [x] => JString x
  | [] => JNull
  | _ => JArray (map JString s)
  end.

Definition Marshal_Mandator (m : Mandator) : value :=
  JObject (omitempty_string "organizationIdentifier" (OrganizationIdentifier m)
           ++ omitempty_string "organization" (Organization m)
           ++ omitempty_string "country" (Country m)
           ++ omitempty_string "commonName" (CommonName m)
           ++ omitempty_string "emailAddress" (EmailAddress m)
           ++ omitempty_string "serialNumber" (SerialNumber m)).

Definition Marshal_Mandatee (m : Mandatee) : value :=
  JObject (omitempty_string "firstName" (FirstName m)
           ++ omitempty_string "lastName" (LastName m)
           ++ omitempty_string "nationality" (Nationality m)
           ++ omitempty_string "email" (Email m)).

Definition Marshal_Power (p : Power) : value :=
  JObject (omitempty_string "type" (Type_ p)
           ++ omitempty_string "domain" (Domain p)
           ++ omitempty_string "function" (Function p)
           ++ (if (length (Action p) =? 0)%nat then []
               else [("action", Strings_MarshalJSON (Action p))])).

Definition Marshal_Payload (p : Payload) : value :=
  JObject ([("mandator", Marshal_Mandator (Mandator_ p));
            ("mandatee", Marshal_Mandatee (Mandatee_ p))]
           ++ (if (length (Power_ p) =? 0)%nat then []
               else [("power", JArray (map Marshal_Power (Power_ p)))])).

(** [json.Marshal(learCredData)]; it has no failing case for this type. *)
Definition Marshal (b : LEARIssuanceRequestBody) : value :=
  JObject (omitempty_string "schema" (Schema b)
           ++ omitempty_string "operation_mode" (OperationMode b)
           ++ omitempty_string "format" (Format b)
           ++ omitempty_string "response_uri" (ResponseUri b)
           ++ [("payload", Marshal_Payload (Payload_ b))]).

(** *** Reading the wire form back *)

Definition zero_Mandator : Mandator := mkMandator "" "" "" "" "" "".
Definition zero_Mandatee : Mandatee := mkMandatee "" "" "" "".
Definition zero_Power : Power := mkPower "" "" "" [].
Definition zero_Payload : Payload := mkPayload zero_Mandator zero_Mandatee [].
Definition zero_LEARIssuanceRequestBody : LEARIssuanceRequestBody :=
  mkLEARIssuanceRequestBody "" "" "" "" zero_Payload.

Definition Mandator_member (m : Mandator) (kv : string * value) : result Mandator :=
  let '(key, v) := kv in
  match field_of ["organizationIdentifier"; "organization"; "country";
                  "commonName"; "emailAddress"; "serialNumber"] key with
  | None => Ok m
  | Some f =>
      if String.eqb f "organizationIdentifier" then
        match decode_string "Mandator.organizationIdentifier" v (OrganizationIdentifier m) with
        | Ok s => Ok (mkMandator s (Organization m) (Country m) (CommonName m)
                                 (EmailAddress m) (SerialNumber m))
        | Err e => Err e
        end
      else if String.eqb f "organization" then
        match decode_string "Mandator.organization" v (Organization m) with
        | Ok s => Ok (mkMandator (OrganizationIdentifier m) s (Country m) (CommonName m)
                                 (EmailAddress m) (SerialNumber m))
        | Err e => Err e
        end
      else if String.eqb f "country" then
        match decode_string "Mandator.country" v (Country m) with
        | Ok s => Ok (mkMandator (OrganizationIdentifier m) (Organization m) s (CommonName m)
                                 (EmailAddress m) (SerialNumber m))
        | Err e => Err e
        end
      else if String.eqb f "commonName" then
        match decode_string "Mandator.commonName" v (CommonName m) with
        | Ok s => Ok (mkMandator (OrganizationIdentifier m) (Organization m) (Country m) s
                                 (EmailAddress m) (SerialNumber m))
        | Err e => Err e
        end
      else if String.eqb f "emailAddress" then
        match decode_string "Mandator.emailAddress" v (EmailAddress m) with
        | Ok s => Ok (mkMandator (OrganizationIdentifier m) (Organization m) (Country m)
                                 (CommonName m) s (SerialNumber m))
        | Err e => Err e
        end
      else
        match decode_string "Mandator.serialNumber" v (SerialNumber m) with
        | Ok s => Ok (mkMandator (OrganizationIdentifier m) (Organization m) (Country m)
                                 (CommonName m) (EmailAddress m) s)
        | Err e => Err e
        end
  end.

Definition Mandatee_member (m : Mandatee) (kv : string * value) : result Mandatee :=
  let '(key, v) := kv in
  match field_of ["firstName"; "lastName"; "nationality"; "email"] key with
  | None => Ok m
  | Some f =>
      if String.eqb f "firstName" then
        match decode_string "Mandatee.firstName" v (FirstName m) with
        | Ok s => Ok (mkMandatee s (LastName m) (Nationality m) (Email m))
        | Err e => Err e
        end
      else if String.eqb f "lastName" then
        match decode_string "Mandatee.lastName" v (LastName m) with
        | Ok s => Ok (mkMandatee (FirstName m) s (Nationality m) (Email m))
        | Err e => Err e
        end
      else if String.eqb f "nationality" then
        match decode_string "Mandatee.nationality" v (Nationality m) with
        | Ok s => Ok (mkMandatee (FirstName m) (LastName m) s (Email m))
        | Err e => Err e
        end
      else
        match decode_string "Mandatee.email" v (Email m) with
        | Ok s => Ok (mkMandatee (FirstName m) (LastName m) (Nationality m) s)
        | Err e => Err e
        end
  end.

(** [Strings] declares no [UnmarshalJSON]: it is read as any [[]string], from
    an array of strings or [null]. *)
Definition decode_Strings (v : value) : result Strings :=
  decode_slice "Power.action" (fun e => decode_string "Power.action" e "") v.

Definition Power_member (p : Power) (kv : string * value) : result Power :=
  let '(key, v) := kv in
  match field_of ["type"; "domain"; "function"; "action"] key with
  | None => Ok p
  | Some f =>
      if String.eqb f "type" then
        match decode_string "Power.type" v (Type_ p) with
        | Ok s => Ok (mkPower s (Domain p) (Function p) (Action p))
        | Err e => Err e
        end
      else if String.eqb f "domain" then
        match decode_string "Power.domain" v (Domain p) with
        | Ok s => Ok (mkPower (Type_ p) s (Function p) (Action p))
        | Err e => Err e
        end
      else if String.eqb f "function" then
        match decode_string "Power.function" v (Function p) with
        | Ok s => Ok (mkPower (Type_ p) (Domain p) s (Action p))
        | Err e => Err e
        end
      else
        match decode_Strings v with
        | Ok a => Ok (mkPower (Type_ p) (Domain p) (Function p) a)
        | Err e => Err e
        end
  end.

Definition decode_Power (v : value) : result Power :=
  decode_struct "Payload.power" Power_member v zero_Power.

Definition Payload_member (p : Payload) (kv : string * value) : result Payload :=
  let '(key, v) := kv in
  match field_of ["mandator"; "mandatee"; "power"] key with
  | None => Ok p
  | Some f =>
      if String.eqb f "mandator" then
        match decode_struct "Payload.mandator" Mandator_member v (Mandator_ p) with
        | Ok m => Ok (mkPayload m (Mandatee_ p) (Power_ p))
        | Err e => Err e
        end
      else if String.eqb f "mandatee" then
        match decode_struct "Payload.mandatee" Mandatee_member v (Mandatee_ p) with
        | Ok m => Ok (mkPayload (Mandator_ p) m (Power_ p))
        | Err e => Err e
        end
      else
        match decode_slice "Payload.power" decode_Power v with
        | Ok l => Ok (mkPayload (Mandator_ p) (Mandatee_ p) l)
        | Err e => Err e
        end
  end.

Definition Body_member (b : LEARIssuanceRequestBody) (kv : string * value)
    : result LEARIssuanceRequestBody :=
  let '(key, v) := kv in
  match field_of ["schema"; "operation_mode"; "format"; "response_uri"; "payload"] key with
  | None => Ok b
  | Some f =>
      if String.eqb f "schema" then
        match decode_string "LEARIssuanceRequestBody.schema" v (Schema b) with
        | Ok s => Ok (mkLEARIssuanceRequestBody s (OperationMode b) (Format b)
                                                (ResponseUri b) (Payload_ b))
        | Err e => Err e
        end
      else if String.eqb f "operation_mode" then
        match decode_string "LEARIssuanceRequestBody.operation_mode" v (OperationMode b) with
        | Ok s => Ok (mkLEARIssuanceRequestBody (Schema b) s (Format b)
                                                (ResponseUri b) (Payload_ b))
        | Err e => Err e
        end
      else if String.eqb f "format" then
        match decode_string "LEARIssuanceRequestBody.format" v (Format b) with
        | Ok s => Ok (mkLEARIssuanceRequestBody (Schema b) (OperationMode b) s
                                                (ResponseUri b) (Payload_ b))
        | Err e => Err e
        end
      else if String.eqb f "response_uri" then
        match decode_string "LEARIssuanceRequestBody.response_uri" v (ResponseUri b) with
        | Ok s => Ok (mkLEARIssuanceRequestBody (Schema b) (OperationMode b) (Format b)
                                                s (Payload_ b))
        | Err e => Err e
        end
      else
        match decode_struct "LEARIssuanceRequestBody.payload" Payload_member v (Payload_ b) with
        | Ok p => Ok (mkLEARIssuanceRequestBody (Schema b) (OperationMode b) (Format b)
                                                (ResponseUri b) p)
        | Err e => Err e
        end
  end.

(** [ParseLEARIssuanceRequestBody(body)], on the JSON value [body] denotes:
    [json.Unmarshal(body, &req)] into a zero request. *)
Definition ParseLEARIssuanceRequestBody (body : value)
    : result LEARIssuanceRequestBody :=
  decode_struct "LEARIssuanceRequestBody" Body_member body
                zero_LEARIssuanceRequestBody.

(** The sample requests of the package. *)
Definition Cred1 : LEARIssuanceRequestBody :=
  mkLEARIssuanceRequestBody "LEARCredentialEmployee" "S" "jwt_vc_json" ""
    (mkPayload
       (mkMandator "VATES-123456" "Test Organization" "ES" "Test User"
                   "jesus@alastria.io" "")
       (mkMandatee "Test" "User" "ES" "jesus@alastria.io")
       [mkPower "domain" "DOME" "Onboarding" ["execute"]]).

Definition Cred2 : LEARIssuanceRequestBody :=
  mkLEARIssuanceRequestBody "LEARCredentialEmployee" "S" "jwt_vc_json" ""
    (mkPayload
       (mkMandator "" "" "" "" "" "")
       (mkMandatee "" "" "" "")
       [mkPower "domain" "DOME" "Onboarding" ["execute"]]).

(** *** The issuance client *)

Record VerifierConfig : Type := mkVerifierConfig {
  URL : string;
  TokenEndpoint : string
}.

Record IssuerConfig : Type := mkIssuerConfig {
  CredentialIssuancePath : string
}.

(** The fields of [configuration.EnvConfig] the client reads. *)
Record EnvConfig : Type := mkEnvConfig {
  PrivateKeyFile : string;
  MachineCredentialFile : string;
  MyDidkey : string;
  Verifier : VerifierConfig;
  Issuer : IssuerConfig
}.

Record LEARIssuance : Type := mkLEARIssuance {
  privateKey : ecdsa.PrivateKey;
  machineCredential : string;
  verifierTokenEndpoint : string;
  verifierURL : string;
  myDidkey : string;
  credentialIssuancePath : string
}.

(** The 33-byte compressed form of an uncompressed public key: the parity of
    the last byte of Y selects the prefix, X follows. *)
Definition compress (uncompressed : list bytes.byte) : list bytes.byte :=
  let xBytes := bytes.slice uncompressed 1 33 in
  let yLastByte := nth 64 uncompressed 0 in
  let compressedPrefix := if negb (yLastByte mod 2 =? 0) then 3 else 2 in
  [compressedPrefix] ++ xBytes.

Definition varintPrefix : list bytes.byte := [128; 36].

Definition didKeyOf (uncompressed : list bytes.byte) : string :=
  "did:key:z" +:+ base58.Encode (varintPrefix ++ compress uncompressed).

(** [NewLEARIssuance(config)]; [ReadFile] is [os.ReadFile] on the files of
    the host. *)
Definition NewLEARIssuance (ReadFile : string -> io string)
    (config : EnvConfig) : result LEARIssuance :=
  match from "os" (ReadFile (PrivateKeyFile config)) with
  | Err err => Err err
  | Ok pemBytesRaw =>
      let hexKey := strings_.TrimPrefix pemBytesRaw "0x" in
      let hexKey := strings_.TrimPrefix hexKey "0X" in
      let dBytes := fst (hex.DecodeString hexKey) in
      match ecdsa.ParseRawPrivateKey dBytes with
      | Err err => Err err
      | Ok privateKey =>
          match ecdsa.Bytes (ecdsa.PublicKey_ privateKey) with
          | Err err => Err err
          | Ok uncompressed =>
              let didKey := didKeyOf uncompressed in
              if negb (String.eqb didKey (MyDidkey config)) then
                Err (Errorf "the private key does not correspond to the did:key in the configuration")
              else
                match from "os" (ReadFile (MachineCredentialFile config)) with
                | Err err => Err err
                | Ok buf =>
                    Ok (mkLEARIssuance privateKey buf
                          (TokenEndpoint (Verifier config))
                          (URL (Verifier config))
                          (MyDidkey config)
                          (CredentialIssuancePath (Issuer config)))
                end
          end
      end
  end.

(** What the client exchanges with the Verifier and the Issuer. *)
Record Request : Type := mkRequest {
  Method : string;
  Target : string;
  Header : list (string * string);
  Body : value
}.

(** A response: its status and what [io.ReadAll(resp.Body)] gives. *)
Record Response : Type := mkResponse {
  StatusCode : Z;
  Status : string;
  ReadAll : io (list bytes.byte)
}.

(** The collaborators of [LEARIssuanceRequest]: the token exchange
    ([TokenRequest], a sub-protocol of its own), whether [http.NewRequest]
    accepts a target, and the round trip of [http.DefaultClient]. *)
Record Network : Type := mkNetwork {
  TokenRequest : string -> string -> string -> string -> ecdsa.PrivateKey -> result string;
  NewRequest_accepts : string -> bool;
  Do : Request -> io Response
}.

(** A call either returns or panics. *)
Inductive outcome (A : Type) : Type :=
| Returns (a : A)
| Panics (msg : string).
Arguments Returns {A} a.
Arguments Panics {A} msg.

(** [func (l *LEARIssuance) LEARIssuanceRequest(learCredData)].  The error of
    [http.NewRequest] is dropped by the code, so a target it refuses leaves a
    nil request whose header is then written. *)
Definition LEARIssuanceRequest (net : Network) (l : LEARIssuance)
    (learCredData : LEARIssuanceRequestBody) : outcome (result (list bytes.byte)) :=
  match TokenRequest net (verifierTokenEndpoint l) (machineCredential l)
                     (myDidkey l) (verifierURL l) (privateKey l) with
  | Err err => Returns (Err err)
  | Ok access_token =>
      let buf := json.written (Marshal learCredData) in
      if negb (NewRequest_accepts net (credentialIssuancePath l)) then
        Panics "runtime error: invalid memory address or nil pointer dereference"
      else
        let req := mkRequest "POST" (credentialIssuancePath l)
                     [("Content-Type", "application/json");
                      ("Authorization", "Bearer " +:+ access_token)] buf in
        match from "net/http" (Do net req) with
        | Err err => Returns (Err err)
        | Ok resp =>
            if (StatusCode resp <? 200) || (StatusCode resp >? 399) then
              Returns (Err (Errorf ("error calling LEAR Issuance Endpoint: "
                                    +:+ Status resp)))
            else
              match from "io" (ReadAll resp) with
              | Err err => Returns (Err err)
              | Ok ResponseBody => Returns (Ok ResponseBody)
              end
        end
  end.

End credissuance.

(** ** package mail, as the notification capability

    The handlers use the two entry points of [*mail.Service] through what a
    call gives: the error it returns ([None] is nil), or a panic.  How a
    message is rendered and delivered is the matter of the service itself,
    [mailer] below, whose capability is [mailer.sender]. *)

Module mail.

Record Service : Type := mkService {
  SendWelcomeEmail : db.Registration -> credissuance.outcome (option error);
  SendIssuerError :
    db.Registration -> json.value -> string -> credissuance.outcome (option error)
}.

End mail.

(** ** package mail: the service behind the notification capability *)

Module mailer.

Import configuration.

Record Service : Type := mkService {
  runtime : configuration.RuntimeEnv;
  onboardTeamEmail : list string;
  issuerTeamEmail : list string;
  ccTeamEmail : list string;
  smtpConfig : SMTPConfig;
  password : string
}.

(** [smtp.PlainAuth(identity, username, password, host)]. *)
Record Auth : Type := mkAuth {
  identity : string;
  username : string;
  secret : string;
  host : string
}.

(** What the service asks of the network, in the order it asks. *)
Inductive Op : Type :=
| tls_Dial (network addr serverName : string)
| smtp_NewClient (host : string)
| Client_Auth (a : Auth)
| Client_Mail (from : string)
| Client_Rcpt (to : string)
| Client_Data
| Writer_Write (msg : string)
| Writer_Close
| Client_Quit
| Conn_Close
| smtp_SendMail (addr : string) (a : Auth) (from : string) (to : list string)
                (msg : string).

(** The environment of the service: its files, its templates (a parsed template
    renders the data it is given), and the network, which answers each
    operation, given the operations before it, with nothing or with the
    text of an error. *)
Record Env (Template : Type) : Type := mkEnv {
  ReadFile : string -> io string;
  ParseFiles : string -> io Template;
  ExecuteTemplate : Template -> string -> list (string * string) -> io string;
  answer : list Op -> Op -> option string
}.
Arguments ReadFile {Template} _ _.
Arguments ParseFiles {Template} _ _.
Arguments ExecuteTemplate {Template} _ _ _ _.
Arguments answer {Template} _ _ _.

Section Service.

Context {Template : Type}.
Variable h : Env Template.

(** One operation on the network: its answer, and the log with it. *)
Definition perform (op : Op) (log : list Op) : option string * list Op :=
  (answer h log op, log ++ [op]).

(** [fmt.Errorf(prefix + ": %w", err)]. *)
Definition wrap (prefix origin msg : string) : error :=
  Errorf (prefix +:+ ": " +:+ Error (ErrExternal origin msg)).

Definition NewMailService (runtime : configuration.RuntimeEnv) (cfg : MailConfig)
    : result Service :=
  if negb (Enabled (SMTP cfg)) then
    Ok (mkService runtime [] [] [] (SMTP cfg) "")
  else
    match ReadFile h (PasswordFile (SMTP cfg)) with
    | Failed msg => Err (wrap "failed to read SMTP password file" "os" msg)
    | Done passwordBytes =>
        Ok (mkService runtime (OnboardTeamEmail cfg) (IssuerTeamEmail cfg)
                      (CCTeamEmail cfg) (SMTP cfg) (strings_.TrimSpace passwordBytes))
    end.

Definition newline : string := String (ascii_of_nat 10) "".
Definition quote : string := String (ascii_of_nat 34) "".

Definition mime : string :=
  "MIME-version: 1.0;" +:+ newline +:+ "Content-Type: text/html; charset="
  +:+ quote +:+ "UTF-8" +:+ quote +:+ ";" +:+ newline +:+ newline.

(** The message: three header lines, the MIME lines and the body. *)
Definition message (from : string) (to : list string) (subject body : string)
    : string :=
  "From: " +:+ from +:+ newline
  +:+ "To: " +:+ strings_.Join to ", " +:+ newline
  +:+ "Subject: " +:+ subject +:+ newline
  +:+ mime +:+ body.

(** [for _, addr := range to { c.Rcpt(addr) }], up to the first refusal. *)
Fixpoint recipients (to : list string) (log : list Op) : option string * list Op :=
  match to with
  | [] => (None, log)
  | addr :: rest =>
      match perform (Client_Rcpt addr) log with
      | (Some msg, log) => (Some msg, log)
      | (None, log) => recipients rest log
      end
  end.

(** The session over implicit TLS, from [c.Auth] to the closing of the data
    writer. *)
Definition session (a : Auth) (from : string) (to : list string) (msg : string)
    (log : list Op) : option error * list Op :=
  match perform (Client_Auth a) log with
  | (Some e, log) => (Some (wrap "failed to authenticate" "net/smtp" e), log)
  | (None, log) =>
      match perform (Client_Mail from) log with
      | (Some e, log) => (Some (wrap "failed to set sender" "net/smtp" e), log)
      | (None, log) =>
          match recipients to log with
          | (Some e, log) => (Some (wrap "failed to add recipient" "net/smtp" e), log)
          | (None, log) =>
              match perform Client_Data log with
              | (Some e, log) =>
                  (Some (wrap "failed to open data writer" "net/smtp" e), log)
              | (None, log) =>
                  match perform (Writer_Write msg) log with
                  | (Some e, log) =>
                      (Some (wrap "failed to write message" "net/smtp" e), log)
                  | (None, log) =>
                      match perform Writer_Close log with
                      | (Some e, log) =>
                          (Some (wrap "failed to close data writer" "net/smtp" e), log)
                      | (None, log) => (None, log)
                      end
                  end
              end
          end
      end
  end.

(** The delivery of a message: over implicit TLS when [TLS] is set and the
    port is 465 (the deferred [c.Quit()] and [conn.Close()] run at the
    end), with [smtp.SendMail] otherwise. *)
Definition deliver (s : Service) (to : list string) (subject body : string)
    (log : list Op) : option error * list Op :=
  let from := Username (smtpConfig s) in
  let msg := message from to subject body in
  let addr := Host (smtpConfig s) +:+ ":" +:+ pretty (Port (smtpConfig s)) in
  let auth := mkAuth "" (Username (smtpConfig s)) (password s) (Host (smtpConfig s)) in
  if TLS (smtpConfig s) && (Port (smtpConfig s) =? 465) then
    match perform (tls_Dial "tcp" addr (Host (smtpConfig s))) log with
    | (Some e, log) => (Some (wrap "failed to dial TLS" "crypto/tls" e), log)
    | (None, log) =>
        let '(err, log) :=
          match perform (smtp_NewClient (Host (smtpConfig s))) log with
          | (Some e, log) =>
              (Some (wrap "failed to create SMTP client" "net/smtp" e), log)
          | (None, log) =>
              let '(err, log) := session auth from to msg log in
              (err, snd (perform Client_Quit log))
          end in
        (err, snd (perform Conn_Close log))
    end
  else
    match perform (smtp_SendMail addr auth from to msg) log with
    | (Some e, log) => (Some (ErrExternal "net/smtp" e), log)
    | (None, log) => (None, log)
    end.

(** Parsing a template file and executing its [content] template. *)
Definition render (file : string) (data : list (string * string)) : result string :=
  match ParseFiles h file with
  | Failed msg => Err (wrap "failed to parse email template" "html/template" msg)
  | Done tmpl =>
      match ExecuteTemplate h tmpl "content" data with
      | Failed msg => Err (wrap "failed to execute email template" "html/template" msg)
      | Done body => Ok body
      end
  end.

Definition SendWelcomeEmail (s : Service) (reg : db.Registration) (log : list Op)
    : credissuance.outcome (option error) * list Op :=
  if negb (Enabled (smtpConfig s)) then (credissuance.Returns None, log)
  else
    match onboardTeamEmail s with
    | [] =>
        (credissuance.Panics "runtime error: index out of range [0] with length 0",
         log)
    | first :: _ =>
        let data :=
          [("RegistrationID", db.RegistrationID reg); ("Email", db.Email reg);
           ("FirstName", db.FirstName reg); ("LastName", db.LastName reg);
           ("CompanyName", db.CompanyName reg); ("Country", db.Country reg);
           ("VatID", db.VatID reg); ("Runtime", runtime s);
           ("OnboardTeamEmail", first)] in
        match render "src/email/email_welcome.html" data with
        | Err err => (credissuance.Returns (Some err), log)
        | Ok body =>
            let to := [db.Email reg] ++ ccTeamEmail s in
            let '(err, log) := deliver s to "Welcome to DOME Marketplace!" body log in
            (credissuance.Returns err, log)
        end
    end.

Definition SendIssuerError (s : Service) (reg : db.Registration)
    (payload errorMsg : string) (log : list Op)
    : credissuance.outcome (option error) * list Op :=
  if negb (Enabled (smtpConfig s)) then (credissuance.Returns None, log)
  else
    let data :=
      [("FirstName", db.FirstName reg); ("CompanyName", db.CompanyName reg);
       ("RegistrationID", db.RegistrationID reg); ("Payload", payload);
       ("ErrorMsg", errorMsg); ("Runtime", runtime s)] in
    match render "src/email/issuer_error.html" data with
    | Err err => (credissuance.Returns (Some err), log)
    | Ok body =>
        let to := issuerTeamEmail s in
        let '(err, log) :=
          deliver s to "DOME: Error in Credential Issuer during customer registration"
                  body log in
        (credissuance.Returns err, log)
    end.

End Service.

(** The service as the handlers hold it.  [text] is the indented text of the
    payload ([string(buf)] of [json.MarshalIndent]); each call is answered by
    the network as it stands after [log]. *)
Definition sender {Template : Type} (h : Env Template) (text : json.value -> string)
    (s : Service) (log : list Op) : mail.Service :=
  mail.mkService
    (fun reg => fst (SendWelcomeEmail h s reg log))
    (fun reg payload errorMsg =>
       fst (SendIssuerError h s reg (text payload) errorMsg log)).

End mailer.

(** ** regexp, by derivatives *)

Module regexp.

Inductive Regexp : Type :=
| Fail
| Eps
| Class (f : ascii -> bool)
| Cat (r1 r2 : Regexp)
| Alt (r1 r2 : Regexp)
| Star (r : Regexp).

Fixpoint nullable (r : Regexp) : bool :=
  match r with
  | Fail => false
  | Eps => true
  | Class _ => false
  | Cat r1 r2 => nullable r1 && nullable r2
  | Alt r1 r2 => nullable r1 || nullable r2
  | Star _ => true
  end.

Definition cat (r1 r2 : Regexp) : Regexp :=
  match r1, r2 with
  | Fail, _ => Fail
  | _, Fail => Fail
  | Eps, _ => r2
  | _, _ => Cat r1 r2
  end.

Definition alt (r1 r2 : Regexp) : Regexp :=
  match r1, r2 with
  | Fail, _ => r2
  | _, Fail => r1
  | _, _ => Alt r1 r2
  end.

Fixpoint deriv (c : ascii) (r : Regexp) : Regexp :=
  match r with
  | Fail => Fail
  | Eps => Fail
  | Class f => if f c then Eps else Fail
  | Cat r1 r2 =>
      if nullable r1 then alt (cat (deriv c r1) r2) (deriv c r2)
      else cat (deriv c r1) r2
  | Alt r1 r2 => alt (deriv c r1) (deriv c r2)
  | Star r1 => cat (deriv c r1) (Star r1)
  end.

(** Whether the whole of [s] is a word of [r]. *)
Fixpoint MatchString (r : Regexp) (s : string) : bool :=
  match s with
  | EmptyString => nullable r
  | String c s' => MatchString (deriv c r) s'
  end.

Definition plus (r : Regexp) : Regexp := Cat r (Star r).

End regexp.

(** ** package server *)

Module server.

Import json.

(** The reply to the API calls; [JNull] is the nil [Data], which
    [omitempty] leaves out. *)
Record APIResponse : Type := mkAPIResponse {
  Success : bool;
  Message : string;
  Data : value
}.

(** What a handler writes: [SendJSON], or [http.Error]. *)
Inductive Response : Type :=
| JSONResponse (status : Z) (body : APIResponse)
| TextResponse (status : Z) (text : string).

Definition StatusOK : Z := 200.
Definition StatusBadRequest : Z := 400.
Definition StatusForbidden : Z := 403.
Definition StatusMethodNotAllowed : Z := 405.
Definition StatusTooManyRequests : Z := 429.
Definition StatusInternalServerError : Z := 500.

Record RateLimitEntry : Type := mkRateLimitEntry {
  Count : Z;
  StartTime : Time
}.

Record VerificationCodeEntry : Type := mkVerificationCodeEntry {
  Code : string;
  CreatedAt : Time
}.

Record RegistrationRequest : Type := mkRegistrationRequest {
  FirstName : string;
  LastName : string;
  CompanyName : string;
  Country : string;
  VatId : string;
  Email : string;
  Website : string
}.

(** An inbound request: its method, the value of its [X-Requested-With]
    header (empty when absent) and the JSON value its body holds, if it holds
    one. *)
Record Request : Type := mkRequest {
  Method : string;
  XRequestedWith : string;
  Body : option value
}.

(** The [Server] struct; [C] is the type of the values of
    [VerificationCodes]: the code itself for the handlers, a
    [VerificationCodeEntry] for the functions of the verification gate. *)
Record Server (C : Type) : Type := mkServer {
  DB : db.Service;
  Issuer : credissuance.LEARIssuance;
  Mail : mail.Service;
  EmailRateLimiter : gmap string RateLimitEntry;
  VerificationCodes : gmap string C
}.
Arguments mkServer {C} _ _ _ _ _.
Arguments DB {C} _.
Arguments Issuer {C} _.
Arguments Mail {C} _.
Arguments EmailRateLimiter {C} _.
Arguments VerificationCodes {C} _.

(** The calls a handler makes to its collaborators, in order. *)
Inductive Call : Type :=
| CallSaveRegistration (reg : db.Registration)
| CallUpdateRegistrationStatus (reg : db.Registration)
| CallLEARIssuanceRequest (cred : credissuance.LEARIssuanceRequestBody)
| CallSendIssuerError (reg : db.Registration) (payload : value) (errorMsg : string)
| CallSendWelcomeEmail (reg : db.Registration).

(** Everything a handler can read or change: the server, the clock, the
    random source, the local calendar ([Time.Format("20060102")]), the
    network, and the record of the calls made. *)
Record World (C : Type) : Type := mkWorld {
  server_ : Server C;
  clock : Clock;
  entropy : nat -> Z;
  drawn : nat;
  Format20060102 : Time -> string;
  network : credissuance.Network;
  calls : list Call
}.
Arguments mkWorld {C} _ _ _ _ _ _ _.
Arguments server_ {C} _.
Arguments clock {C} _.
Arguments entropy {C} _.
Arguments drawn {C} _.
Arguments Format20060102 {C} _.
Arguments network {C} _.
Arguments calls {C} _.

Definition M (C A : Type) : Type := World C -> A * World C.

Definition ret {C A : Type} (a : A) : M C A := fun w => (a, w).

Definition bind {C A B : Type} (m : M C A) (k : A -> M C B) : M C B :=
  fun w => let '(a, w') := m w in k a w'.

#[global] Instance M_bind (C : Type) : MBind (M C) := fun A B k m => bind m k.
#[global] Instance M_ret (C : Type) : MRet (M C) := fun A a => ret a.

Definition with_server {C : Type} (w : World C) (s : Server C) : World C :=
  mkWorld s (clock w) (entropy w) (drawn w) (Format20060102 w) (network w) (calls w).

Definition with_clock {C : Type} (w : World C) (c : Clock) : World C :=
  mkWorld (server_ w) c (entropy w) (drawn w) (Format20060102 w) (network w) (calls w).

Definition now {C : Type} : M C Time :=
  fun w => let '(t, c) := Now (clock w) in (t, with_clock w c).

(** [time.Since(t)]. *)
Definition Since {C : Type} (t : Time) : M C Duration :=
  n ← now; ret (Sub n t).

(** [rand.Int(rand.Reader, max)]. *)
Definition randInt {C : Type} (max : Z) : M C Z :=
  fun w => (entropy w (drawn w) mod max,
            mkWorld (server_ w) (clock w) (entropy w) (S (drawn w))
                    (Format20060102 w) (network w) (calls w)).

Definition record {C : Type} (c : Call) : M C unit :=
  fun w => (tt, mkWorld (server_ w) (clock w) (entropy w) (drawn w)
                        (Format20060102 w) (network w) (calls w ++ [c])).

Definition getRateLimiter {C : Type} : M C (gmap string RateLimitEntry) :=
  fun w => (EmailRateLimiter (server_ w), w).

Definition setRateLimiter {C : Type} (m : gmap string RateLimitEntry) : M C unit :=
  fun w => (tt, with_server w
                  (mkServer (DB (server_ w)) (Issuer (server_ w)) (Mail (server_ w))
                            m (VerificationCodes (server_ w)))).

Definition getCodes {C : Type} : M C (gmap string C) :=
  fun w => (VerificationCodes (server_ w), w).

Definition setCodes {C : Type} (m : gmap string C) : M C unit :=
  fun w => (tt, with_server w
                  (mkServer (DB (server_ w)) (Issuer (server_ w)) (Mail (server_ w))
                            (EmailRateLimiter (server_ w)) m)).

(** *** The verification gate *)

Definition expirationLimit : Duration := 15 * Minute.

(** [cleanupExpired]: entries older than 15 minutes leave both maps. *)
Definition cleanupExpired : M VerificationCodeEntry unit :=
  n ← now;
  limiter ← getRateLimiter;
  setRateLimiter
    (filter (fun kv : string * RateLimitEntry =>
               ~ (expirationLimit < Sub n (StartTime kv.2))) limiter) ;;
  codes ← getCodes;
  setCodes
    (filter (fun kv : string * VerificationCodeEntry =>
               ~ (expirationLimit < Sub n (CreatedAt kv.2))) codes).

(** [RegisterEmailAttempt]: whether [email] may receive a code; the rate
    limiter is updated. *)
Definition RegisterEmailAttempt (email : string) : M VerificationCodeEntry bool :=
  cleanupExpired ;;
  limiter ← getRateLimiter;
  match limiter !! email with
  | None =>
      t ← now;
      setRateLimiter (<[email := mkRateLimitEntry 1 t]> limiter) ;;
      ret true
  | Some entry =>
      since ← Since (StartTime entry);
      if since >? 3 * Minute then
        t ← now;
        setRateLimiter (<[email := mkRateLimitEntry 1 t]> limiter) ;;
        ret true
      else if Count entry >=? 3 then
        ret false
      else
        setRateLimiter
          (<[email := mkRateLimitEntry (Count entry + 1) (StartTime entry)]> limiter) ;;
        ret true
  end.

Definition StoreVerificationCode (email code : string) : M VerificationCodeEntry unit :=
  codes ← getCodes;
  t ← now;
  setCodes (<[email := mkVerificationCodeEntry code t]> codes).

Definition VerifyCode (email code : string) : M VerificationCodeEntry bool :=
  codes ← getCodes;
  match codes !! email with
  | None => ret false
  | Some entry =>
      if negb (String.eqb (Code entry) code) then ret false
      else
        setCodes (delete email codes) ;;
        ret true
  end.

(** *** The handlers *)

Definition SendJSON {C : Type} (status : Z) (success : bool) (message : string)
    (data : value) : M C (option Response) :=
  ret (Some (JSONResponse status (mkAPIResponse success message data))).

(** [validateCSRF] checks the X-Requested-With header. *)
Definition validateCSRF (r : Request) : bool :=
  negb (String.eqb (XRequestedWith r) "").

(** [fmt.Sprintf("%0<width>d", n)] for [0 <= n < 10 ^ width]. *)
Fixpoint decimal (width : nat) (n : Z) : string :=
  match width with
  | O => EmptyString
  | S w =>
      String (ascii_of_N (Z.to_N (48 + (n / 10 ^ Z.of_nat w) mod 10)))
             (decimal w n)
  end.

Definition generateCode {C : Type} : M C string :=
  n ← randInt 1000000;
  ret (decimal 6 n).

Definition is_lower (c : ascii) : bool := (97 <=? code c) && (code c <=? 122).
Definition is_digit (c : ascii) : bool := (48 <=? code c) && (code c <=? 57).
Definition is_char (x : ascii) (c : ascii) : bool := Ascii.eqb c x.

(** [^[a-z0-9._%+\-]+@[a-z0-9.\-]+\.[a-z]{2,}$] *)
Definition emailPattern : regexp.Regexp :=
  let local := regexp.Class (fun c =>
      is_lower c || is_digit c || is_char "." c || is_char "_" c
      || is_char "%" c || is_char "+" c || is_char "-" c) in
  let domain := regexp.Class (fun c =>
      is_lower c || is_digit c || is_char "." c || is_char "-" c) in
  let letter := regexp.Class is_lower in
  regexp.Cat (regexp.plus local)
    (regexp.Cat (regexp.Class (is_char "@"))
       (regexp.Cat (regexp.plus domain)
          (regexp.Cat (regexp.Class (is_char "."))
             (regexp.Cat letter (regexp.Cat letter (regexp.Star letter)))))).

(** [isValidEmail] checks if the email address provided has a valid format. *)
Definition isValidEmail (email : string) : bool :=
  regexp.MatchString emailPattern (strings_.ToLower email).

(** [t.Format("20060102")] in the local calendar. *)
Definition Format {C : Type} (t : Time) : M C string :=
  fun w => (Format20060102 w t, w).

(** [generateRegistrationID]: YYYYMMDD-{8-digit}. *)
Definition generateRegistrationID {C : Type} : M C string :=
  t ← now;
  dateStr ← Format t;
  n ← randInt 100000000;
  ret (dateStr +:+ "-" +:+ decimal 8 n).

(** [json.NewDecoder(r.Body).Decode(&req)]. *)
Definition Decode {A : Type} (member : A -> string * value -> result A)
    (zero : A) (body : option value) : result A :=
  match body with
  | None => Err (ErrExternal "encoding/json" "invalid character")
  | Some v => decode_struct "" member v zero
  end.

Definition email_member (req : string) (kv : string * value) : result string :=
  let '(key, v) := kv in
  match field_of ["email"] key with
  | None => Ok req
  | Some _ => decode_string "email" v req
  end.

Definition HandleValidateEmail (r : Request) : M string (option Response) :=
  if negb (String.eqb (Method r) "POST") then
    ret (Some (TextResponse StatusMethodNotAllowed "Method not allowed"))
  else if negb (validateCSRF r) then
    SendJSON StatusForbidden false "Security check failed: missing CSRF header" JNull
  else
    match Decode email_member "" (Body r) with
    | Err _ => SendJSON StatusBadRequest false "Invalid request body" JNull
    | Ok reqEmail =>
        if String.eqb reqEmail "" || negb (isValidEmail reqEmail) then
          SendJSON StatusBadRequest false "A valid email is required" JNull
        else
          (* Rate limiting *)
          limiter ← getRateLimiter;
          allowed ←
            match limiter !! reqEmail with
            | None =>
                t ← now;
                setRateLimiter (<[reqEmail := mkRateLimitEntry 1 t]> limiter) ;;
                ret true
            | Some entry =>
                since ← Since (StartTime entry);
                if since >? 3 * Minute then
                  t ← now;
                  setRateLimiter (<[reqEmail := mkRateLimitEntry 1 t]> limiter) ;;
                  ret true
                else if Count entry >=? 3 then
                  ret false
                else
                  setRateLimiter
                    (<[reqEmail := mkRateLimitEntry (Count entry + 1) (StartTime entry)]>
                       limiter) ;;
                  ret true
            end;
          if negb allowed then
            SendJSON StatusTooManyRequests false
                     "Too many requests. Please wait a few minutes." JNull
          else
            (* Generate and store code *)
            code ← generateCode;
            codes ← getCodes;
            setCodes (<[reqEmail := code]> codes) ;;
            SendJSON StatusOK true "Validation code sent to your email"
                     (JObject [("code", JString code)])
    end.

Definition verify_member (req : string * string) (kv : string * value)
    : result (string * string) :=
  let '(key, v) := kv in
  match field_of ["email"; "code"] key with
  | None => Ok req
  | Some f =>
      if String.eqb f "email" then
        match decode_string "email" v (fst req) with
        | Ok s => Ok (s, snd req)
        | Err e => Err e
        end
      else
        match decode_string "code" v (snd req) with
        | Ok s => Ok (fst req, s)
        | Err e => Err e
        end
  end.

Definition HandleVerifyCode (r : Request) : M string (option Response) :=
  if negb (String.eqb (Method r) "POST") then
    ret (Some (TextResponse StatusMethodNotAllowed "Method not allowed"))
  else if negb (validateCSRF r) then
    SendJSON StatusForbidden false "Security check failed: missing CSRF header" JNull
  else
    match Decode verify_member ("", "") (Body r) with
    | Err _ => SendJSON StatusBadRequest false "Invalid request body" JNull
    | Ok (reqEmail, reqCode) =>
        codes ← getCodes;
        match codes !! reqEmail with
        | None => SendJSON StatusBadRequest false "Invalid verification code" JNull
        | Some expectedCode =>
            if negb (String.eqb expectedCode reqCode) then
              SendJSON StatusBadRequest false "Invalid verification code" JNull
            else
              codes ← getCodes;
              setCodes (delete reqEmail codes) ;;
              SendJSON StatusOK true "Email verified successfully" JNull
        end
    end.

Definition zero_RegistrationRequest : RegistrationRequest :=
  mkRegistrationRequest "" "" "" "" "" "" "".

Definition RegistrationRequest_member (q : RegistrationRequest)
    (kv : string * value) : result RegistrationRequest :=
  let '(key, v) := kv in
  match field_of ["firstName"; "lastName"; "companyName"; "country"; "vatId";
                  "email"; "website"] key with
  | None => Ok q
  | Some f =>
      if String.eqb f "firstName" then
        match decode_string "RegistrationRequest.firstName" v (FirstName q) with
        | Ok s => Ok (mkRegistrationRequest s (LastName q) (CompanyName q) (Country q)
                                            (VatId q) (Email q) (Website q))
        | Err e => Err e
        end
      else if String.eqb f "lastName" then
        match decode_string "RegistrationRequest.lastName" v (LastName q) with
        | Ok s => Ok (mkRegistrationRequest (FirstName q) s (CompanyName q) (Country q)
                                            (VatId q) (Email q) (Website q))
        | Err e => Err e
        end
      else if String.eqb f "companyName" then
        match decode_string "RegistrationRequest.companyName" v (CompanyName q) with
        | Ok s => Ok (mkRegistrationRequest (FirstName q) (LastName q) s (Country q)
                                            (VatId q) (Email q) (Website q))
        | Err e => Err e
        end
      else if String.eqb f "country" then
        match decode_string "RegistrationRequest.country" v (Country q) with
        | Ok s => Ok (mkRegistrationRequest (FirstName q) (LastName q) (CompanyName q) s
                                            (VatId q) (Email q) (Website q))
        | Err e => Err e
        end
      else if String.eqb f "vatId" then
        match decode_string "RegistrationRequest.vatId" v (VatId q) with
        | Ok s => Ok (mkRegistrationRequest (FirstName q) (LastName q) (CompanyName q)
                                            (Country q) s (Email q) (Website q))
        | Err e => Err e
        end
      else if String.eqb f "email" then
        match decode_string "RegistrationRequest.email" v (Email q) with
        | Ok s => Ok (mkRegistrationRequest (FirstName q) (LastName q) (CompanyName q)
                                            (Country q) (VatId q) s (Website q))
        | Err e => Err e
        end
      else
        match decode_string "RegistrationRequest.website" v (Website q) with
        | Ok s => Ok (mkRegistrationRequest (FirstName q) (LastName q) (CompanyName q)
                                            (Country q) (VatId q) (Email q) s)
        | Err e => Err e
        end
  end.

Definition Validate (s : RegistrationRequest) : option error :=
  if String.eqb (FirstName s) "" then Some (Errorf "first name is required")
  else if String.eqb (LastName s) "" then Some (Errorf "last name is required")
  else if String.eqb (CompanyName s) "" then Some (Errorf "company name is required")
  else if String.eqb (Country s) "" then Some (Errorf "country is required")
  else if negb (common.IsValidCountry (Country s)) then Some (Errorf "invalid country code")
  else if String.eqb (VatId s) "" then Some (Errorf "VAT ID is required")
  else if String.eqb (Email s) "" then Some (Errorf "email is required")
  else if negb (isValidEmail (Email s)) then Some (Errorf "invalid email address format")
  else None.

(** The calls on [s.DB], [s.Issuer] and [s.Mail], each recorded. *)
Definition setDB {C : Type} (d : db.Service) : M C unit :=
  fun w => (tt, with_server w
                  (mkServer d (Issuer (server_ w)) (Mail (server_ w))
                            (EmailRateLimiter (server_ w)) (VerificationCodes (server_ w)))).

Definition SaveRegistration {C : Type} (reg : db.Registration)
    : M C (db.Registration * option error) :=
  fun w =>
    let '(_, w) := record (CallSaveRegistration reg) w in
    let '(c, d, reg', err) := db.SaveRegistration (clock w) (DB (server_ w)) reg in
    ((reg', err), snd (setDB d (with_clock w c))).

Definition UpdateRegistrationStatus {C : Type} (reg : db.Registration)
    : M C (db.Registration * option error) :=
  fun w =>
    let '(_, w) := record (CallUpdateRegistrationStatus reg) w in
    let '(c, d, reg', err) := db.UpdateRegistrationStatus (clock w) (DB (server_ w)) reg in
    ((reg', err), snd (setDB d (with_clock w c))).

Definition LEARIssuanceRequest {C : Type} (cred : credissuance.LEARIssuanceRequestBody)
    : M C (credissuance.outcome (result (list bytes.byte))) :=
  fun w =>
    let '(_, w) := record (CallLEARIssuanceRequest cred) w in
    (credissuance.LEARIssuanceRequest (network w) (Issuer (server_ w)) cred, w).

Definition SendIssuerError {C : Type} (reg : db.Registration) (payload : value)
    (errorMsg : string) : M C (credissuance.outcome (option error)) :=
  fun w =>
    let '(_, w) := record (CallSendIssuerError reg payload errorMsg) w in
    (mail.SendIssuerError (Mail (server_ w)) reg payload errorMsg, w).

Definition SendWelcomeEmail {C : Type} (reg : db.Registration)
    : M C (credissuance.outcome (option error)) :=
  fun w =>
    let '(_, w) := record (CallSendWelcomeEmail reg) w in
    (mail.SendWelcomeEmail (Mail (server_ w)) reg, w).

(** The welcome email and the registration with its outcome recorded; a
    panic of the mail service goes up to the handler. *)
Definition welcome {C : Type} (reg : db.Registration)
    : M C (credissuance.outcome db.Registration) :=
  sent ← SendWelcomeEmail reg;
  match sent with
  | credissuance.Panics msg => ret (credissuance.Panics msg)
  | credissuance.Returns (Some err) =>
      ret (credissuance.Returns (db.set_NotifEmailError reg (Error err)))
  | credissuance.Returns None =>
      t ← now;
      ret (credissuance.Returns
             (db.set_NotifEmailError (db.set_NotifEmailAt reg t) ""))
  end.

(** [HandleRegister] handles the registration process; [None] is the handler
    ending in a panic (of the issuance client or of the mail service), with
    nothing written. *)
Definition HandleRegister {C : Type} (r : Request) : M C (option Response) :=
  if negb (String.eqb (Method r) "POST") then
    ret (Some (TextResponse StatusMethodNotAllowed "Method not allowed"))
  else if negb (validateCSRF r) then
    SendJSON StatusForbidden false "Security check failed: missing CSRF header" JNull
  else
    match Decode RegistrationRequest_member zero_RegistrationRequest (Body r) with
    | Err _ => SendJSON StatusBadRequest false "Invalid request body" JNull
    | Ok requestData =>
        if negb (String.eqb (Website requestData) "") then
          SendJSON StatusOK true "Registration successful" JNull
        else
          match Validate requestData with
          | Some err => SendJSON StatusBadRequest false (Error err) JNull
          | None =>
              let cred :=
                credissuance.mkLEARIssuanceRequestBody
                  "LEARCredentialEmployee" "S" "jwt_vc_json" ""
                  (credissuance.mkPayload
                     (credissuance.mkMandator
                        (Country requestData +:+ "-" +:+ VatId requestData)
                        (CompanyName requestData)
                        (Country requestData)
                        (FirstName requestData +:+ " " +:+ LastName requestData)
                        (Email requestData)
                        "")
                     (credissuance.mkMandatee
                        (FirstName requestData) (LastName requestData)
                        (Country requestData) (Email requestData))
                     [credissuance.mkPower "domain" "DOME" "Onboarding"
                                           ["execute"; "verify"]]) in
              regID ← generateRegistrationID;
              let reg :=
                db.mkRegistration regID (Email requestData) (FirstName requestData)
                  (LastName requestData) (CompanyName requestData)
                  (Country requestData) (VatId requestData)
                  zeroTime zeroTime zeroTime "" zeroTime "" in
              (* Create an initial registration in the database *)
              '(reg, err) ← SaveRegistration reg;
              match err with
              | Some err =>
                  SendJSON StatusInternalServerError false
                           "Failed to save registration" (JString (Error err))
              | None =>
                  t ← now;
                  let reg := db.set_IssuanceAt reg t in
                  res ← LEARIssuanceRequest cred;
                  match res with
                  | credissuance.Panics _ => ret None
                  | credissuance.Returns (Err issError) =>
                      let reg := db.set_IssuanceError reg (Error issError) in
                      '(reg, _) ← UpdateRegistrationStatus reg;
                      let buf := json.written (credissuance.Marshal cred) in
                      sent ← SendIssuerError reg buf (db.IssuanceError reg);
                      match sent with
                      | credissuance.Panics _ => ret None
                      | credissuance.Returns _ =>
                          reg ← welcome reg;
                          match reg with
                          | credissuance.Panics _ => ret None
                          | credissuance.Returns reg =>
                              UpdateRegistrationStatus reg ;;
                              SendJSON StatusOK true "Registration successful" JNull
                          end
                      end
                  | credissuance.Returns (Ok _) =>
                      let reg := db.set_IssuanceError reg "" in
                      '(reg, _) ← UpdateRegistrationStatus reg;
                      reg ← welcome reg;
                      match reg with
                      | credissuance.Panics _ => ret None
                      | credissuance.Returns reg =>
                          UpdateRegistrationStatus reg ;;
                          SendJSON StatusOK true "Registration successful" JNull
                      end
                  end
              end
          end
    end.

(** *** The server *)

(** [NewServer]: the services as given, empty maps. *)
Definition NewServer {C : Type} (dbService : db.Service)
    (issuer : credissuance.LEARIssuance) (mailService : mail.Service) : Server C :=
  mkServer dbService issuer mailService ∅ ∅.

End server.

(** * The terms of the statements

    What the properties below talk about: the worlds a call leaves behind,
    well-formed requests and the replies to them, the members of a wire
    form, and the sample inputs at which the properties are instantiated. *)

(** ** The verification gate *)

Section GateTerms.

Import server.

#[local] Abbreviation GateWorld := (World VerificationCodeEntry).

(** The world after a successful verification of [email]: only the entry of
    [email] has left [VerificationCodes]. *)
Definition consumed (w : GateWorld) (email : string) : GateWorld :=
  with_server w
    (mkServer (DB (server_ w)) (Issuer (server_ w)) (Mail (server_ w))
              (EmailRateLimiter (server_ w))
              (delete email (VerificationCodes (server_ w)))).

(** A run of [VerifyCode] calls, for any emails and codes. *)
Fixpoint verifications (l : list (string * string)) (w : GateWorld) : GateWorld :=
  match l with
  | [] => w
  | (email, code) :: l' => verifications l' (snd (VerifyCode email code w))
  end.

(** A well-formed verification request. *)
Definition verifyRequest (email code : string) : Request :=
  mkRequest "POST" "XMLHttpRequest"
            (Some (json.JObject [("email", json.JString email);
                                 ("code", json.JString code)])).

Definition emailVerified : option Response :=
  Some (JSONResponse StatusOK
          (mkAPIResponse true "Email verified successfully" json.JNull)).

Definition invalidCode : option Response :=
  Some (JSONResponse StatusBadRequest
          (mkAPIResponse false "Invalid verification code" json.JNull)).

End GateTerms.

(** ** The per-email limiter *)

Section LimiterTerms.

Import server.

(** The world a request leaves behind: new limiter and codes, [n] more clock
    readings and [d] more random draws. *)
Definition after {C : Type} (w : World C) (limiter : gmap string RateLimitEntry)
    (codes : gmap string C) (n d : nat) : World C :=
  mkWorld (mkServer (DB (server_ w)) (Issuer (server_ w)) (Mail (server_ w))
                    limiter codes)
          (mkClock (n + ticks (clock w)) (reading (clock w)))
          (entropy w) (d + drawn w) (Format20060102 w) (network w) (calls w).

(** The n-th reading of the clock from now on. *)
Definition at_ {C : Type} (w : World C) (n : nat) : Time :=
  reading (clock w) (n + ticks (clock w)).

(** A well-formed request for a code for [email]. *)
Definition codeRequest (email : string) : Request :=
  mkRequest "POST" "XMLHttpRequest" (Some (json.JObject [("email", json.JString email)])).

Definition codeSent (code : string) : option Response :=
  Some (JSONResponse StatusOK
          (mkAPIResponse true "Validation code sent to your email"
                         (json.JObject [("code", json.JString code)]))).

Definition tooManyRequests : option Response :=
  Some (JSONResponse StatusTooManyRequests
          (mkAPIResponse false "Too many requests. Please wait a few minutes."
                         json.JNull)).

(** The code drawn by the next [generateCode]. *)
Definition nextCode {C : Type} (w : World C) : string :=
  decimal 6 (entropy w (drawn w) mod 1000000).

(** A request for [email] opens a window in [w]: the limiter has no entry
    for it, or one whose 3 minutes are over at the next clock reading. *)
Definition opensWindow {C : Type} (w : World C) (email : string) : Prop :=
  match EmailRateLimiter (server_ w) !! email with
  | None => True
  | Some entry => 3 * Minute < at_ w 0 - StartTime entry
  end.

(** The start of the window of [email] in [w]. *)
Definition windowStart {C : Type} (w : World C) (email : string) : Time :=
  match EmailRateLimiter (server_ w) !! email with
  | None => zeroTime
  | Some entry => StartTime entry
  end.

End LimiterTerms.

(** ** The registration workflow *)

Section WorkflowTerms.

Import server.

Context {C : Type}.

(** The reply [{success: true, message: "Registration successful"}] with
    status 200. *)
Definition registrationSuccessful : option Response :=
  Some (JSONResponse StatusOK
          (mkAPIResponse true "Registration successful" json.JNull)).

(** What [HandleRegister] decodes from the body of [r]. *)
Definition decoded (r : Request) : result RegistrationRequest :=
  Decode RegistrationRequest_member zero_RegistrationRequest (Body r).

(** The issuance request built from the form data. *)
Definition credentialFor (requestData : RegistrationRequest)
    : credissuance.LEARIssuanceRequestBody :=
  credissuance.mkLEARIssuanceRequestBody
    "LEARCredentialEmployee" "S" "jwt_vc_json" ""
    (credissuance.mkPayload
       (credissuance.mkMandator
          (Country requestData +:+ "-" +:+ VatId requestData)
          (CompanyName requestData)
          (Country requestData)
          (FirstName requestData +:+ " " +:+ LastName requestData)
          (Email requestData)
          "")
       (credissuance.mkMandatee
          (FirstName requestData) (LastName requestData)
          (Country requestData) (Email requestData))
       [credissuance.mkPower "domain" "DOME" "Onboarding" ["execute"; "verify"]]).

(** The registration [HandleRegister] builds in world [w]: its id is made of
    the date of the next clock reading and the next random draw. *)
Definition newRegistration (w : World C) (requestData : RegistrationRequest)
    : db.Registration :=
  db.mkRegistration
    (Format20060102 w (reading (clock w) (ticks (clock w))) +:+ "-"
     +:+ decimal 8 (entropy w (drawn w) mod 100000000))
    (Email requestData) (FirstName requestData) (LastName requestData)
    (CompanyName requestData) (Country requestData) (VatId requestData)
    zeroTime zeroTime zeroTime "" zeroTime "".

(** The rows that carry the id and email of [reg] and its issuance error. *)
Definition recorded (t : list db.Row) (id email issuanceError : string) : Prop :=
  exists row, In row t
    /\ db.registration_id row = id
    /\ db.email row = email
    /\ db.issuance_error row = issuanceError.

End WorkflowTerms.

(** ** The issuance client *)

Section IssuanceTerms.

Import credissuance.

(** The request the client posts to the Issuer. *)
Definition issuanceRequest (l : LEARIssuance) (access_token : string)
    (learCredData : LEARIssuanceRequestBody) : Request :=
  mkRequest "POST" (credentialIssuancePath l)
            [("Content-Type", "application/json");
             ("Authorization", "Bearer " +:+ access_token)]
            (json.written (Marshal learCredData)).

(** The error that carries the HTTP status of a response. *)
Definition statusError (resp : Response) : error :=
  Errorf ("error calling LEAR Issuance Endpoint: " +:+ Status resp).

(** Every member (key with its value) of a JSON value, at any depth. *)
Fixpoint all_members (v : json.value) : list (string * json.value) :=
  match v with
  | json.JArray elems =>
      (fix elements (l : list json.value) : list (string * json.value) :=
         match l with
         | [] => []
         | e :: l' => all_members e ++ elements l'
         end) elems
  | json.JObject members =>
      (fix entries (l : list (string * json.value)) : list (string * json.value) :=
         match l with
         | [] => []
         | (k, x) :: l' => (k, x) :: all_members x ++ entries l'
         end) members
  | _ => []
  end.

(** The empty values: [null], [false], [0], the empty string, array and
    object. *)
Definition is_empty (v : json.value) : bool :=
  match v with
  | json.JNull => true
  | json.JBool b => negb b
  | json.JNumber n => String.eqb n "0"
  | json.JString s => String.eqb s ""
  | json.JArray elems => match elems with [] => true | _ => false end
  | json.JObject members => match members with [] => true | _ => false end
  end.

Definition entries_of (members : list (string * json.value))
    : list (string * json.value) :=
  flat_map (fun kx => (fst kx, snd kx) :: all_members (snd kx)) members.

(** The three ways a key can carry an empty value in the wire form of [b]. *)
Definition empty_by_design (b : LEARIssuanceRequestBody) (k : string)
    (v : json.value) : Prop :=
  (k = "mandator" /\ v = json.JObject [] /\ Mandator_ (Payload_ b) = zero_Mandator)
  \/ (k = "mandatee" /\ v = json.JObject [] /\ Mandatee_ (Payload_ b) = zero_Mandatee)
  \/ (k = "action" /\ v = json.JString ""
      /\ exists p : Power, In p (Power_ (Payload_ b)) /\ Action p = [""]).

(** A request whose mandator and mandatee are empty and whose only power has
    the action list of one empty token. *)
Definition blankRequest : LEARIssuanceRequestBody :=
  mkLEARIssuanceRequestBody "LEARCredentialEmployee" "S" "jwt_vc_json" ""
    (mkPayload zero_Mandator zero_Mandatee
               [mkPower "domain" "DOME" "Onboarding" [""]]).

(** The wire form of [Cred1] with its [action] written as an array. *)
Definition Cred1_array_form : json.value :=
  json.JObject
    [("schema", json.JString "LEARCredentialEmployee");
     ("operation_mode", json.JString "S");
     ("format", json.JString "jwt_vc_json");
     ("payload",
      json.JObject
        [("mandator",
          json.JObject
            [("organizationIdentifier", json.JString "VATES-123456");
             ("organization", json.JString "Test Organization");
             ("country", json.JString "ES");
             ("commonName", json.JString "Test User");
             ("emailAddress", json.JString "jesus@alastria.io")]);
         ("mandatee",
          json.JObject
            [("firstName", json.JString "Test");
             ("lastName", json.JString "User");
             ("nationality", json.JString "ES");
             ("email", json.JString "jesus@alastria.io")]);
         ("power",
          json.JArray
            [json.JObject
               [("type", json.JString "domain");
                ("domain", json.JString "DOME");
                ("function", json.JString "Onboarding");
                ("action", json.JArray [json.JString "execute"])]])])].

(** Every string a request holds. *)
Definition strings_of (b : LEARIssuanceRequestBody) : list string :=
  [Schema b; OperationMode b; Format b; ResponseUri b;
   OrganizationIdentifier (Mandator_ (Payload_ b));
   Organization (Mandator_ (Payload_ b)); Country (Mandator_ (Payload_ b));
   CommonName (Mandator_ (Payload_ b)); EmailAddress (Mandator_ (Payload_ b));
   SerialNumber (Mandator_ (Payload_ b));
   FirstName (Mandatee_ (Payload_ b)); LastName (Mandatee_ (Payload_ b));
   Nationality (Mandatee_ (Payload_ b)); Email (Mandatee_ (Payload_ b))]
  ++ flat_map (fun p => [Type_ p; Domain p; Function p] ++ Action p)
              (Power_ (Payload_ b)).

(** A member as the text written for it denotes it. *)
Definition written_member (kx : string * json.value) : string * json.value :=
  (utf8.coerced (fst kx), json.written (snd kx)).

(** The sample [Cred1] with a schema of one byte that is no UTF-8, and the
    request that is read back from its wire form. *)
Definition garbledRequest : LEARIssuanceRequestBody :=
  mkLEARIssuanceRequestBody (String (ascii_of_nat 255) "") "S" "jwt_vc_json" ""
    (mkPayload (Mandator_ (Payload_ Cred1)) (Mandatee_ (Payload_ Cred1)) []).

Definition replacedRequest : LEARIssuanceRequestBody :=
  mkLEARIssuanceRequestBody utf8.RuneError "S" "jwt_vc_json" ""
    (mkPayload (Mandator_ (Payload_ Cred1)) (Mandatee_ (Payload_ Cred1)) []).

End IssuanceTerms.

(** ** The key identity *)

Section KeyIdentityTerms.

Import credissuance.

(** Coordinates reduced modulo the field order. *)
Definition reduced (P : ecdsa.point) : Prop :=
  match P with
  | None => True
  | Some (x, y) => (0 <= x < ecdsa.p) /\ (0 <= y < ecdsa.p)
  end.

(** The bytes [NewLEARIssuance] hands to [ParseRawPrivateKey] for a key file
    holding [raw]. *)
Definition rawScalar (raw : string) : list bytes.byte :=
  fst (hex.DecodeString
         (strings_.TrimPrefix (strings_.TrimPrefix raw "0x") "0X")).

Definition identityMismatch : error :=
  Errorf "the private key does not correspond to the did:key in the configuration".

(** The identifier of a public key, in the words of the specification:
    [did:key:z] followed by the base58 encoding of the two tag bytes and the
    compressed key (parity prefix, then X). *)
Definition DeriveIdentifier (pub : ecdsa.PublicKey) : string :=
  "did:key:z"
  +:+ base58.Encode ([128; 36]
                     ++ [if Z.even (ecdsa.Y pub) then 2 else 3]
                     ++ bytes.big_endian 32 (ecdsa.X pub)).

(** A key file holding the scalar 1, whose public key is the base point, and
    a configuration naming its identifier and a machine credential file that
    does not exist. *)
Definition sampleKeyFile : string :=
  "0x0000000000000000000000000000000000000000000000000000000000000001".

Definition sampleFiles (path : string) : io string :=
  if String.eqb path "key.hex" then Done sampleKeyFile
  else Failed ("open " +:+ path +:+ ": no such file or directory").

Definition sampleConfig : EnvConfig :=
  mkEnvConfig "key.hex" "machine.jwt"
              "did:key:zDnaepsL7AXenJkVYdkh5KuKsSU7Ykh7kyXaLLU7auN9FWSiZ"
              (mkVerifierConfig "https://verifier.example" "https://verifier.example/token")
              (mkIssuerConfig "https://issuer.example/issue").

Definition sampleKey : ecdsa.PrivateKey :=
  ecdsa.mkPrivateKey (ecdsa.mkPublicKey ecdsa.Gx ecdsa.Gy) 1.

End KeyIdentityTerms.

(** ** The table as a whole *)

Section StoreTerms.

Import db.

(** The UNIQUE columns of the table hold no value twice. *)
Definition unique_columns (t : Table) : Prop :=
  NoDup (registration_id <$> t) /\ NoDup (email <$> t) /\ NoDup (vat_id <$> t).

(** [a] and [b] agree on every column but [created_at]. *)
Definition same_but_created_at (a b : Registration) : Prop :=
  RegistrationID a = RegistrationID b /\ Email a = Email b
  /\ FirstName a = FirstName b /\ LastName a = LastName b
  /\ CompanyName a = CompanyName b /\ Country a = Country b
  /\ VatID a = VatID b /\ UpdatedAt a = UpdatedAt b
  /\ IssuanceAt a = IssuanceAt b /\ IssuanceError a = IssuanceError b
  /\ NotifEmailAt a = NotifEmailAt b /\ NotifEmailError a = NotifEmailError b.

(** The row a registration is stored as by an amendment at time [now] of a
    row created at [created], the status columns stamped at [stamp]; a first
    insertion at time [t] stores [amended reg t t t]. *)
Definition amended (reg : Registration) (created stamp now : Time) : Row :=
  mkRow (RegistrationID reg) (Email reg) (FirstName reg) (LastName reg)
        (CompanyName reg) (Country reg) (VatID reg) created now stamp "" stamp "".

(** The row carries the identity columns of the registration. *)
Definition holds (r : Row) (reg : Registration) : Prop :=
  registration_id r = RegistrationID reg /\ email r = Email reg
  /\ first_name r = FirstName reg /\ last_name r = LastName reg
  /\ company_name r = CompanyName reg /\ country r = Country reg
  /\ vat_id r = VatID reg.

(** Descending order of the text stored for [created_at]. *)
Definition text_desc (stored : Time -> string) (a b : Row) : Prop :=
  String.leb (stored (created_at b)) (stored (created_at a)) = true.

(** No row of [t] carries both keys. *)
Definition absent {K1 K2 : Type} (f : Row -> K1) (g : Row -> K2) (k1 : K1) (k2 : K2)
    (t : Table) : Prop :=
  forall r, In r t -> ~ (f r = k1 /\ g r = k2).

End StoreTerms.

(** ** Requests, replies and sessions *)

Section RequestTerms.

Import server.

(** The replies to the requests a handler refuses. *)
Definition methodNotAllowed : option Response :=
  Some (TextResponse StatusMethodNotAllowed "Method not allowed").

Definition badRequest (status : Z) (message : string) : option Response :=
  Some (JSONResponse status (mkAPIResponse false message json.JNull)).

Definition csrfMissing : option Response :=
  badRequest StatusForbidden "Security check failed: missing CSRF header".

Definition invalidBody : option Response :=
  badRequest StatusBadRequest "Invalid request body".

(** The reply to a registration that could not be saved: the error text of
    the store travels in [data]. *)
Definition saveFailed (err : error) : option Response :=
  Some (JSONResponse StatusInternalServerError
          (mkAPIResponse false "Failed to save registration"
                         (json.JString (Error err)))).

(** A body that is no JSON text, or one whose value is neither an object nor
    [null]: a struct cannot be decoded from it. *)
Definition not_a_struct (body : option json.value) : Prop :=
  match body with
  | None | Some (json.JBool _) | Some (json.JNumber _) | Some (json.JString _)
  | Some (json.JArray _) => True
  | Some json.JNull | Some (json.JObject _) => False
  end.

(** A session: requests to the three handlers, in any order.  A [Route]
    names the handler a request is routed to ([/api/validate-email],
    [/api/verify-code], [/api/register]). *)
Inductive Route : Type :=
| ValidateEmail
| VerifyCode_
| Register.

Definition handle (route : Route) (r : Request) : M string (option Response) :=
  match route with
  | ValidateEmail => HandleValidateEmail r
  | VerifyCode_ => HandleVerifyCode r
  | Register => HandleRegister r
  end.

Fixpoint session (l : list (Route * Request)) (w : World string) : World string :=
  match l with
  | [] => w
  | (route, r) :: l' => session l' (snd (handle route r w))
  end.

(** The rows that carry the id and email of a registration, with their
    issuance and notification errors. *)
Definition recorded_status (t : list db.Row) (id email issuanceError notifError : string)
    : Prop :=
  exists row, In row t
    /\ db.registration_id row = id
    /\ db.email row = email
    /\ db.issuance_error row = issuanceError
    /\ db.notif_email_error row = notifError.

(** Every character of [s] is a decimal digit. *)
Fixpoint all_digits (s : string) : bool :=
  match s with
  | EmptyString => true
  | String c s' => is_digit c && all_digits s'
  end.

End RequestTerms.

Section GateMoreTerms.

Import server.

(** Every entry of the limiter counts between one and three requests. *)
Definition counts_bounded {C : Type} (w : World C) : Prop :=
  forall (email : string) (entry : RateLimitEntry),
    EmailRateLimiter (server_ w) !! email = Some entry -> 1 <= Count entry <= 3.

(** The world [w] with other maps. *)
Definition with_maps {C : Type} (w : World C) (limiter : gmap string RateLimitEntry)
    (codes : gmap string C) : World C :=
  with_server w
    (mkServer (DB (server_ w)) (Issuer (server_ w)) (Mail (server_ w)) limiter codes).

End GateMoreTerms.

(** ** Key files *)

Section KeyFileTerms.

(** Every character of [s] is a hexadecimal digit. *)
Fixpoint hex_digits (s : string) : bool :=
  match s with
  | EmptyString => true
  | String c s' =>
      match hex.fromHexChar c with Some _ => hex_digits s' | None => false end
  end.

(** [s] begins with two hexadecimal digits. *)
Definition begins_with_hex_pair (s : string) : bool :=
  match s with
  | String p (String q _) =>
      match hex.fromHexChar p, hex.fromHexChar q with
      | Some _, Some _ => true
      | _, _ => false
      end
  | _ => false
  end.

End KeyFileTerms.

(** ** Email addresses *)

Section EmailTerms.

Import server.

(** The words of a regular expression. *)
Inductive matches : regexp.Regexp -> string -> Prop :=
| matches_eps : matches regexp.Eps ""
| matches_class (f : ascii -> bool) (c : ascii) :
    f c = true -> matches (regexp.Class f) (String c "")
| matches_cat (r1 r2 : regexp.Regexp) (s1 s2 : string) :
    matches r1 s1 -> matches r2 s2 -> matches (regexp.Cat r1 r2) (s1 +:+ s2)
| matches_alt_l (r1 r2 : regexp.Regexp) (s : string) :
    matches r1 s -> matches (regexp.Alt r1 r2) s
| matches_alt_r (r1 r2 : regexp.Regexp) (s : string) :
    matches r2 s -> matches (regexp.Alt r1 r2) s
| matches_star_nil (r : regexp.Regexp) : matches (regexp.Star r) ""
| matches_star_cons (r : regexp.Regexp) (s1 s2 : string) :
    matches r s1 -> matches (regexp.Star r) s2 ->
    matches (regexp.Star r) (s1 +:+ s2).

(** The character classes of the email pattern. *)
Definition local_char (c : ascii) : bool :=
  is_lower c || is_digit c || is_char "." c || is_char "_" c
  || is_char "%" c || is_char "+" c || is_char "-" c.

Definition domain_char (c : ascii) : bool :=
  is_lower c || is_digit c || is_char "." c || is_char "-" c.

(** Every character of [s] is in the class [f]. *)
Fixpoint all_chars (f : ascii -> bool) (s : string) : bool :=
  match s with
  | EmptyString => true
  | String c s' => f c && all_chars f s'
  end.

End EmailTerms.

(** ** The properties at concrete inputs *)

Section InstancesTerms.

Import server.

(** A server in development with an empty table and empty maps, a clock
    that advances one second per reading, and an Issuer that answers every
    request with status 500. *)
Definition sampleIssuance : credissuance.LEARIssuance :=
  credissuance.mkLEARIssuance sampleKey "machine-credential"
    "https://verifier.example/token" "https://verifier.example"
    "did:key:zDnaepsL7AXenJkVYdkh5KuKsSU7Ykh7kyXaLLU7auN9FWSiZ"
    "https://issuer.example/issue".

Definition sampleMail : mail.Service :=
  mail.mkService (fun _ => credissuance.Returns None)
                 (fun _ _ _ => credissuance.Returns None).

Definition serverError : credissuance.Response :=
  credissuance.mkResponse 500 "500 Internal Server Error" (Done []).

Definition sampleNetwork : credissuance.Network :=
  credissuance.mkNetwork (fun _ _ _ _ _ => Ok "access-token") (fun _ => true)
                         (fun _ => Done serverError).

Definition sampleWorld : World string :=
  mkWorld (mkServer (db.mkService [] configuration.Development)
                    sampleIssuance sampleMail ∅ ∅)
          (mkClock 0 (fun n => Z.of_nat n * Second))
          (fun n => 12345678 + Z.of_nat n) 0
          (fun _ => "20260222")
          sampleNetwork [].

Definition formBody (website : string) : json.value :=
  json.JObject
    [("firstName", json.JString "Ana"); ("lastName", json.JString "Ruiz");
     ("companyName", json.JString "Acme"); ("country", json.JString "ES");
     ("vatId", json.JString "B12345678");
     ("email", json.JString "ana@example.com");
     ("website", json.JString website)].

Definition formRequest (website : string) : Request :=
  mkRequest "POST" "XMLHttpRequest" (Some (formBody website)).

Definition formData (website : string) : RegistrationRequest :=
  mkRegistrationRequest "Ana" "Ruiz" "Acme" "ES" "B12345678" "ana@example.com"
                        website.

Definition savedSample : Clock * db.Service * db.Registration * option error :=
  db.SaveRegistration (snd (Now (clock sampleWorld))) (DB (server_ sampleWorld))
                      (newRegistration sampleWorld (formData "")).

Definition thirdRequestWorld : World string :=
  snd (HandleValidateEmail (codeRequest "ana@example.com")
         (snd (HandleValidateEmail (codeRequest "ana@example.com")
                 (snd (HandleValidateEmail (codeRequest "ana@example.com")
                         sampleWorld))))).

(** The files of [sampleFiles] together with the machine credential. *)
Definition completeFiles (path : string) : io string :=
  if String.eqb path "machine.jwt" then Done "machine-credential"
  else sampleFiles path.

(** The same world for the functions of the verification gate. *)
Definition sampleGate : World VerificationCodeEntry :=
  mkWorld (mkServer (db.mkService [] configuration.Development)
                    sampleIssuance sampleMail ∅ ∅)
          (mkClock 0 (fun n => Z.of_nat n * Second))
          (fun n => 12345678 + Z.of_nat n) 0
          (fun _ => "20260222")
          sampleNetwork [].

Definition thirdAttemptWorld : World VerificationCodeEntry :=
  snd (RegisterEmailAttempt "ana@example.com"
         (snd (RegisterEmailAttempt "ana@example.com"
                 (snd (RegisterEmailAttempt "ana@example.com" sampleGate))))).

End InstancesTerms.

Section MoreInstancesTerms.

Import server.

(** The row of the sample form, registered earlier under another id. *)
Definition sampleRow : db.Row :=
  db.mkRow "20260101-00000001" "ana@example.com" "Ana" "Ruiz" "Acme" "ES"
           "B12345678" 0 0 0 "" 0 "".

(** The sample registration, and one that shares only its email with
    [sampleRow]. *)
Definition sampleRegistration : db.Registration :=
  db.mkRegistration "20260222-12345678" "ana@example.com" "Ana" "Ruiz" "Acme"
                    "ES" "B12345678" 0 0 0 "" 0 "".

Definition otherCompany : db.Registration :=
  db.mkRegistration "20260222-12345679" "ana@example.com" "Ana" "Ruiz" "Bolt"
                    "ES" "B87654321" 0 0 0 "" 0 "".

Definition sampleClock : Clock := mkClock 0 (fun n => Z.of_nat n * Second).

(** The sample registration submitted again under other names, and the row
    of another company. *)
Definition renamedRegistration : db.Registration :=
  db.mkRegistration "20260223-00000001" "ana@example.com" "Anna" "Ruiz Gil"
                    "Acme Iberia" "ES" "B12345678" 0 0 0 "" 0 "".

Definition neighbourRow : db.Row :=
  db.mkRow "20260101-00000002" "bob@example.com" "Bob" "Stone" "Bolt" "DE"
           "D87654321" 0 0 0 "" 0 "".

(** Two registrations of the night of 25 October 2026, forty minutes apart:
    one at 00:30 UTC and one at 01:10 UTC.  In Madrid the clocks go back at
    01:00 UTC, so the first is written there as 02:30 of summer time and the
    second as 02:10 of winter time. *)
Definition summerNight : Time := 63928485000 * Second.
Definition winterNight : Time := 63928487400 * Second.

Definition summerRow : db.Row :=
  db.mkRow "20261025-00000001" "eva@example.com" "Eva" "Sanz" "Cima" "ES"
           "B11111111" summerNight summerNight summerNight "" summerNight "".

Definition winterRow : db.Row :=
  db.mkRow "20261025-00000002" "leo@example.com" "Leo" "Vidal" "Dos" "ES"
           "B22222222" winterNight winterNight winterNight "" winterNight "".

Definition textUTC (t : Time) : string :=
  if t =? summerNight then "2026-10-25 00:30:00 +0000 UTC"
  else "2026-10-25 01:10:00 +0000 UTC".

Definition textMadrid (t : Time) : string :=
  if t =? summerNight then "2026-10-25 02:30:00 +0200 CEST"
  else "2026-10-25 02:10:00 +0100 CET".

(** [sampleWorld] in production, with [sampleRow] in the table. *)
Definition productionWorld : World string :=
  mkWorld (mkServer (db.mkService [sampleRow] configuration.Production)
                    sampleIssuance sampleMail ∅ ∅)
          sampleClock (fun n => 12345678 + Z.of_nat n) 0
          (fun _ => "20260222") sampleNetwork [].

(** An Issuer that answers every request with status 200 and a body. *)
Definition credentialIssued : credissuance.Response :=
  credissuance.mkResponse 200 "200 OK" (Done [123; 125]).

Definition issuingNetwork : credissuance.Network :=
  credissuance.mkNetwork (fun _ _ _ _ _ => Ok "access-token") (fun _ => true)
                         (fun _ => Done credentialIssued).

(** A new server in development, with the issuing network. *)
Definition issuingWorld : World string :=
  mkWorld (NewServer (db.mkService [] configuration.Development)
                     sampleIssuance sampleMail)
          sampleClock (fun n => 12345678 + Z.of_nat n) 0
          (fun _ => "20260222") issuingNetwork [].

(** A network whose token exchange fails. *)
Definition noTokenNetwork : credissuance.Network :=
  credissuance.mkNetwork (fun _ _ _ _ _ => Err (Errorf "token request failed"))
                         (fun _ => true) (fun _ => Done credentialIssued).

(** The key of [sampleKeyFile] without its prefix, and the files of
    [completeFiles] with the key file holding just these digits. *)
Definition bareKey : string :=
  "0000000000000000000000000000000000000000000000000000000000000001".

Definition bareKeyFiles (path : string) : io string :=
  if String.eqb path "key.hex" then Done bareKey else completeFiles path.

(** The same files with the key followed by a line end. *)
Definition dressedKeyFiles (path : string) : io string :=
  if String.eqb path "key.hex"
  then Done ("0x" +:+ (bareKey +:+ String (ascii_of_nat 10) ""))
  else completeFiles path.

(** A session: a request for a code, its verification and a registration. *)
Definition sampleSession : list (Route * Request) :=
  [(ValidateEmail, codeRequest "ana@example.com");
   (VerifyCode_, verifyRequest "ana@example.com" "345678");
   (Register, formRequest "")].

End MoreInstancesTerms.

Section MailInstancesTerms.

Import configuration.
Import mailer.

(** A mail configuration with SMTP over implicit TLS, without and with an
    onboard team address; an environment whose password file and templates
    are in place and whose network refuses nothing. *)
Definition sampleSMTP : SMTPConfig :=
  mkSMTPConfig true "smtp.example.com" 465 true "noreply@example.com" "smtp.pass".

Definition noOnboardTeam : MailConfig :=
  mkMailConfig [] ["issuer@example.com"] ["team@example.com"] sampleSMTP.

Definition sampleEnv : Env unit :=
  mkEnv unit
        (fun path => if String.eqb path "smtp.pass" then Done ("secret" +:+ newline)
                     else Failed ("open " +:+ path +:+ ": no such file or directory"))
        (fun _ => Done tt)
        (fun _ _ _ => Done "<p>Welcome</p>")
        (fun _ _ => None).

Definition sampleService : Service :=
  mkService "dev" ["onboard@example.com"] ["issuer@example.com"]
            ["team@example.com"] sampleSMTP "secret".

(** The mail configuration that the test of the package builds: SMTP
    enabled, without TLS, and no team address at all; the service made from
    it, and [sampleWorld] with that service. *)
Definition testSMTP : SMTPConfig :=
  mkSMTPConfig true "127.0.0.1" 2525 false "test@example.com" "smtp.pass".

Definition testMailConfig : MailConfig := mkMailConfig [] [] [] testSMTP.

Definition testService : Service := mkService "dev" [] [] [] testSMTP "secret".

Definition testIssuingWorld : server.World string :=
  server.mkWorld
    (server.mkServer (db.mkService [] configuration.Development) sampleIssuance
                     (sender sampleEnv (fun _ => "{}") testService []) ∅ ∅)
    sampleClock (fun n => 12345678 + Z.of_nat n) 0
    (fun _ => "20260222")
    issuingNetwork [].

Definition testWorld : server.World string :=
  server.mkWorld
    (server.mkServer (db.mkService [] configuration.Development) sampleIssuance
                     (sender sampleEnv (fun _ => "{}") testService []) ∅ ∅)
    (mkClock 0 (fun n => Z.of_nat n * Second))
    (fun n => 12345678 + Z.of_nat n) 0
    (fun _ => "20260222")
    sampleNetwork [].

End MailInstancesTerms.

Section PanicInstancesTerms.

Import server.

(** A network on which [http.NewRequest] refuses every target, and
    [sampleWorld] on that network. *)
Definition refusingNetwork : credissuance.Network :=
  credissuance.mkNetwork (fun _ _ _ _ _ => Ok "access-token") (fun _ => false)
                         (fun _ => Done serverError).

Definition refusingWorld : World string :=
  mkWorld (mkServer (db.mkService [] configuration.Development)
                    sampleIssuance sampleMail ∅ ∅)
          (mkClock 0 (fun n => Z.of_nat n * Second))
          (fun n => 12345678 + Z.of_nat n) 0
          (fun _ => "20260222") refusingNetwork [].

End PanicInstancesTerms.

(** * Properties *)

(** ** The registrations table *)

Section Store.

Import db.

Lemma update_rows_keeping_id (sel : Row -> bool) (set : Row -> Row) :
  (forall r, registration_id (set r) = registration_id r) ->
  forall todo done,
    update_rows sel set done todo
    = Some (done ++ ((fun r => if sel r then set r else r) <$> todo)).
Proof.
  intros Hid todo.
  induction todo as [|r rest IH]; intros done; simpl.
  - by rewrite app_nil_r.
  - destruct (sel r) eqn:Hsel.
    + rewrite Hid, String.eqb_refl. simpl.
      rewrite IH, <- app_assoc. reflexivity.
    + rewrite IH, <- app_assoc. reflexivity.
Qed.

Lemma exec_update_status (reg : Registration) (t : Table) :
  exec_update (status_where reg) (status_set reg) t
  = ((fun r => if status_where reg r then status_set reg r else r) <$> t, None).
Proof.
  unfold exec_update.
  rewrite update_rows_keeping_id by reflexivity.
  reflexivity.
Qed.

Lemma status_where_spec (reg : Registration) (r : Row) :
  status_where reg r = true
  <-> registration_id r = RegistrationID reg /\ email r = Email reg.
Proof.
  unfold status_where.
  rewrite andb_true_iff, !String.eqb_eq. reflexivity.
Qed.

(** C10. [UpdateRegistrationStatus] always succeeds and returns a table of the
    same length in which every row keeps its position, its identity columns
    ([registration_id], [email], [first_name], [last_name], [company_name],
    [country], [vat_id]) and its [created_at]; a row that does not match both
    the registration's id and its email is unchanged, and a row that matches
    both takes [updated_at] (the time of the call), [issuance_at],
    [issuance_error], [notif_email_at] and [notif_email_error] from the
    registration. *)
Theorem UpdateRegistrationStatus_frame (c : Clock) (s : Service) (reg : Registration) :
  exists t' : Table,
    UpdateRegistrationStatus c s reg
    = (snd (Now c), mkService t' (runtime s), set_UpdatedAt reg (fst (Now c)), None)
    /\ length t' = length (conn s)
    /\ forall (i : nat) (r : Row), conn s !! i = Some r ->
         exists r' : Row, t' !! i = Some r'
           /\ registration_id r' = registration_id r
           /\ email r' = email r
           /\ first_name r' = first_name r
           /\ last_name r' = last_name r
           /\ company_name r' = company_name r
           /\ country r' = country r
           /\ vat_id r' = vat_id r
           /\ created_at r' = created_at r
           /\ (~ (registration_id r = RegistrationID reg /\ email r = Email reg)
               -> r' = r)
           /\ (registration_id r = RegistrationID reg /\ email r = Email reg
               -> updated_at r' = fst (Now c)
                  /\ issuance_at r' = IssuanceAt reg
                  /\ issuance_error r' = IssuanceError reg
                  /\ notif_email_at r' = NotifEmailAt reg
                  /\ notif_email_error r' = NotifEmailError reg).
Proof.
  set (reg1 := set_UpdatedAt reg (fst (Now c))).
  exists ((fun r => if status_where reg1 r then status_set reg1 r else r) <$> conn s).
  split; [|split].
  - unfold UpdateRegistrationStatus. simpl.
    fold reg1. rewrite exec_update_status. reflexivity.
  - apply length_fmap.
  - intros i r Hi.
    exists (if status_where reg1 r then status_set reg1 r else r).
    split.
    { rewrite list_lookup_fmap, Hi. reflexivity. }
    destruct (status_where reg1 r) eqn:Hw.
    + apply status_where_spec in Hw. simpl in Hw.
      do 8 (split; [reflexivity|]).
      split; [intros Hn; contradiction|].
      intros _. repeat split.
    + do 8 (split; [reflexivity|]).
      split; [reflexivity|].
      intros Hm.
      assert (status_where reg1 r = true) as Ht
        by (apply status_where_spec; exact Hm).
      congruence.
Qed.

Lemma unique_conflict_member (r o : Row) (t : Table) :
  In o t ->
  registration_id o = registration_id r \/ email o = email r \/ vat_id o = vat_id r ->
  unique_conflict r t <> None.
Proof.
  intros Hin Hc. unfold unique_conflict.
  destruct (existsb (fun o => String.eqb (vat_id o) (vat_id r)) t)
    eqn:H3; [discriminate|].
  destruct (existsb (fun o => String.eqb (email o) (email r)) t)
    eqn:H2; [discriminate|].
  destruct (existsb (fun o => String.eqb (registration_id o) (registration_id r)) t)
    eqn:H1; [discriminate|].
  exfalso.
  assert (forall f : Row -> string, f o = f r ->
            existsb (fun o => String.eqb (f o) (f r)) t = true) as Hex.
  { intros f Hf. apply existsb_exists. exists o. split; [exact Hin|].
    apply String.eqb_eq. exact Hf. }
  destruct Hc as [Hc|[Hc|Hc]].
  - rewrite (Hex registration_id Hc) in H1. discriminate.
  - rewrite (Hex email Hc) in H2. discriminate.
  - rewrite (Hex vat_id Hc) in H3. discriminate.
Qed.

Lemma exec_insert_ok (r : Row) (t t' : Table) :
  exec_insert r t = (t', None) -> t' = t ++ [r].
Proof.
  unfold exec_insert. destruct (unique_conflict r t); intros H; congruence.
Qed.

Lemma exec_insert_conflict (r o : Row) (t : Table) :
  In o t ->
  registration_id o = registration_id r \/ email o = email r \/ vat_id o = vat_id r ->
  exists column, exec_insert r t = (t, Some (ErrUniqueConstraint column)).
Proof.
  intros Hin Hc. unfold exec_insert.
  pose proof (unique_conflict_member r o t Hin Hc) as Hne.
  destruct (unique_conflict r t) as [column|]; [|congruence].
  exists column. reflexivity.
Qed.

(** In production a successful save appends the stamped registration. *)
Lemma SaveRegistration_production_ok (c c1 : Clock) (s s1 : Service)
    (reg r1 : Registration) :
  runtime s = configuration.Production ->
  SaveRegistration c s reg = (c1, s1, r1, None) ->
  c1 = snd (Now c) /\ runtime s1 = configuration.Production
  /\ conn s1 = conn s ++ [insert_values r1]
  /\ RegistrationID r1 = RegistrationID reg /\ Email r1 = Email reg
  /\ VatID r1 = VatID reg.
Proof.
  intros Hrt. unfold SaveRegistration. simpl. rewrite Hrt. simpl.
  match goal with |- context [exec_insert ?r ?t] =>
    destruct (exec_insert r t) as [t' err] eqn:Hins end.
  intros Heq. inversion Heq; subst. clear Heq.
  apply exec_insert_ok in Hins. subst t'. simpl.
  repeat split.
Qed.

Lemma update_rows_result (sel : Row -> bool) (set : Row -> Row) :
  forall todo done t',
    update_rows sel set done todo = Some t' ->
    t' = done ++ ((fun r => if sel r then set r else r) <$> todo).
Proof.
  induction todo as [|r rest IH]; intros done t'; simpl.
  - intros [= <-]. by rewrite app_nil_r.
  - destruct (sel r).
    + match goal with |- context [if ?b then None else _] => destruct b end;
        [discriminate|].
      intros H. apply IH in H. rewrite H, <- app_assoc. reflexivity.
    + intros H. apply IH in H. rewrite H, <- app_assoc. reflexivity.
Qed.

(** X3. Amend in place, from any table: in development or preproduction, when
    the table already holds a row with the email and tax id of the
    registration, [SaveRegistration] never adds a row.  Either it fails and
    the table is as before, or it succeeds and the table is the old one with
    the rows of that email and tax id amended: they take the registration's
    id, names, company, country and status columns and keep their
    [created_at]. *)
Theorem SaveRegistration_amends_in_place (c : Clock) (s : Service)
    (reg : Registration) (old : Row) :
  runtime s = configuration.Development \/ runtime s = configuration.Preproduction ->
  In old (conn s) ->
  vat_id old = VatID reg ->
  email old = Email reg ->
  exists (c' : Clock) (reg' : Registration) (t' : Table) (err : option error),
    SaveRegistration c s reg = (c', mkService t' (runtime s), reg', err)
    /\ length t' = length (conn s)
    /\ (err <> None -> t' = conn s)
    /\ (err = None ->
        t' = (fun r => if amend_where reg r then amend_set reg' r else r) <$> conn s)
    /\ RegistrationID reg' = RegistrationID reg
    /\ FirstName reg' = FirstName reg
    /\ LastName reg' = LastName reg
    /\ CompanyName reg' = CompanyName reg
    /\ Country reg' = Country reg
    /\ IssuanceError reg' = ""
    /\ NotifEmailError reg' = "".
Proof.
  intros Henv Hin Hv He.
  assert (String.eqb (runtime s) configuration.Development
          || String.eqb (runtime s) configuration.Preproduction = true) as Hnp.
  { destruct Henv as [-> | ->]; reflexivity. }
  unfold SaveRegistration. cbn [Now fst snd]. rewrite Hnp.
  unfold GetRegistration. cbn [VatID Email].
  destruct (find (fun r => String.eqb (vat_id r) (VatID reg)
                           && String.eqb (email r) (Email reg)) (conn s))
    as [found|] eqn:Hfind.
  - cbn [isErrNoRows negb].
    unfold AmendRegistration, exec_update. cbn [Now fst snd conn runtime].
    match goal with |- context [update_rows ?sel ?set [] (conn s)] =>
      destruct (update_rows sel set [] (conn s)) as [t'|] eqn:Hupd end.
    + apply update_rows_result in Hupd. cbn [app] in Hupd.
      do 4 eexists. split; [reflexivity|].
      split; [rewrite Hupd; apply length_fmap|].
      split; [congruence|].
      split; [intros _; exact Hupd|].
      repeat split.
    + do 4 eexists. split; [reflexivity|].
      split; [reflexivity|].
      split; [reflexivity|].
      split; [discriminate|].
      repeat split.
  - exfalso.
    apply (find_none _ _ Hfind old) in Hin.
    rewrite Hv, He, !String.eqb_refl in Hin. discriminate.
Qed.

End Store.

(** ** The verification gate *)

Section Gate.

Import server.

#[local] Abbreviation GateWorld := (World VerificationCodeEntry).

Lemma VerifyCode_unfold (w : GateWorld) (email code : string) :
  VerifyCode email code w
  = match VerificationCodes (server_ w) !! email with
    | None => (false, w)
    | Some entry =>
        if String.eqb (Code entry) code then (true, consumed w email)
        else (false, w)
    end.
Proof.
  unfold VerifyCode, mbind, M_bind, bind, getCodes. simpl.
  destruct (VerificationCodes (server_ w) !! email) as [entry|]; [|reflexivity].
  destruct (String.eqb (Code entry) code); reflexivity.
Qed.

Lemma VerifyCode_absent (w : GateWorld) (email email' code' : string) :
  VerificationCodes (server_ w) !! email = None ->
  VerificationCodes (server_ (snd (VerifyCode email' code' w))) !! email = None.
Proof.
  intros Habs. rewrite VerifyCode_unfold.
  destruct (VerificationCodes (server_ w) !! email') as [entry|]; [|exact Habs].
  destruct (String.eqb (Code entry) code'); [|exact Habs].
  simpl. destruct (decide (email' = email)) as [->|Hne].
  - apply lookup_delete_eq.
  - rewrite lookup_delete_ne by exact Hne. exact Habs.
Qed.

Lemma verifications_absent (l : list (string * string)) :
  forall (w : GateWorld) (email : string),
    VerificationCodes (server_ w) !! email = None ->
    VerificationCodes (server_ (verifications l w)) !! email = None.
Proof.
  induction l as [|[email' code'] l IH]; intros w email Habs; simpl.
  - exact Habs.
  - apply IH. apply VerifyCode_absent. exact Habs.
Qed.

(** C7. [VerifyCode email code] returns true exactly when
    [VerificationCodes] holds an entry for [email] whose code is [code]; it
    then removes that entry and nothing else, and otherwise leaves the world
    as it was.  After a successful verification, and whatever further
    [VerifyCode] calls follow, [VerifyCode] on that email returns false for
    every code. *)
Theorem VerifyCode_single_use (w : GateWorld) (email code : string) :
  (fst (VerifyCode email code w) = true
   <-> exists entry : VerificationCodeEntry,
         VerificationCodes (server_ w) !! email = Some entry /\ Code entry = code)
  /\ (fst (VerifyCode email code w) = true ->
      snd (VerifyCode email code w) = consumed w email)
  /\ (fst (VerifyCode email code w) = false ->
      snd (VerifyCode email code w) = w)
  /\ (fst (VerifyCode email code w) = true ->
      forall (later : list (string * string)) (code' : string),
        fst (VerifyCode email code'
               (verifications later (snd (VerifyCode email code w)))) = false).
Proof.
  rewrite VerifyCode_unfold.
  destruct (VerificationCodes (server_ w) !! email) as [entry|] eqn:Hlook.
  - destruct (String.eqb (Code entry) code) eqn:Hcode; simpl.
    + apply String.eqb_eq in Hcode.
      split; [split; [intros _; eauto | reflexivity]|].
      split; [reflexivity|].
      split; [discriminate|].
      intros _ later code'.
      rewrite VerifyCode_unfold.
      rewrite (verifications_absent later (consumed w email) email); [reflexivity|].
      simpl. apply lookup_delete_eq.
    + apply String.eqb_neq in Hcode.
      split.
      { split; [discriminate|]. intros (entry' & Heq & Hc). congruence. }
      split; [discriminate|].
      split; [reflexivity|discriminate].
  - simpl. split.
    { split; [discriminate|]. intros (entry' & Heq & _). discriminate. }
    split; [discriminate|].
    split; [reflexivity|discriminate].
Qed.

(** X5. A stored code replaces the one stored before for the same email:
    after [StoreVerificationCode email code], [VerifyCode] accepts [code]
    for [email] and no other code. *)
Theorem StoreVerificationCode_overwrites (w : GateWorld) (email code code' : string) :
  fst (VerifyCode email code' (snd (StoreVerificationCode email code w)))
  = String.eqb code code'.
Proof.
  rewrite VerifyCode_unfold.
  unfold StoreVerificationCode, mbind, M_bind, bind, getCodes, setCodes, now.
  simpl. rewrite lookup_insert_eq. simpl.
  destruct (String.eqb code code'); reflexivity.
Qed.

(** X2. [HandleVerifyCode], one request at a time: the request is answered 200
    and the stored code removed when the code stored for the email is the
    one supplied; otherwise it is answered 400 and nothing changes. *)
Theorem HandleVerifyCode_consumes (w : World string) (email code : string) :
  HandleVerifyCode (verifyRequest email code) w
  = if bool_decide (VerificationCodes (server_ w) !! email = Some code)
    then (emailVerified,
          with_server w
            (mkServer (DB (server_ w)) (Issuer (server_ w)) (Mail (server_ w))
                      (EmailRateLimiter (server_ w))
                      (delete email (VerificationCodes (server_ w)))))
    else (invalidCode, w).
Proof.
  unfold HandleVerifyCode, verifyRequest. simpl.
  unfold mbind, M_bind, bind, getCodes. simpl.
  destruct (VerificationCodes (server_ w) !! email) as [expected|] eqn:Hlook.
  - destruct (String.eqb_spec expected code) as [->|Hne]; simpl.
    + rewrite bool_decide_eq_true_2 by reflexivity. reflexivity.
    + rewrite bool_decide_eq_false_2 by congruence. reflexivity.
  - rewrite bool_decide_eq_false_2 by congruence. reflexivity.
Qed.

End Gate.

(** ** The per-email limiter *)

Section Limiter.

Import server.

#[local] Abbreviation GateWorld := (World VerificationCodeEntry).

Local Arguments isValidEmail : simpl never.
Local Arguments generateCode : simpl never.
Local Arguments Z.mul : simpl never.
Local Arguments Sub : simpl never.

Lemma Sub_window (t u : Time) :
  (Sub t u >? 3 * Minute) = (t - u >? 3 * Minute).
Proof.
  unfold Sub, minDuration, maxDuration, Minute, Second.
  destruct (Z.gtb_spec (t - u) (3 * (60 * 1000000000)));
    destruct (Z.gtb_spec
      (Z.max (- 2 ^ 63) (Z.min (2 ^ 63 - 1) (t - u))) (3 * (60 * 1000000000)));
    try reflexivity; lia.
Qed.

Lemma Sub_expired (t u : Time) :
  expirationLimit < Sub t u <-> expirationLimit < t - u.
Proof.
  unfold Sub, expirationLimit, minDuration, maxDuration, Minute, Second. lia.
Qed.

Lemma valid_nonempty (email : string) :
  isValidEmail email = true -> String.eqb email "" = false.
Proof.
  destruct email; [intros H; vm_compute in H; discriminate | reflexivity].
Qed.

Lemma HandleValidateEmail_limiter (w : World string) (email : string) :
  isValidEmail email = true ->
  HandleValidateEmail (codeRequest email) w
  = match EmailRateLimiter (server_ w) !! email with
    | None =>
        (codeSent (nextCode w),
         after w (<[email := mkRateLimitEntry 1 (at_ w 0)]> (EmailRateLimiter (server_ w)))
                 (<[email := nextCode w]> (VerificationCodes (server_ w))) 1 1)
    | Some entry =>
        if at_ w 0 - StartTime entry >? 3 * Minute then
          (codeSent (nextCode w),
           after w (<[email := mkRateLimitEntry 1 (at_ w 1)]> (EmailRateLimiter (server_ w)))
                   (<[email := nextCode w]> (VerificationCodes (server_ w))) 2 1)
        else if Count entry >=? 3 then
          (tooManyRequests,
           after w (EmailRateLimiter (server_ w)) (VerificationCodes (server_ w)) 1 0)
        else
          (codeSent (nextCode w),
           after w (<[email := mkRateLimitEntry (Count entry + 1) (StartTime entry)]>
                      (EmailRateLimiter (server_ w)))
                   (<[email := nextCode w]> (VerificationCodes (server_ w))) 1 1)
    end.
Proof.
  intros Hvalid.
  destruct w as [[d i m lim codes] [k rd] ent dr fmt net cs].
  unfold HandleValidateEmail, codeRequest, at_, after, nextCode. simpl.
  rewrite Hvalid, (valid_nonempty email Hvalid). simpl.
  unfold mbind, M_bind, bind, getRateLimiter. simpl.
  destruct (lim !! email) as [entry|]; simpl.
  - unfold Since, now, mbind, M_bind, mret, M_ret, bind, ret. simpl.
    rewrite Sub_window.
    destruct (rd k - StartTime entry >? 3 * Minute); simpl.
    + reflexivity.
    + destruct (Count entry >=? 3); reflexivity.
  - reflexivity.
Qed.

Lemma RegisterEmailAttempt_limiter (w : World VerificationCodeEntry) (email : string) :
  let limiter :=
    filter (fun kv : string * RateLimitEntry =>
              ~ (expirationLimit < Sub (at_ w 0) (StartTime kv.2)))
           (EmailRateLimiter (server_ w)) in
  let codes :=
    filter (fun kv : string * VerificationCodeEntry =>
              ~ (expirationLimit < Sub (at_ w 0) (CreatedAt kv.2)))
           (VerificationCodes (server_ w)) in
  RegisterEmailAttempt email w
  = match limiter !! email with
    | None =>
        (true, after w (<[email := mkRateLimitEntry 1 (at_ w 1)]> limiter) codes 2 0)
    | Some entry =>
        if at_ w 1 - StartTime entry >? 3 * Minute then
          (true, after w (<[email := mkRateLimitEntry 1 (at_ w 2)]> limiter) codes 3 0)
        else if Count entry >=? 3 then
          (false, after w limiter codes 2 0)
        else
          (true,
           after w (<[email := mkRateLimitEntry (Count entry + 1) (StartTime entry)]>
                      limiter) codes 2 0)
    end.
Proof.
  destruct w as [[d i m lim codes] [k rd] ent dr fmt net cs].
  unfold RegisterEmailAttempt, cleanupExpired, at_, after. simpl.
  unfold mbind, M_bind, bind, getRateLimiter, getCodes, setRateLimiter, setCodes,
    now. simpl.
  match goal with |- context [filter ?P lim !! email] =>
    destruct (filter P lim !! email) as [entry|] end; simpl.
  - unfold Since, now, mbind, M_bind, mret, M_ret, bind, ret. simpl.
    rewrite Sub_window.
    destruct (rd (S k) - StartTime entry >? 3 * Minute); simpl.
    + reflexivity.
    + destruct (Count entry >=? 3); reflexivity.
  - reflexivity.
Qed.

Lemma within_window (a b : Z) : a - b <= 3 * Minute -> (a - b >? 3 * Minute) = false.
Proof. intros H. destruct (Z.gtb_spec (a - b) (3 * Minute)); [lia | reflexivity]. Qed.

Lemma window_elapsed (a b : Z) : 3 * Minute < a - b -> (a - b >? 3 * Minute) = true.
Proof. intros H. destruct (Z.gtb_spec (a - b) (3 * Minute)); [reflexivity | lia]. Qed.

(** A request within the window and below the limit is counted. *)
Lemma HandleValidateEmail_counted (w : World string) (email : string)
    (entry : RateLimitEntry) :
  isValidEmail email = true ->
  EmailRateLimiter (server_ w) !! email = Some entry ->
  at_ w 0 - StartTime entry <= 3 * Minute ->
  Count entry < 3 ->
  HandleValidateEmail (codeRequest email) w
  = (codeSent (nextCode w),
     after w (<[email := mkRateLimitEntry (Count entry + 1) (StartTime entry)]>
                (EmailRateLimiter (server_ w)))
             (<[email := nextCode w]> (VerificationCodes (server_ w))) 1 1).
Proof.
  intros Hvalid Hentry Hwin Hcount.
  rewrite HandleValidateEmail_limiter, Hentry by exact Hvalid.
  rewrite within_window by exact Hwin.
  destruct (Z.geb_spec (Count entry) 3); [lia|reflexivity].
Qed.

(** A request within the window at the limit is refused, and only the clock
    moves. *)
Lemma HandleValidateEmail_limited (w : World string) (email : string)
    (entry : RateLimitEntry) :
  isValidEmail email = true ->
  EmailRateLimiter (server_ w) !! email = Some entry ->
  at_ w 0 - StartTime entry <= 3 * Minute ->
  3 <= Count entry ->
  HandleValidateEmail (codeRequest email) w
  = (tooManyRequests,
     after w (EmailRateLimiter (server_ w)) (VerificationCodes (server_ w)) 1 0).
Proof.
  intros Hvalid Hentry Hwin Hcount.
  rewrite HandleValidateEmail_limiter, Hentry by exact Hvalid.
  rewrite within_window by exact Hwin.
  destruct (Z.geb_spec (Count entry) 3); [reflexivity|lia].
Qed.

(** A request that opens a window is answered with a code and leaves the
    count at 1. *)
Lemma HandleValidateEmail_opens (w : World string) (email : string) :
  isValidEmail email = true ->
  opensWindow w email ->
  exists n : nat,
    HandleValidateEmail (codeRequest email) w
    = (codeSent (nextCode w),
       after w (<[email := mkRateLimitEntry 1 (at_ w n)]>
                  (EmailRateLimiter (server_ w)))
               (<[email := nextCode w]> (VerificationCodes (server_ w))) (S n) 1).
Proof.
  intros Hvalid Hopen. unfold opensWindow in Hopen.
  rewrite HandleValidateEmail_limiter by exact Hvalid.
  destruct (EmailRateLimiter (server_ w) !! email) as [entry|].
  - rewrite window_elapsed by exact Hopen. exists 1%nat. reflexivity.
  - exists 0%nat. reflexivity.
Qed.

Lemma windowStart_after {C : Type} (w : World C)
    (lim : gmap string RateLimitEntry) (codes : gmap string C) (n d : nat)
    (email : string) (entry : RateLimitEntry) :
  windowStart (after w (<[email := entry]> lim) codes n d) email = StartTime entry.
Proof. unfold windowStart, after. simpl. by rewrite lookup_insert_eq. Qed.

(** C6. Take a valid [email] and a request that opens a window for it (no
    limiter entry, or one whose 3 minutes are over), then two more requests
    whose window tests read the clock within 3 minutes of the window's
    start: all three are answered with a code, and the count is 3.  A fourth
    request whose window test is still within the 3 minutes is answered 429
    and changes nothing but the clock: no random code is drawn and
    [VerificationCodes] is as before.  A fourth request whose window test
    reads a later time is answered with a code, and the entry restarts at
    count 1 from the time of that request. *)
Theorem HandleValidateEmail_window (w : World string) (email : string) :
  let r := codeRequest email in
  let w1 := snd (HandleValidateEmail r w) in
  let w2 := snd (HandleValidateEmail r w1) in
  let w3 := snd (HandleValidateEmail r w2) in
  let start := windowStart w1 email in
  isValidEmail email = true ->
  opensWindow w email ->
  at_ w1 0 - start <= 3 * Minute ->
  at_ w2 0 - start <= 3 * Minute ->
  fst (HandleValidateEmail r w) = codeSent (nextCode w)
  /\ fst (HandleValidateEmail r w1) = codeSent (nextCode w1)
  /\ fst (HandleValidateEmail r w2) = codeSent (nextCode w2)
  /\ EmailRateLimiter (server_ w3) !! email = Some (mkRateLimitEntry 3 start)
  /\ (at_ w3 0 - start <= 3 * Minute ->
      HandleValidateEmail r w3
      = (tooManyRequests,
         after w3 (EmailRateLimiter (server_ w3)) (VerificationCodes (server_ w3)) 1 0))
  /\ (3 * Minute < at_ w3 0 - start ->
      fst (HandleValidateEmail r w3) = codeSent (nextCode w3)
      /\ EmailRateLimiter (server_ (snd (HandleValidateEmail r w3))) !! email
         = Some (mkRateLimitEntry 1 (at_ w3 1))).
Proof.
  intros r w1 w2 w3 start Hvalid Hopen.
  destruct (HandleValidateEmail_opens w email Hvalid Hopen) as [n E1].
  assert (w1 = snd (HandleValidateEmail r w)) as Hw1 by reflexivity.
  unfold r in Hw1. rewrite E1 in Hw1. cbn [snd] in Hw1.
  assert (start = at_ w n) as Hstart.
  { unfold start. rewrite Hw1. apply windowStart_after. }
  assert (EmailRateLimiter (server_ w1) !! email
          = Some (mkRateLimitEntry 1 start)) as L1.
  { rewrite Hw1, Hstart. simpl. apply lookup_insert_eq. }
  clearbody start. intros H2 H3.
  pose proof (HandleValidateEmail_counted w1 email _ Hvalid L1 H2 ltac:(simpl; lia))
    as E2.
  assert (w2 = snd (HandleValidateEmail r w1)) as Hw2 by reflexivity.
  unfold r in Hw2. rewrite E2 in Hw2. cbn [snd Count StartTime] in Hw2.
  assert (EmailRateLimiter (server_ w2) !! email
          = Some (mkRateLimitEntry 2 start)) as L2.
  { rewrite Hw2. simpl. apply lookup_insert_eq. }
  pose proof (HandleValidateEmail_counted w2 email _ Hvalid L2 H3 ltac:(simpl; lia))
    as E3.
  assert (w3 = snd (HandleValidateEmail r w2)) as Hw3 by reflexivity.
  unfold r in Hw3. rewrite E3 in Hw3. cbn [snd Count StartTime] in Hw3.
  assert (EmailRateLimiter (server_ w3) !! email
          = Some (mkRateLimitEntry 3 start)) as L3.
  { rewrite Hw3. simpl. apply lookup_insert_eq. }
  unfold r. rewrite E1, E2, E3. cbn [fst].
  do 3 (split; [reflexivity|]).
  split; [exact L3|].
  split.
  - intros H4.
    apply (HandleValidateEmail_limited w3 email _ Hvalid L3 H4). simpl. lia.
  - intros H4.
    rewrite HandleValidateEmail_limiter, L3 by exact Hvalid.
    cbn [StartTime]. rewrite window_elapsed by exact H4.
    split; [reflexivity|].
    cbn [snd]. simpl. apply lookup_insert_eq.
Qed.

Lemma sweep_keeps (n : Time) (m : gmap string RateLimitEntry) (email : string)
    (entry : RateLimitEntry) :
  m !! email = Some entry ->
  n - StartTime entry <= 3 * Minute ->
  filter (fun kv : string * RateLimitEntry =>
            ~ (expirationLimit < Sub n (StartTime kv.2))) m !! email
  = Some entry.
Proof.
  intros Hm Hn. apply map_lookup_filter_Some_2; [exact Hm|].
  simpl. rewrite Sub_expired. unfold expirationLimit, Minute, Second in *. lia.
Qed.

Lemma at_after {C : Type} (w : World C) (lim : gmap string RateLimitEntry)
    (codes : gmap string C) (n d i : nat) :
  at_ (after w lim codes n d) i = at_ w (i + n).
Proof. unfold at_, after. simpl. f_equal. lia. Qed.

Lemma at_monotone {C : Type} (w : World C) (i j : nat) :
  monotone (clock w) -> (i <= j)%nat -> at_ w i <= at_ w j.
Proof. intros Hm Hij. unfold at_. apply Hm. lia. Qed.

(** X1. [RegisterEmailAttempt] under a clock that never runs backwards:
    starting with no limiter entry for [email], three attempts whose window
    tests fall within 3 minutes of the first are let through; a fourth whose
    window test is still within the 3 minutes is refused and leaves the
    count at 3; a fourth made after the 3 minutes is let through and the
    entry restarts at count 1. *)
Theorem RegisterEmailAttempt_window (w : GateWorld) (email : string) :
  monotone (clock w) ->
  EmailRateLimiter (server_ w) !! email = None ->
  at_ w 5 - at_ w 1 <= 3 * Minute ->
  let w1 := snd (RegisterEmailAttempt email w) in
  let w2 := snd (RegisterEmailAttempt email w1) in
  let w3 := snd (RegisterEmailAttempt email w2) in
  fst (RegisterEmailAttempt email w) = true
  /\ fst (RegisterEmailAttempt email w1) = true
  /\ fst (RegisterEmailAttempt email w2) = true
  /\ (at_ w 7 - at_ w 1 <= 3 * Minute ->
      fst (RegisterEmailAttempt email w3) = false
      /\ EmailRateLimiter (server_ (snd (RegisterEmailAttempt email w3))) !! email
         = Some (mkRateLimitEntry 3 (at_ w 1)))
  /\ (3 * Minute < at_ w 6 - at_ w 1 ->
      fst (RegisterEmailAttempt email w3) = true
      /\ exists t : Time,
           at_ w 6 <= t
           /\ EmailRateLimiter (server_ (snd (RegisterEmailAttempt email w3))) !! email
              = Some (mkRateLimitEntry 1 t)).
Proof.
  intros Hmono Hfresh Hwin w1 w2 w3.
  pose proof (at_monotone w 1 2 Hmono ltac:(lia)) as M12.
  pose proof (at_monotone w 2 3 Hmono ltac:(lia)) as M23.
  pose proof (at_monotone w 3 4 Hmono ltac:(lia)) as M34.
  pose proof (at_monotone w 4 5 Hmono ltac:(lia)) as M45.
  pose proof (at_monotone w 6 7 Hmono ltac:(lia)) as M67.
  pose proof (at_monotone w 7 8 Hmono ltac:(lia)) as M78.
  (* first attempt *)
  pose proof (RegisterEmailAttempt_limiter w email) as E1. cbv zeta in E1.
  rewrite (proj2 (map_lookup_filter_None _ _ _)) in E1 by (left; exact Hfresh).
  assert (w1 = snd (RegisterEmailAttempt email w)) as Hw1 by reflexivity.
  rewrite E1 in Hw1. cbn -[filter insert lookup at_ Z.mul Minute] in Hw1.
  (* second attempt *)
  pose proof (RegisterEmailAttempt_limiter w1 email) as E2. cbv zeta in E2.
  rewrite (sweep_keeps (at_ w1 0) _ email (mkRateLimitEntry 1 (at_ w 1))) in E2.
  2: { rewrite Hw1. cbn -[filter insert lookup at_ Z.mul Minute]. apply lookup_insert_eq. }
  2: { rewrite Hw1, at_after. cbn -[filter insert lookup at_ Z.mul Minute]. lia. }
  assert (at_ w1 1 = at_ w 3) as T13 by (rewrite Hw1, at_after; reflexivity).
  rewrite T13 in E2. cbn -[filter insert lookup at_ Z.mul Minute] in E2.
  rewrite within_window in E2 by lia. cbn -[filter insert lookup at_ Z.mul Minute] in E2.
  assert (w2 = snd (RegisterEmailAttempt email w1)) as Hw2 by reflexivity.
  rewrite E2 in Hw2. cbn -[filter insert lookup at_ Z.mul Minute] in Hw2.
  (* third attempt *)
  pose proof (RegisterEmailAttempt_limiter w2 email) as E3. cbv zeta in E3.
  assert (at_ w2 0 = at_ w 4 /\ at_ w2 1 = at_ w 5) as [T20 T21].
  { rewrite Hw2, !at_after, Hw1, !at_after. split; reflexivity. }
  rewrite (sweep_keeps (at_ w2 0) _ email (mkRateLimitEntry 2 (at_ w 1))) in E3.
  2: { rewrite Hw2. cbn -[filter insert lookup at_ Z.mul Minute]. apply lookup_insert_eq. }
  2: { rewrite T20. cbn -[filter insert lookup at_ Z.mul Minute]. lia. }
  rewrite T21 in E3. cbn -[filter insert lookup at_ Z.mul Minute] in E3.
  rewrite within_window in E3 by lia. cbn -[filter insert lookup at_ Z.mul Minute] in E3.
  assert (w3 = snd (RegisterEmailAttempt email w2)) as Hw3 by reflexivity.
  rewrite E3 in Hw3. cbn -[filter insert lookup at_ Z.mul Minute] in Hw3.
  assert (at_ w3 0 = at_ w 6 /\ at_ w3 1 = at_ w 7 /\ at_ w3 2 = at_ w 8)
    as (T30 & T31 & T32).
  { rewrite Hw3, !at_after, Hw2, !at_after, Hw1, !at_after.
    repeat split; reflexivity. }
  assert (EmailRateLimiter (server_ w3) !! email
          = Some (mkRateLimitEntry 3 (at_ w 1))) as Hcount.
  { rewrite Hw3. cbn -[filter insert lookup at_ Z.mul Minute]. apply lookup_insert_eq. }
  rewrite E1, E2, E3. cbn -[filter insert lookup at_ Z.mul Minute].
  do 3 (split; [reflexivity|]).
  pose proof (RegisterEmailAttempt_limiter w3 email) as E4. cbv zeta in E4.
  split.
  - intros H4.
    rewrite (sweep_keeps (at_ w3 0) _ email (mkRateLimitEntry 3 (at_ w 1)))
      in E4 by (exact Hcount || (rewrite T30; simpl; lia)).
    rewrite T31 in E4. cbn -[filter insert lookup at_ Z.mul Minute] in E4.
    rewrite within_window in E4 by exact H4. cbn -[filter insert lookup at_ Z.mul Minute] in E4.
    rewrite E4. cbn -[filter insert lookup at_ Z.mul Minute]. split; [reflexivity|].
    apply sweep_keeps; [exact Hcount|]. rewrite T30. cbn -[filter insert lookup at_ Z.mul Minute]. lia.
  - intros H4.
    match type of E4 with context [filter ?P ?m !! email] =>
      destruct (filter P m !! email) as [entry|] eqn:Hkept end.
    + apply map_lookup_filter_Some_1_1 in Hkept.
      rewrite Hcount in Hkept. injection Hkept as <-.
      rewrite T31 in E4. cbn -[filter insert lookup at_ Z.mul Minute] in E4.
      rewrite window_elapsed in E4 by lia.
      rewrite E4. cbn -[filter insert lookup at_ Z.mul Minute]. split; [reflexivity|].
      exists (at_ w3 2). rewrite lookup_insert_eq, T32.
      split; [lia|reflexivity].
    + rewrite E4. cbn -[filter insert lookup at_ Z.mul Minute]. split; [reflexivity|].
      exists (at_ w3 1). rewrite lookup_insert_eq, T31.
      split; [lia|reflexivity].
Qed.

End Limiter.

(** ** The registration workflow *)

Section Workflow.

Import server.

Context {C : Type}.

Local Arguments Validate : simpl never.
Local Arguments Decode : simpl never.
Local Arguments db.SaveRegistration : simpl never.
Local Arguments db.UpdateRegistrationStatus : simpl never.
Local Arguments credissuance.LEARIssuanceRequest : simpl never.
Local Arguments credissuance.Marshal : simpl never.
Local Arguments decimal : simpl never.
Local Arguments String.append : simpl never.

(** C2. A POST request that carries the CSRF header and whose decoded body
    has a non-empty [website] is answered with status 200 and
    [{success: true, message: "Registration successful"}], the reply of a
    registration that went through, and the world is left exactly as it
    was: no call to the store, the issuer or the mail service is made, no
    row is written, the clock and the random source are not read. *)
Theorem HandleRegister_honeypot (w : World C) (r : Request)
    (requestData : RegistrationRequest) :
  Method r = "POST" ->
  XRequestedWith r <> "" ->
  decoded r = Ok requestData ->
  Website requestData <> "" ->
  HandleRegister r w = (registrationSuccessful, w).
Proof.
  intros Hpost Hcsrf Hdec Hweb.
  unfold HandleRegister, validateCSRF.
  rewrite Hpost. simpl.
  apply String.eqb_neq in Hcsrf. rewrite Hcsrf. simpl.
  unfold decoded in Hdec. rewrite Hdec.
  apply String.eqb_neq in Hweb. rewrite Hweb. simpl.
  reflexivity.
Qed.

(** A successful save leaves a row carrying the registration's id and email,
    and hands back the registration with its identity fields as given. *)
Lemma SaveRegistration_stored (c c1 : Clock) (s s1 : db.Service)
    (reg r1 : db.Registration) :
  db.SaveRegistration c s reg = (c1, s1, r1, None) ->
  db.RegistrationID r1 = db.RegistrationID reg
  /\ db.Email r1 = db.Email reg
  /\ exists row, In row (db.conn s1)
       /\ db.registration_id row = db.RegistrationID reg
       /\ db.email row = db.Email reg.
Proof.
  unfold db.SaveRegistration. simpl.
  set (reg0 := db.mkRegistration _ _ _ _ _ _ _ _ _ _ _ _ _).
  assert (forall t err,
            db.exec_insert (db.insert_values reg0) (db.conn s) = (t, err) ->
            (snd (Now c), db.mkService t (db.runtime s), reg0, err) = (c1, s1, r1, None) ->
            db.RegistrationID r1 = db.RegistrationID reg
            /\ db.Email r1 = db.Email reg
            /\ exists row, In row (db.conn s1)
                 /\ db.registration_id row = db.RegistrationID reg
                 /\ db.email row = db.Email reg) as Hinsert.
  { intros t err Hins Heq. inversion Heq; subst. clear Heq.
    apply exec_insert_ok in Hins. subst t.
    split; [reflexivity|]. split; [reflexivity|].
    exists (db.insert_values reg0). simpl.
    split; [apply in_or_app; right; left; reflexivity|].
    split; reflexivity. }
  destruct (String.eqb (db.runtime s) configuration.Development
            || String.eqb (db.runtime s) configuration.Preproduction).
  - unfold db.GetRegistration. simpl.
    match goal with |- context [find ?f (db.conn s)] =>
      destruct (find f (db.conn s)) as [old|] eqn:Hfind end; simpl.
    + unfold db.AmendRegistration. simpl.
      unfold db.exec_update.
      match goal with |- context [db.update_rows ?sel ?set [] ?t] =>
        destruct (db.update_rows sel set [] t) as [t'|] eqn:Hupd end;
        [|discriminate].
      intros Heq. inversion Heq; subst. clear Heq.
      apply update_rows_result in Hupd. simpl in Hupd. subst t'.
      split; [reflexivity|]. split; [reflexivity|].
      apply find_some in Hfind. destruct Hfind as [Hin Hsel].
      apply andb_true_iff in Hsel. destruct Hsel as [Hv He].
      apply String.eqb_eq in Hv, He.
      eexists. simpl. split.
      { apply in_map_iff. exists old. split; [reflexivity|exact Hin]. }
      unfold db.amend_where. simpl.
      rewrite Hv, He, !String.eqb_refl. simpl.
      split; [reflexivity|exact He].
    + destruct (db.exec_insert (db.insert_values reg0) (db.conn s)) as [t err] eqn:Hins.
      apply (Hinsert t err); reflexivity || exact Hins.
  - destruct (String.eqb (db.runtime s) configuration.Production).
    + destruct (db.exec_insert (db.insert_values reg0) (db.conn s)) as [t err] eqn:Hins.
      apply (Hinsert t err); reflexivity || exact Hins.
    + discriminate.
Qed.

Lemma UpdateRegistrationStatus_eq (c : Clock) (s : db.Service) (reg : db.Registration) :
  db.UpdateRegistrationStatus c s reg
  = (snd (Now c),
     db.mkService
       ((fun r => if db.status_where (db.set_UpdatedAt reg (fst (Now c))) r
                  then db.status_set (db.set_UpdatedAt reg (fst (Now c))) r
                  else r) <$> db.conn s)
       (db.runtime s),
     db.set_UpdatedAt reg (fst (Now c)), None).
Proof.
  unfold db.UpdateRegistrationStatus. simpl.
  rewrite exec_update_status. reflexivity.
Qed.

Lemma status_update_recorded (reg : db.Registration) (t : list db.Row)
    (row : db.Row) :
  In row t ->
  db.registration_id row = db.RegistrationID reg ->
  db.email row = db.Email reg ->
  recorded ((fun r => if db.status_where reg r then db.status_set reg r else r) <$> t)
           (db.RegistrationID reg) (db.Email reg) (db.IssuanceError reg).
Proof.
  intros Hin Hid Hem.
  exists (db.status_set reg row).
  split.
  - apply list_elem_of_In, list_elem_of_fmap. exists row.
    split; [|apply list_elem_of_In; exact Hin].
    unfold db.status_where. rewrite Hid, Hem, !String.eqb_refl.
    reflexivity.
  - simpl. auto.
Qed.

(** C1. For a POST request with the CSRF header whose decoded body has an
    empty [website] and passes [Validate]: if the initial [SaveRegistration]
    succeeds and [LEARIssuanceRequest] then returns an error, the handler
    calls, in order, the save, the issuance request, a status update
    carrying the error message in [IssuanceError], and the operator mail
    (with the marshalled request and the error message); whatever happens
    next, the table holds a row with the registration's id and email whose
    [issuance_error] is the error message.  When the operator mail and the
    welcome mail both return (an error or nil), the welcome mail is followed
    by a second status update that still carries the error message, and the
    handler answers 200
    [{success: true, message: "Registration successful"}].  When the welcome
    mail panics, as the mail service does with SMTP enabled and no onboard
    team address, the handler ends there: the welcome mail is its last call,
    there is no second status update, and nothing is written to the
    client. *)
Theorem HandleRegister_issuance_failure (w : World C) (r : Request)
    (requestData : RegistrationRequest) (c1 : Clock) (d1 : db.Service)
    (reg1 : db.Registration) (issError : error) :
  Method r = "POST" ->
  XRequestedWith r <> "" ->
  decoded r = Ok requestData ->
  Website requestData = "" ->
  Validate requestData = None ->
  db.SaveRegistration (snd (Now (clock w))) (DB (server_ w))
                      (newRegistration w requestData)
  = (c1, d1, reg1, None) ->
  credissuance.LEARIssuanceRequest (network w) (Issuer (server_ w))
                                   (credentialFor requestData)
  = credissuance.Returns (Err issError) ->
  exists regA regB : db.Registration,
    db.IssuanceError regA = Error issError
    /\ db.IssuanceError regB = Error issError
    /\ db.RegistrationID regA = db.RegistrationID (newRegistration w requestData)
    /\ db.Email regA = Email requestData
    /\ recorded (db.conn (DB (server_ (snd (HandleRegister r w)))))
                (db.RegistrationID (newRegistration w requestData))
                (Email requestData) (Error issError)
    /\ let first :=
         calls w
         ++ [CallSaveRegistration (newRegistration w requestData);
             CallLEARIssuanceRequest (credentialFor requestData);
             CallUpdateRegistrationStatus regA;
             CallSendIssuerError regB
               (json.written (credissuance.Marshal (credentialFor requestData)))
               (Error issError)] in
       match mail.SendIssuerError (Mail (server_ w)) regB
               (json.written (credissuance.Marshal (credentialFor requestData)))
               (Error issError),
             mail.SendWelcomeEmail (Mail (server_ w)) regB with
       | credissuance.Returns _, credissuance.Returns _ =>
           fst (HandleRegister r w) = registrationSuccessful
           /\ exists regC : db.Registration,
                calls (snd (HandleRegister r w))
                = first ++ [CallSendWelcomeEmail regB;
                            CallUpdateRegistrationStatus regC]
                /\ db.IssuanceError regC = Error issError
                /\ db.RegistrationID regC
                   = db.RegistrationID (newRegistration w requestData)
                /\ db.Email regC = Email requestData
       | credissuance.Returns _, credissuance.Panics _ =>
           fst (HandleRegister r w) = None
           /\ calls (snd (HandleRegister r w)) = first ++ [CallSendWelcomeEmail regB]
       | credissuance.Panics _, _ =>
           fst (HandleRegister r w) = None
           /\ calls (snd (HandleRegister r w)) = first
       end.
Proof.
  intros Hpost Hcsrf Hdec Hweb Hval Hsave Hiss.
  destruct (SaveRegistration_stored _ _ _ _ _ _ Hsave)
    as (Hid1 & Hem1 & row & Hin & Hrid & Hrem).
  unfold HandleRegister, validateCSRF.
  rewrite Hpost. simpl.
  apply String.eqb_neq in Hcsrf. rewrite Hcsrf. simpl.
  unfold decoded in Hdec. rewrite Hdec, Hweb, Hval. simpl.
  fold (credentialFor requestData).
  destruct w as [[d i m lim codes] [k rd] ent dr fmt net cs].
  unfold newRegistration in *. simpl in *.
  unfold mbind, M_bind, bind, generateRegistrationID, SaveRegistration,
    UpdateRegistrationStatus, LEARIssuanceRequest, SendIssuerError,
    SendWelcomeEmail, welcome, SendJSON, Format, now, randInt, record, setDB,
    mbind, M_bind, mret, M_ret, bind, ret, with_clock, with_server.
  simpl.
  rewrite Hsave. simpl. rewrite Hiss. simpl.
  rewrite !UpdateRegistrationStatus_eq. simpl.
  set (regA := db.set_IssuanceError
                 (db.set_IssuanceAt reg1 (reading c1 (ticks c1))) (Error issError)).
  set (regB := db.set_UpdatedAt regA (reading c1 (S (ticks c1)))).
  assert (recorded
            ((fun r => if db.status_where regB r then db.status_set regB r else r)
               <$> db.conn d1)
            (db.RegistrationID regB) (db.Email regB) (db.IssuanceError regB))
    as HrecB.
  { apply (status_update_recorded regB (db.conn d1) row Hin).
    - simpl. congruence.
    - simpl. congruence. }
  pose proof HrecB as (rowB & HinB & HidB & HemB & _).
  assert (forall regC : db.Registration,
            db.RegistrationID regC = db.RegistrationID regB ->
            db.Email regC = db.Email regB ->
            db.IssuanceError regC = Error issError ->
            recorded
              ((fun r => if db.status_where regC r then db.status_set regC r else r)
                 <$> ((fun r => if db.status_where regB r then db.status_set regB r
                                else r) <$> db.conn d1))
              (fmt (rd k) +:+ "-" +:+ decimal 8 (ent dr `mod` 100000000))
              (Email requestData) (Error issError)) as Hfinal.
  { intros regC HidC HemC HerrC.
    rewrite <- Hid1, <- Hem1, <- HerrC.
    change (db.RegistrationID reg1) with (db.RegistrationID regB).
    change (db.Email reg1) with (db.Email regB).
    rewrite <- HidC, <- HemC.
    apply (status_update_recorded regC _ rowB HinB); congruence. }
  assert (recorded
            ((fun r => if db.status_where regB r then db.status_set regB r else r)
               <$> db.conn d1)
            (fmt (rd k) +:+ "-" +:+ decimal 8 (ent dr `mod` 100000000))
            (Email requestData) (Error issError)) as Hfirst.
  { rewrite <- Hid1, <- Hem1. exact HrecB. }
  exists regA, regB.
  do 2 (split; [reflexivity|]).
  split; [exact Hid1|]. split; [exact Hem1|].
  destruct (mail.SendIssuerError m regB _ _) as [oerr|omsg] eqn:Hop; simpl.
  2:{ split; [exact Hfirst|]. split; [reflexivity|].
      rewrite <- !app_assoc. reflexivity. }
  destruct (mail.SendWelcomeEmail m regB) as [[werr|]|wmsg] eqn:Hmail; simpl;
    rewrite ?UpdateRegistrationStatus_eq; simpl.
  - split; [apply Hfinal; reflexivity|].
    split; [reflexivity|].
    eexists. split.
    { rewrite <- !app_assoc. simpl. reflexivity. }
    simpl. rewrite Hid1, Hem1. repeat split; reflexivity.
  - split; [apply Hfinal; reflexivity|].
    split; [reflexivity|].
    eexists. split.
    { rewrite <- !app_assoc. simpl. reflexivity. }
    simpl. rewrite Hid1, Hem1. repeat split; reflexivity.
  - split; [exact Hfirst|]. split; [reflexivity|].
    rewrite <- !app_assoc. reflexivity.
Qed.

End Workflow.

(** ** The issuance client *)

Section Issuance.

Import credissuance.

Local Arguments json.written : simpl never.

(** C8. Once the token exchange has succeeded and the Issuer has answered
    the posted request with [resp]: the call returns the error carrying
    [resp.Status] exactly when the status code is below 200 or above 399;
    for a status code from 200 to 399 it returns what reading the body gives,
    so the bytes of the body as they are. *)
Theorem LEARIssuanceRequest_status (net : Network) (l : LEARIssuance)
    (learCredData : LEARIssuanceRequestBody) (access_token : string)
    (resp : Response) :
  TokenRequest net (verifierTokenEndpoint l) (machineCredential l)
               (myDidkey l) (verifierURL l) (privateKey l) = Ok access_token ->
  NewRequest_accepts net (credentialIssuancePath l) = true ->
  Do net (issuanceRequest l access_token learCredData) = Done resp ->
  (LEARIssuanceRequest net l learCredData = Returns (Err (statusError resp))
   <-> StatusCode resp < 200 \/ 399 < StatusCode resp)
  /\ (200 <= StatusCode resp <= 399 ->
      LEARIssuanceRequest net l learCredData = Returns (from "io" (ReadAll resp))
      /\ forall body : list bytes.byte,
           ReadAll resp = Done body ->
           LEARIssuanceRequest net l learCredData = Returns (Ok body)).
Proof.
  intros Htok Hreq Hdo.
  unfold LEARIssuanceRequest.
  rewrite Htok, Hreq. simpl.
  fold (issuanceRequest l access_token learCredData). rewrite Hdo. simpl.
  destruct (Z.ltb_spec (StatusCode resp) 200) as [Hlo|Hlo];
    destruct (Z.gtb_spec (StatusCode resp) 399) as [Hhi|Hhi]; simpl.
  - lia.
  - split; [split; [intros _; lia | reflexivity]|]. intros; lia.
  - split; [split; [intros _; lia | reflexivity]|]. intros; lia.
  - split.
    + split; [|intros; lia].
      unfold statusError. destruct (ReadAll resp); simpl; discriminate.
    + intros _. split.
      * destruct (ReadAll resp); reflexivity.
      * intros body ->. reflexivity.
Qed.

(** *** The wire form *)

Lemma all_members_object (members : list (string * json.value)) :
  all_members (json.JObject members) = entries_of members.
Proof.
  unfold entries_of. simpl.
  induction members as [|[k x] l IH]; simpl; [reflexivity|].
  rewrite IH. reflexivity.
Qed.

Lemma all_members_array (elems : list json.value) :
  all_members (json.JArray elems) = flat_map all_members elems.
Proof.
  simpl. induction elems as [|e l IH]; simpl; [reflexivity|].
  rewrite IH. reflexivity.
Qed.

Lemma entries_of_app (l1 l2 : list (string * json.value)) :
  entries_of (l1 ++ l2) = entries_of l1 ++ entries_of l2.
Proof. unfold entries_of. apply flat_map_app. Qed.

(** A string field tagged [omitempty] contributes no member with an empty
    value. *)
Lemma omitempty_string_nonempty (name s k : string) (v : json.value) :
  In (k, v) (entries_of (json.omitempty_string name s)) -> is_empty v = false.
Proof.
  unfold json.omitempty_string.
  destruct (String.eqb s "") eqn:Hs; simpl; [tauto|].
  intros [[= <- <-]|[]]. simpl. exact Hs.
Qed.

Lemma Strings_MarshalJSON_members (a : Strings) :
  all_members (Strings_MarshalJSON a) = [].
Proof.
  destruct a as [|x [|y a]]; simpl; try reflexivity.
  induction a as [|z a IH]; simpl; [reflexivity|exact IH].
Qed.

Lemma Strings_MarshalJSON_empty (a : Strings) :
  a <> [] -> is_empty (Strings_MarshalJSON a) = true -> a = [""].
Proof.
  destruct a as [|x [|y a]]; simpl; try congruence.
  intros _ Hx. apply String.eqb_eq in Hx. congruence.
Qed.

Lemma Marshal_Power_empty_member (p : Power) (k : string) (v : json.value) :
  In (k, v) (all_members (Marshal_Power p)) -> is_empty v = true ->
  k = "action" /\ v = json.JString "" /\ Action p = [""].
Proof.
  unfold Marshal_Power. rewrite all_members_object, !entries_of_app, !in_app_iff.
  intros [H|[H|[H|H]]] He;
    try (apply omitempty_string_nonempty in H; congruence).
  destruct (Nat.eqb_spec (length (Action p)) 0) as [Hlen|Hlen]; [destruct H|].
  unfold entries_of in H. cbn [flat_map fst snd] in H. rewrite app_nil_r in H.
  destruct H as [[= <- <-]|H].
  - apply Strings_MarshalJSON_empty in He.
    + rewrite He. simpl. auto.
    + intros Hnil. rewrite Hnil in Hlen. apply Hlen. reflexivity.
  - rewrite Strings_MarshalJSON_members in H. destruct H.
Qed.

Lemma Marshal_Mandator_empty (m : Mandator) :
  is_empty (Marshal_Mandator m) = true -> m = zero_Mandator.
Proof.
  destruct m as [a b c d e f]. unfold Marshal_Mandator, json.omitempty_string.
  simpl.
  destruct (String.eqb_spec a ""); [|discriminate].
  destruct (String.eqb_spec b ""); [|discriminate].
  destruct (String.eqb_spec c ""); [|discriminate].
  destruct (String.eqb_spec d ""); [|discriminate].
  destruct (String.eqb_spec e ""); [|discriminate].
  destruct (String.eqb_spec f ""); [|discriminate].
  subst. reflexivity.
Qed.

Lemma Marshal_Mandatee_empty (m : Mandatee) :
  is_empty (Marshal_Mandatee m) = true -> m = zero_Mandatee.
Proof.
  destruct m as [a b c d]. unfold Marshal_Mandatee, json.omitempty_string.
  simpl.
  destruct (String.eqb_spec a ""); [|discriminate].
  destruct (String.eqb_spec b ""); [|discriminate].
  destruct (String.eqb_spec c ""); [|discriminate].
  destruct (String.eqb_spec d ""); [|discriminate].
  subst. reflexivity.
Qed.

Lemma Marshal_Mandator_members (m : Mandator) (k : string) (v : json.value) :
  In (k, v) (all_members (Marshal_Mandator m)) -> is_empty v = false.
Proof.
  unfold Marshal_Mandator. rewrite all_members_object, !entries_of_app, !in_app_iff.
  intros [H|[H|[H|[H|[H|H]]]]]; exact (omitempty_string_nonempty _ _ _ _ H).
Qed.

Lemma Marshal_Mandatee_members (m : Mandatee) (k : string) (v : json.value) :
  In (k, v) (all_members (Marshal_Mandatee m)) -> is_empty v = false.
Proof.
  unfold Marshal_Mandatee. rewrite all_members_object, !entries_of_app, !in_app_iff.
  intros [H|[H|[H|H]]]; exact (omitempty_string_nonempty _ _ _ _ H).
Qed.

(** C9, amended. In the wire form of a request, a key carries an empty value
    only in these cases: [mandator] or [mandatee] is the empty object because
    all its fields are empty, or [action] is the empty string because the
    action list is the one-element list of the empty string.  So every string
    field that is empty, and [power] and [action] when they have no element,
    are left out. *)
Theorem Marshal_omits_empty (b : LEARIssuanceRequestBody) (k : string)
    (v : json.value) :
  In (k, v) (all_members (Marshal b)) ->
  is_empty v = true ->
  empty_by_design b k v.
Proof.
  unfold Marshal. rewrite all_members_object, !entries_of_app, !in_app_iff.
  intros [H|[H|[H|[H|H]]]] He;
    try (apply omitempty_string_nonempty in H; congruence).
  unfold entries_of in H. cbn [flat_map fst snd] in H. rewrite app_nil_r in H.
  destruct H as [[= <- <-]|H]; [simpl in He; discriminate|].
  unfold Marshal_Payload in H.
  rewrite all_members_object, entries_of_app, in_app_iff in H.
  destruct H as [H|H].
  - unfold entries_of in H. cbn [flat_map fst snd] in H.
    rewrite app_nil_r in H. cbn [In app] in H. rewrite in_app_iff in H.
    cbn [In] in H.
    destruct H as [[= <- <-]|[H|[[= <- <-]|H]]].
    + left. pose proof (Marshal_Mandator_empty _ He) as Hz.
      rewrite Hz. auto.
    + apply Marshal_Mandator_members in H. congruence.
    + right. left. pose proof (Marshal_Mandatee_empty _ He) as Hz.
      rewrite Hz. auto.
    + apply Marshal_Mandatee_members in H. congruence.
  - destruct (Nat.eqb_spec (length (Power_ (Payload_ b))) 0) as [Hlen|Hlen];
      [destruct H|].
    unfold entries_of in H. cbn [flat_map fst snd] in H. rewrite app_nil_r in H.
    destruct H as [[= <- <-]|H].
    + destruct (Power_ (Payload_ b)); [exfalso; apply Hlen; reflexivity|].
      simpl in He. discriminate.
    + rewrite all_members_array in H.
      apply in_flat_map in H. destruct H as (x & Hx & Hin).
      apply in_map_iff in Hx. destruct Hx as (p & <- & Hp).
      destruct (Marshal_Power_empty_member p k v Hin He) as (-> & -> & Ha).
      right. right. eauto.
Qed.

(** C9 as stated fails: the wire form of [blankRequest] has the key [action]
    with the empty string as value, and the key [mandator] with the empty
    object as value; so has the wire form of the sample [Cred2]. *)
Lemma Marshal_keeps_empty_values :
  In ("action", json.JString "") (all_members (Marshal blankRequest))
  /\ is_empty (json.JString "") = true
  /\ In ("mandator", json.JObject []) (all_members (Marshal blankRequest))
  /\ In ("mandator", json.JObject []) (all_members (Marshal Cred2))
  /\ is_empty (json.JObject []) = true.
Proof.
  vm_compute. intuition.
Qed.

(** C5. A one-element action list is rendered as the bare string, a list of
    two or more as an array of strings.  Reading back is not symmetric: the
    array form of [Cred1] parses to [Cred1], but the form [Marshal] produces
    for it, with [action] as the bare string [execute], is refused by
    [ParseLEARIssuanceRequestBody] with a type error on [Power.action]. *)
Theorem Strings_wire_forms :
  (forall x : string, Strings_MarshalJSON [x] = json.JString x)
  /\ (forall (x y : string) (s : Strings),
        Strings_MarshalJSON (x :: y :: s)
        = json.JArray (json.JString x :: json.JString y :: map json.JString s))
  /\ Marshal_Power (mkPower "domain" "DOME" "Onboarding" ["execute"])
     = json.JObject [("type", json.JString "domain");
                     ("domain", json.JString "DOME");
                     ("function", json.JString "Onboarding");
                     ("action", json.JString "execute")]
  /\ ParseLEARIssuanceRequestBody Cred1_array_form = Ok Cred1
  /\ ParseLEARIssuanceRequestBody (Marshal Cred1)
     = Err (ErrUnmarshalType "string" "Power.action").
Proof.
  split; [reflexivity|].
  split; [reflexivity|].
  split; [reflexivity|].
  split; vm_compute; reflexivity.
Qed.

End Issuance.

(** ** Reading the wire form back *)

Section ReadBack.

Import credissuance.

Local Arguments Marshal_Payload : simpl never.
Local Arguments Marshal_Mandator : simpl never.
Local Arguments Marshal_Mandatee : simpl never.
Local Arguments Marshal_Power : simpl never.
Local Arguments Strings_MarshalJSON : simpl never.

Ltac split_fields :=
  cbn [OrganizationIdentifier Organization Country CommonName EmailAddress
       SerialNumber FirstName LastName Nationality Email Type_ Domain Function
       Action Schema OperationMode Format ResponseUri Payload_];
  unfold json.omitempty_string;
  repeat match goal with
         | |- context [String.eqb ?s ""] =>
             destruct (String.eqb_spec s ""); [subst s|]
         end.

Ltac by_fields := split_fields; reflexivity.

Lemma read_Mandator (m : Mandator) :
  json.decode_struct "Payload.mandator" Mandator_member (Marshal_Mandator m)
                     zero_Mandator = Ok m.
Proof. destruct m as [a b c d e f]. unfold Marshal_Mandator. by_fields. Qed.

Lemma read_Mandatee (m : Mandatee) :
  json.decode_struct "Payload.mandatee" Mandatee_member (Marshal_Mandatee m)
                     zero_Mandatee = Ok m.
Proof. destruct m as [a b c d]. unfold Marshal_Mandatee. by_fields. Qed.

Lemma read_strings (a : list string) :
  json.mapM (fun e => json.decode_string "Power.action" e "")
            (map json.JString a) = Ok a.
Proof.
  induction a as [|x a IH]; [reflexivity|].
  cbn [map json.mapM json.decode_string]. rewrite IH. reflexivity.
Qed.

Lemma read_Strings (a : Strings) :
  length a <> 1%nat -> a <> [] ->
  decode_Strings (Strings_MarshalJSON a) = Ok a.
Proof.
  intros Hone Hnil. destruct a as [|x [|y a]]; try congruence.
  { exfalso. apply Hone. reflexivity. }
  unfold decode_Strings, Strings_MarshalJSON, json.decode_slice.
  apply (read_strings (x :: y :: a)).
Qed.

Lemma read_Power (p : Power) :
  length (Action p) <> 1%nat ->
  decode_Power (Marshal_Power p) = Ok p.
Proof.
  destruct p as [t d f a]. cbn [Action]. intros Hone.
  unfold decode_Power, Marshal_Power. cbn [Type_ Domain Function Action].
  destruct (Nat.eqb_spec (length a) 0) as [Hlen|Hlen].
  - destruct a; [|discriminate]. by_fields.
  - assert (decode_Strings (Strings_MarshalJSON a) = Ok a) as Ha.
    { apply read_Strings; [exact Hone|].
      intros ->. apply Hlen. reflexivity. }
    split_fields; cbn; rewrite Ha; reflexivity.
Qed.

Lemma read_Powers (ps : list Power) :
  (forall p, In p ps -> length (Action p) <> 1%nat) ->
  json.mapM decode_Power (map Marshal_Power ps) = Ok ps.
Proof.
  induction ps as [|p ps IH]; intros Hall; [reflexivity|].
  cbn [map json.mapM].
  rewrite read_Power by (apply Hall; left; reflexivity).
  rewrite IH by (intros q Hq; apply Hall; right; exact Hq).
  reflexivity.
Qed.

Lemma read_Payload (p : Payload) :
  (forall q, In q (Power_ p) -> length (Action q) <> 1%nat) ->
  json.decode_struct "LEARIssuanceRequestBody.payload" Payload_member
                     (Marshal_Payload p) zero_Payload = Ok p.
Proof.
  destruct p as [m e ps]. cbn [Power_]. intros Hall.
  unfold Marshal_Payload. cbn [Mandator_ Mandatee_ Power_].
  destruct (Nat.eqb_spec (length ps) 0) as [Hlen|Hlen].
  - destruct ps; [|discriminate].
    cbn. rewrite read_Mandator. cbn. rewrite read_Mandatee. reflexivity.
  - cbn. rewrite read_Mandator. cbn. rewrite read_Mandatee. cbn.
    rewrite read_Powers by exact Hall. reflexivity.
Qed.

Lemma coerce_from_valid (s : string) :
  forall k, utf8.valid_from k s = true -> utf8.coerce_from k s = s.
Proof.
  induction s as [|c s IH]; intros k; [reflexivity|].
  cbn [utf8.valid_from utf8.coerce_from].
  destruct k as [|k].
  - destruct (utf8.rune_length (String c s)); [discriminate|].
    intros H. rewrite (IH _ H). reflexivity.
  - intros H. rewrite (IH _ H). reflexivity.
Qed.

Lemma coerced_valid (s : string) :
  utf8.ValidString s = true -> utf8.coerced s = s.
Proof. apply coerce_from_valid. Qed.

Lemma valid_strings_checked (l : list string) :
  forallb utf8.ValidString l = true ->
  Forall (fun s => utf8.ValidString s = true) l.
Proof.
  induction l as [|s l IH]; cbn [forallb]; intros H; constructor.
  - apply andb_true_iff in H. apply H.
  - apply IH. apply andb_true_iff in H. apply H.
Qed.

Local Arguments utf8.coerced : simpl never.

Lemma written_object (members : list (string * json.value)) :
  json.written (json.JObject members) = json.JObject (map written_member members).
Proof. reflexivity. Qed.

Lemma written_omitempty (name s : string) :
  utf8.coerced name = name -> utf8.ValidString s = true ->
  map written_member (json.omitempty_string name s) = json.omitempty_string name s.
Proof.
  intros Hn Hs. unfold json.omitempty_string.
  destruct (String.eqb s ""); [reflexivity|].
  cbn [map]. unfold written_member. cbn [fst snd json.written].
  rewrite Hn, (coerced_valid s Hs). reflexivity.
Qed.

Lemma written_member_valid (name : string) (v : json.value) :
  utf8.coerced name = name -> json.written v = v ->
  map written_member [(name, v)] = [(name, v)].
Proof.
  intros Hn Hv. cbn [map]. unfold written_member. cbn [fst snd].
  rewrite Hn, Hv. reflexivity.
Qed.

Ltac valid_fields H :=
  repeat match type of H with
         | Forall _ (_ :: _) =>
             let Hs := fresh "Hs" in
             apply Forall_cons in H; destruct H as [Hs H]
         end.

Ltac written_fields :=
  rewrite written_object, ?map_app;
  rewrite ?written_omitempty by (assumption || reflexivity).

Lemma written_Mandator (m : Mandator) :
  Forall (fun s => utf8.ValidString s = true)
         [OrganizationIdentifier m; Organization m; Country m; CommonName m;
          EmailAddress m; SerialNumber m] ->
  json.written (Marshal_Mandator m) = Marshal_Mandator m.
Proof.
  intros H. valid_fields H. unfold Marshal_Mandator.
  written_fields. reflexivity.
Qed.

Lemma written_Mandatee (m : Mandatee) :
  Forall (fun s => utf8.ValidString s = true)
         [FirstName m; LastName m; Nationality m; Email m] ->
  json.written (Marshal_Mandatee m) = Marshal_Mandatee m.
Proof.
  intros H. valid_fields H. unfold Marshal_Mandatee.
  written_fields. reflexivity.
Qed.

Lemma written_strings (a : list string) :
  Forall (fun s => utf8.ValidString s = true) a ->
  map json.written (map json.JString a) = map json.JString a.
Proof.
  induction 1 as [|x a Hx Ha IH]; [reflexivity|].
  cbn [map json.written]. rewrite (coerced_valid x Hx), IH. reflexivity.
Qed.

Lemma written_Strings (a : Strings) :
  Forall (fun s => utf8.ValidString s = true) a ->
  json.written (Strings_MarshalJSON a) = Strings_MarshalJSON a.
Proof.
  intros H. destruct a as [|x [|y a]].
  - reflexivity.
  - apply Forall_cons in H. destruct H as [Hx _].
    unfold Strings_MarshalJSON. cbn [json.written].
    rewrite (coerced_valid x Hx). reflexivity.
  - unfold Strings_MarshalJSON.
    change (json.written (json.JArray (map json.JString (x :: y :: a))))
      with (json.JArray (map json.written (map json.JString (x :: y :: a)))).
    rewrite (written_strings _ H). reflexivity.
Qed.

Lemma written_Power (p : Power) :
  Forall (fun s => utf8.ValidString s = true)
         ([Type_ p; Domain p; Function p] ++ Action p) ->
  json.written (Marshal_Power p) = Marshal_Power p.
Proof.
  intros H. cbn [app] in H. valid_fields H. unfold Marshal_Power.
  written_fields.
  destruct (length (Action p) =? 0)%nat; [reflexivity|].
  rewrite written_member_valid; [reflexivity|reflexivity|].
  apply written_Strings, H.
Qed.

Lemma written_Powers (ps : list Power) :
  Forall (fun s => utf8.ValidString s = true)
         (flat_map (fun p => [Type_ p; Domain p; Function p] ++ Action p) ps) ->
  map json.written (map Marshal_Power ps) = map Marshal_Power ps.
Proof.
  induction ps as [|p ps IH]; intros H; [reflexivity|].
  cbn [flat_map] in H. apply Forall_app in H. destruct H as [Hp Hps].
  cbn [map]. rewrite (written_Power p Hp), (IH Hps). reflexivity.
Qed.

Lemma written_Marshal (b : LEARIssuanceRequestBody) :
  Forall (fun s => utf8.ValidString s = true) (strings_of b) ->
  json.written (Marshal b) = Marshal b.
Proof.
  unfold strings_of. intros H. apply Forall_app in H. destruct H as [H Hps].
  valid_fields H.
  assert (json.written (Marshal_Payload (Payload_ b)) = Marshal_Payload (Payload_ b))
    as Hpayload.
  { unfold Marshal_Payload. rewrite written_object, map_app.
    cbn [map]. unfold written_member at 1 2. cbn [fst snd].
    rewrite written_Mandator by (repeat constructor; assumption).
    rewrite written_Mandatee by (repeat constructor; assumption).
    destruct (length (Power_ (Payload_ b)) =? 0)%nat; [reflexivity|].
    rewrite written_member_valid; [reflexivity|reflexivity|].
    change (json.written (json.JArray (map Marshal_Power (Power_ (Payload_ b)))))
      with (json.JArray (map json.written (map Marshal_Power (Power_ (Payload_ b))))).
    rewrite (written_Powers _ Hps). reflexivity. }
  unfold Marshal. written_fields.
  rewrite written_member_valid; [reflexivity|reflexivity|exact Hpayload].
Qed.

(** X4. Reading back what was written: a request whose strings are valid
    UTF-8 and in which no power has an action list of exactly one element is
    recovered by [ParseLEARIssuanceRequestBody] from the text that
    [json.Marshal] writes for it. *)
Theorem Parse_Marshal (b : LEARIssuanceRequestBody) :
  Forall (fun s => utf8.ValidString s = true) (strings_of b) ->
  (forall p, In p (Power_ (Payload_ b)) -> length (Action p) <> 1%nat) ->
  ParseLEARIssuanceRequestBody (json.written (Marshal b)) = Ok b.
Proof.
  intros Hvalid Hall. rewrite (written_Marshal b Hvalid).
  destruct b as [s o f r p]. cbn [Payload_] in Hall.
  pose proof (read_Payload p Hall) as Hp.
  unfold ParseLEARIssuanceRequestBody, Marshal.
  cbn [Schema OperationMode Format ResponseUri Payload_].
  split_fields; cbn; rewrite Hp; reflexivity.
Qed.

End ReadBack.

(** ** The key identity *)

Section KeyIdentity.

Import credissuance.

Local Arguments ecdsa.inv : simpl never.
Local Arguments Z.mul : simpl never.
Local Arguments Z.pow : simpl never.
Local Arguments Z.modulo : simpl never.
Local Arguments Z.div : simpl never.
Local Arguments base58.Encode : simpl never.

Lemma length_big_endian (n : nat) (x : Z) : length (bytes.big_endian n x) = n.
Proof. induction n as [|n IH]; simpl; [reflexivity|]. by rewrite IH. Qed.

Lemma big_endian_last (n : nat) (x : Z) :
  nth n (bytes.big_endian (S n) x) 0 = x mod 256.
Proof.
  induction n as [|n IH].
  - simpl. rewrite Z.pow_0_r, Z.div_1_r. reflexivity.
  - change (bytes.big_endian (S (S n)) x)
      with ((x / 256 ^ Z.of_nat (S n)) mod 256 :: bytes.big_endian (S n) x).
    simpl nth. exact IH.
Qed.

Lemma to_Z_acc (bs : list bytes.byte) (acc : Z) :
  fold_left (fun a b => a * 256 + b) bs acc
  = acc * 256 ^ Z.of_nat (length bs) + bytes.to_Z bs.
Proof.
  unfold bytes.to_Z. revert acc.
  induction bs as [|b bs IH]; intros acc.
  - simpl. rewrite Z.pow_0_r. lia.
  - cbn [fold_left length]. rewrite IH, (IH (0 * 256 + b)).
    rewrite Nat2Z.inj_succ, Z.pow_succ_r by lia. lia.
Qed.

(** The [n] big-endian bytes of [x] denote [x] modulo 256^n. *)
Lemma to_Z_big_endian (n : nat) (x : Z) :
  bytes.to_Z (bytes.big_endian n x) = x mod 256 ^ Z.of_nat n.
Proof.
  induction n as [|n IH].
  - simpl. rewrite Z.pow_0_r, Z.mod_1_r. reflexivity.
  - change (bytes.big_endian (S n) x)
      with ((x / 256 ^ Z.of_nat n) mod 256 :: bytes.big_endian n x).
    unfold bytes.to_Z. cbn [fold_left]. rewrite to_Z_acc, IH, length_big_endian.
    rewrite Nat2Z.inj_succ, Z.pow_succ_r by lia.
    rewrite (Z.mul_comm 256), Z.rem_mul_r by lia. lia.
Qed.

(** The compressed form of the uncompressed encoding of (X, Y). *)
Lemma compress_uncompressed (x y : Z) :
  compress (4 :: bytes.big_endian 32 x ++ bytes.big_endian 32 y)
  = (if Z.even y then 2 else 3) :: bytes.big_endian 32 x.
Proof.
  unfold compress, bytes.slice.
  change (33 - 1)%nat with 32%nat.
  change (skipn 1 (4 :: bytes.big_endian 32 x ++ bytes.big_endian 32 y))
    with (bytes.big_endian 32 x ++ bytes.big_endian 32 y).
  rewrite firstn_app, length_big_endian, Nat.sub_diag, firstn_O, app_nil_r.
  rewrite firstn_all2 by (rewrite length_big_endian; lia).
  change (nth 64 (4 :: bytes.big_endian 32 x ++ bytes.big_endian 32 y) 0)
    with (nth 63 (bytes.big_endian 32 x ++ bytes.big_endian 32 y) 0).
  rewrite app_nth2 by (rewrite length_big_endian; lia).
  rewrite length_big_endian. change (63 - 32)%nat with 31%nat.
  rewrite big_endian_last.
  rewrite (Z.mod_mod_divide y 256 2) by (exists 128; reflexivity).
  rewrite Zmod_even. destruct (Z.even y); reflexivity.
Qed.

Lemma p_pos : 0 < ecdsa.p.
Proof. reflexivity. Qed.

Lemma reduced_double (P : ecdsa.point) : reduced (ecdsa.double P).
Proof.
  destruct P as [[x y]|]; simpl; [|exact I].
  destruct (y mod ecdsa.p =? 0); simpl; [exact I|].
  split; apply Z.mod_pos_bound, p_pos.
Qed.

Lemma reduced_add (P Q : ecdsa.point) :
  reduced P -> reduced Q -> reduced (ecdsa.add P Q).
Proof.
  intros HP HQ.
  destruct P as [[x1 y1]|], Q as [[x2 y2]|]; simpl; try assumption.
  destruct ((x1 - x2) mod ecdsa.p =? 0).
  - destruct ((y1 - y2) mod ecdsa.p =? 0); [|exact I].
    apply (reduced_double (Some (x1, y1))).
  - split; apply Z.mod_pos_bound, p_pos.
Qed.

Lemma reduced_mul (k : positive) (P : ecdsa.point) :
  reduced P -> reduced (ecdsa.mul k P).
Proof.
  intros HP. induction k as [k IH|k IH|]; simpl.
  - apply reduced_add; [apply reduced_double|exact HP].
  - apply reduced_double.
  - exact HP.
Qed.

(** The coordinates of a parsed key fit in 32 bytes. *)
Lemma ParseRawPrivateKey_reduced (data : list bytes.byte) (key : ecdsa.PrivateKey) :
  ecdsa.ParseRawPrivateKey data = Ok key ->
  (0 <= ecdsa.X (ecdsa.PublicKey_ key) < 256 ^ 32)
  /\ (0 <= ecdsa.Y (ecdsa.PublicKey_ key) < 256 ^ 32).
Proof.
  unfold ecdsa.ParseRawPrivateKey.
  destruct (negb (length data =? 32)%nat); [discriminate|].
  destruct ((bytes.to_Z data <=? 0) || (ecdsa.n <=? bytes.to_Z data));
    [discriminate|].
  destruct (bytes.to_Z data) as [|d|d] eqn:Hd; simpl; try discriminate.
  pose proof (reduced_mul d (Some (ecdsa.Gx, ecdsa.Gy))) as Hred.
  destruct (ecdsa.mul d (Some (ecdsa.Gx, ecdsa.Gy))) as [[x y]|]; [|discriminate].
  intros [= <-]. simpl.
  assert (ecdsa.p < 256 ^ 32) as Hp by reflexivity.
  destruct Hred as [Hx Hy].
  { simpl. split; split; reflexivity || discriminate. }
  lia.
Qed.

(** C4 as stated fails: for [sampleConfig] the identifier derived from the
    key equals the configured one, and yet [NewLEARIssuance] returns an
    error, because the machine credential file cannot be read. *)
Lemma NewLEARIssuance_error_without_mismatch :
  ecdsa.ParseRawPrivateKey (rawScalar sampleKeyFile) = Ok sampleKey
  /\ DeriveIdentifier (ecdsa.PublicKey_ sampleKey) = MyDidkey sampleConfig
  /\ NewLEARIssuance sampleFiles sampleConfig
     = Err (ErrExternal "os" "open machine.jwt: no such file or directory").
Proof.
  split; [vm_compute; reflexivity|].
  split; vm_compute; reflexivity.
Qed.

(** C4, amended. For a key file that is read and parsed into a P-256 key,
    the identifier the code derives is [did:key:z] followed by the base58
    encoding of the tag bytes 0x80 0x24 and the 33-byte compressed key: 0x02
    when Y is even, 0x03 when it is odd, then the 32 bytes of X (which denote
    X itself).  [NewLEARIssuance] returns the identity-mismatch error exactly
    when this identifier differs from the configured one; when they are
    equal, it builds the client from the machine credential file, and fails
    only if that file cannot be read. *)
Theorem NewLEARIssuance_identifier (ReadFile : string -> io string)
    (config : EnvConfig) (raw : string) (key : ecdsa.PrivateKey) :
  ReadFile (PrivateKeyFile config) = Done raw ->
  ecdsa.ParseRawPrivateKey (rawScalar raw) = Ok key ->
  (exists uncompressed : list bytes.byte,
      ecdsa.Bytes (ecdsa.PublicKey_ key) = Ok uncompressed
      /\ didKeyOf uncompressed = DeriveIdentifier (ecdsa.PublicKey_ key))
  /\ length ((if Z.even (ecdsa.Y (ecdsa.PublicKey_ key)) then 2 else 3)
             :: bytes.big_endian 32 (ecdsa.X (ecdsa.PublicKey_ key))) = 33%nat
  /\ bytes.to_Z (bytes.big_endian 32 (ecdsa.X (ecdsa.PublicKey_ key)))
     = ecdsa.X (ecdsa.PublicKey_ key)
  /\ (NewLEARIssuance ReadFile config = Err identityMismatch
      <-> DeriveIdentifier (ecdsa.PublicKey_ key) <> MyDidkey config)
  /\ (DeriveIdentifier (ecdsa.PublicKey_ key) = MyDidkey config ->
      NewLEARIssuance ReadFile config
      = match ReadFile (MachineCredentialFile config) with
        | Done buf =>
            Ok (mkLEARIssuance key buf (TokenEndpoint (Verifier config))
                               (URL (Verifier config)) (MyDidkey config)
                               (CredentialIssuancePath (Issuer config)))
        | Failed msg => Err (ErrExternal "os" msg)
        end).
Proof.
  intros Hread Hparse.
  assert (didKeyOf (4 :: bytes.big_endian 32 (ecdsa.X (ecdsa.PublicKey_ key))
                      ++ bytes.big_endian 32 (ecdsa.Y (ecdsa.PublicKey_ key)))
          = DeriveIdentifier (ecdsa.PublicKey_ key)) as Hdid.
  { unfold didKeyOf, DeriveIdentifier, varintPrefix.
    rewrite compress_uncompressed. reflexivity. }
  split; [eexists; split; [reflexivity|exact Hdid]|].
  split; [cbn [length]; rewrite length_big_endian; reflexivity|].
  split.
  { rewrite to_Z_big_endian. apply Z.mod_small.
    apply (ParseRawPrivateKey_reduced _ _ Hparse). }
  unfold NewLEARIssuance. rewrite Hread. cbn [from].
  change (fst (hex.DecodeString
                 (strings_.TrimPrefix (strings_.TrimPrefix raw "0x") "0X")))
    with (rawScalar raw).
  rewrite Hparse.
  unfold ecdsa.Bytes. rewrite Hdid.
  destruct (String.eqb_spec (DeriveIdentifier (ecdsa.PublicKey_ key))
                            (MyDidkey config)) as [Heq|Hne]; simpl.
  - split.
    + split; [|intros Hc; contradiction].
      destruct (ReadFile (MachineCredentialFile config)); discriminate.
    + intros _. destruct (ReadFile (MachineCredentialFile config)); reflexivity.
  - split.
    + split; [intros _; exact Hne | reflexivity].
    + intros Hc. contradiction.
Qed.

End KeyIdentity.

(** ** The table: queries and invariants *)

Section StoreQueries.

Import db.

Lemma find_fmap_stable {A : Type} (f : A -> bool) (g : A -> A) (l : list A) :
  (forall a, f (g a) = f a) ->
  find f (g <$> l) = g <$> find f l.
Proof.
  intros Hfg. induction l as [|a l IH]; simpl; [reflexivity|].
  rewrite Hfg. destruct (f a); [reflexivity|exact IH].
Qed.

Lemma find_app_none {A : Type} (f : A -> bool) (l : list A) (a : A) :
  find f l = None -> f a = true -> find f (l ++ [a]) = Some a.
Proof.
  intros Hn Ha. induction l as [|b l IH]; simpl in *.
  - rewrite Ha. reflexivity.
  - destruct (f b); [discriminate|]. apply IH, Hn.
Qed.

Lemma unique_conflict_none (r : Row) (t : Table) :
  unique_conflict r t = None ->
  forall o, In o t ->
    registration_id o <> registration_id r /\ email o <> email r
    /\ vat_id o <> vat_id r.
Proof.
  intros Hu o Hin.
  repeat split; intros Heq;
    apply (unique_conflict_member r o t Hin); auto.
Qed.

Lemma find_none_absent (reg : Registration) (t : Table) :
  find (fun r => String.eqb (vat_id r) (VatID reg) && String.eqb (email r) (Email reg)) t
  = None
  <-> absent vat_id email (VatID reg) (Email reg) t.
Proof.
  split.
  - intros Hf r Hin [Hv He].
    apply (find_none _ _ Hf r) in Hin.
    rewrite Hv, He, !String.eqb_refl in Hin. discriminate.
  - intros Ha.
    destruct (find _ t) as [r|] eqn:Hf; [|reflexivity].
    apply find_some in Hf. destruct Hf as [Hin Hsel].
    apply andb_true_iff in Hsel. destruct Hsel as [Hv He].
    apply String.eqb_eq in Hv, He.
    exfalso. apply (Ha r Hin). auto.
Qed.

(** The registration as [SaveRegistration] stamps it at time [now]. *)
Lemma SaveRegistration_cases (c : Clock) (s : Service) (reg : Registration) :
  let reg0 := mkRegistration (RegistrationID reg) (Email reg) (FirstName reg)
                (LastName reg) (CompanyName reg) (Country reg) (VatID reg)
                (fst (Now c)) (fst (Now c)) (fst (Now c)) "" (fst (Now c)) "" in
  SaveRegistration c s reg
  = if String.eqb (runtime s) configuration.Development
       || String.eqb (runtime s) configuration.Preproduction then
      match find (fun r => String.eqb (vat_id r) (VatID reg)
                           && String.eqb (email r) (Email reg)) (conn s) with
      | Some _ => AmendRegistration (snd (Now c)) s reg0
      | None =>
          (snd (Now c),
           mkService (fst (exec_insert (insert_values reg0) (conn s))) (runtime s),
           reg0, snd (exec_insert (insert_values reg0) (conn s)))
      end
    else if String.eqb (runtime s) configuration.Production then
      (snd (Now c),
       mkService (fst (exec_insert (insert_values reg0) (conn s))) (runtime s),
       reg0, snd (exec_insert (insert_values reg0) (conn s)))
    else (snd (Now c), s, reg0,
          Some (Errorf ("unknown runtime environment: " +:+ runtime s))).
Proof.
  intros reg0. subst reg0. unfold SaveRegistration, Now. cbn [fst snd].
  destruct (String.eqb (runtime s) configuration.Development
            || String.eqb (runtime s) configuration.Preproduction).
  - unfold GetRegistration. cbn [VatID Email].
    destruct (find _ (conn s)); cbn [isErrNoRows negb].
    + reflexivity.
    + destruct (exec_insert _ (conn s)); reflexivity.
  - destruct (String.eqb (runtime s) configuration.Production); [|reflexivity].
    destruct (exec_insert _ (conn s)); reflexivity.
Qed.

(** X6. Round trip through the table: after a successful [SaveRegistration],
    in any runtime and from any table, [GetRegistration] with the tax id and
    email of the registration finds a registration that agrees with the one
    handed back by the save on every column but [created_at], and that
    carries the id, email, names, company, country and tax id submitted. *)
Theorem SaveRegistration_then_GetRegistration (c c1 : Clock) (s s1 : Service)
    (reg r1 : Registration) :
  SaveRegistration c s reg = (c1, s1, r1, None) ->
  exists found : Registration,
    GetRegistration s1 (VatID reg) (Email reg) = (Some found, None)
    /\ same_but_created_at found r1
    /\ RegistrationID found = RegistrationID reg
    /\ Email found = Email reg
    /\ FirstName found = FirstName reg
    /\ LastName found = LastName reg
    /\ CompanyName found = CompanyName reg
    /\ Country found = Country reg
    /\ VatID found = VatID reg
    /\ IssuanceError found = "" /\ NotifEmailError found = "".
Proof.
  rewrite SaveRegistration_cases. cbv zeta.
  set (reg0 := mkRegistration _ _ _ _ _ _ _ _ _ _ _ _ _).
  assert (forall t,
            find (fun r => String.eqb (vat_id r) (VatID reg)
                           && String.eqb (email r) (Email reg)) t = None ->
            exec_insert (insert_values reg0) t
            = (fst (exec_insert (insert_values reg0) t), None) ->
            (snd (Now c), mkService (fst (exec_insert (insert_values reg0) t)) (runtime s),
             reg0, @None error) = (c1, s1, r1, None) ->
            exists found : Registration,
              GetRegistration s1 (VatID reg) (Email reg) = (Some found, None)
              /\ same_but_created_at found r1
              /\ RegistrationID found = RegistrationID reg
              /\ Email found = Email reg
              /\ FirstName found = FirstName reg
              /\ LastName found = LastName reg
              /\ CompanyName found = CompanyName reg
              /\ Country found = Country reg
              /\ VatID found = VatID reg
              /\ IssuanceError found = "" /\ NotifEmailError found = "") as Hinsert.
  { intros t Hnone Hins Heq. inversion Heq; subst. clear Heq.
    apply exec_insert_ok in Hins. rewrite Hins.
    exists reg0. unfold GetRegistration. cbn [conn].
    rewrite (find_app_none _ _ (insert_values reg0) Hnone)
      by (cbn; rewrite !String.eqb_refl; reflexivity).
    split; [reflexivity|].
    split; [repeat split|]. repeat split. }
  destruct (String.eqb (runtime s) configuration.Development
            || String.eqb (runtime s) configuration.Preproduction).
  - destruct (find _ (conn s)) as [old|] eqn:Hfind.
    + unfold AmendRegistration, exec_update. cbn [Now fst snd].
      match goal with |- context [update_rows ?sel ?set [] (conn s)] =>
        destruct (update_rows sel set [] (conn s)) as [t'|] eqn:Hupd end;
        [|discriminate].
      apply update_rows_result in Hupd. cbn [app] in Hupd.
      intros Heq. inversion Heq; subst. clear Heq.
      unfold GetRegistration. cbn [conn].
      rewrite find_fmap_stable.
      2:{ intros a. unfold amend_where, amend_set.
          destruct (String.eqb (email a) _ && String.eqb (vat_id a) _);
            reflexivity. }
      rewrite Hfind. cbn [fmap option_fmap option_map].
      apply find_some in Hfind. destruct Hfind as [Hin Hsel].
      apply andb_true_iff in Hsel. destruct Hsel as [Hv He].
      apply String.eqb_eq in Hv, He.
      unfold amend_where. cbn [Email VatID set_UpdatedAt reg0].
      rewrite Hv, He, !String.eqb_refl. cbn [andb].
      eexists. split; [reflexivity|].
      unfold same_but_created_at. simpl. rewrite ?Hv, ?He.
      repeat split.
    + intros Heq.
      destruct (exec_insert (insert_values reg0) (conn s)) as [t err] eqn:Hins.
      cbn [fst snd] in *.
      assert (err = None) by congruence. subst err.
      apply (Hinsert (conn s) Hfind); rewrite Hins; [reflexivity|exact Heq].
  - destruct (String.eqb (runtime s) configuration.Production); [|discriminate].
    intros Heq.
    destruct (exec_insert (insert_values reg0) (conn s)) as [t err] eqn:Hins.
    cbn [fst snd] in *.
    assert (err = None) by congruence. subst err.
    apply (Hinsert (conn s)); [|rewrite Hins; reflexivity|rewrite Hins; exact Heq].
    apply find_none_absent. intros r Hin [Hv He].
    unfold exec_insert in Hins.
    destruct (unique_conflict (insert_values reg0) (conn s)) eqn:Hu; [congruence|].
    destruct (unique_conflict_none _ _ Hu r Hin) as (_ & Hne & _).
    apply Hne. exact He.
Qed.

End StoreQueries.

Section StoreInvariant.

Import db.

Lemma existsb_column_false (f : Row -> string) (k : string) (t : Table) :
  existsb (fun o => String.eqb (f o) k) t = false <-> ~ In k (f <$> t).
Proof.
  induction t as [|r t IH]; simpl.
  - split; [intros _ []|reflexivity].
  - rewrite orb_false_iff, IH, String.eqb_neq. intuition congruence.
Qed.

Lemma ListNoDup_snoc {A : Type} (l : list A) (a : A) :
  List.NoDup l -> ~ In a l -> List.NoDup (l ++ [a]).
Proof.
  intros Hl Ha. induction Hl as [|b l Hb Hl IH]; simpl.
  - constructor; [intros []|constructor].
  - constructor.
    + rewrite in_app_iff. simpl. intros [H|[H|[]]]; [auto|].
      subst. apply Ha. left. reflexivity.
    + apply IH. intros H. apply Ha. right. exact H.
Qed.

Lemma exec_insert_unique (r : Row) (t : Table) :
  unique_columns t -> unique_columns (fst (exec_insert r t)).
Proof.
  intros (Hid & Hem & Hvat). unfold exec_insert, unique_conflict.
  destruct (existsb (fun o => String.eqb (vat_id o) (vat_id r)) t)
    eqn:H3; [repeat split; assumption|].
  destruct (existsb (fun o => String.eqb (email o) (email r)) t)
    eqn:H2; [repeat split; assumption|].
  destruct (existsb (fun o => String.eqb (registration_id o) (registration_id r)) t)
    eqn:H1; [repeat split; assumption|].
  apply existsb_column_false in H1, H2, H3.
  cbn [fst]. unfold unique_columns. rewrite !fmap_app. cbn [fmap list_fmap].
  repeat split; apply NoDup_ListNoDup, ListNoDup_snoc;
    try (apply NoDup_ListNoDup; assumption); assumption.
Qed.

Lemma update_rows_unique (sel : Row -> bool) (set : Row -> Row) :
  (forall r, email (set r) = email r) ->
  (forall r, vat_id (set r) = vat_id r) ->
  forall todo done t',
    update_rows sel set done todo = Some t' ->
    unique_columns (done ++ todo) -> unique_columns t'.
Proof.
  intros Hemail Hvat.
  induction todo as [|r rest IH]; intros done t'; simpl.
  - intros [= <-]. rewrite app_nil_r. auto.
  - destruct (sel r) eqn:Hsel.
    + destruct (negb (String.eqb (registration_id (set r)) (registration_id r))
                && existsb (fun o => String.eqb (registration_id o)
                                                (registration_id (set r)))
                           (done ++ rest)) eqn:Hchk; [discriminate|].
      intros Hupd (Hid & Hem & Hv).
      apply (IH _ _ Hupd).
      unfold unique_columns in *.
      rewrite <- app_assoc. cbn [app].
      rewrite !fmap_app in *. cbn [fmap list_fmap] in *.
      rewrite Hemail, Hvat.
      split; [|split; assumption].
      apply andb_false_iff in Hchk. destruct Hchk as [Hsame|Hfresh].
      * apply negb_false_iff, String.eqb_eq in Hsame. rewrite Hsame. exact Hid.
      * apply existsb_column_false in Hfresh. rewrite fmap_app in Hfresh.
        apply NoDup_app in Hid. destruct Hid as (Hd & Hdr & Hr).
        apply NoDup_cons in Hr. destruct Hr as [Hnr Hr].
        apply NoDup_app. split; [exact Hd|]. split.
        -- intros x Hx Hin. apply elem_of_cons in Hin. destruct Hin as [->|Hin].
           ++ apply Hfresh. apply in_or_app. left. apply list_elem_of_In. exact Hx.
           ++ apply (Hdr x Hx). right. exact Hin.
        -- apply NoDup_cons. split; [|exact Hr].
           intros Hin. apply Hfresh. apply in_or_app. right.
           apply list_elem_of_In. exact Hin.
    + intros Hupd Hu. apply (IH _ _ Hupd).
      rewrite <- app_assoc. exact Hu.
Qed.

Lemma exec_update_unique (sel : Row -> bool) (set : Row -> Row) (t : Table) :
  (forall r, email (set r) = email r) ->
  (forall r, vat_id (set r) = vat_id r) ->
  unique_columns t -> unique_columns (fst (exec_update sel set t)).
Proof.
  intros Hemail Hvat Hu. unfold exec_update.
  destruct (update_rows sel set [] t) as [t'|] eqn:Hupd; cbn [fst]; [|exact Hu].
  apply (update_rows_unique sel set Hemail Hvat t [] t' Hupd). exact Hu.
Qed.

Lemma AmendRegistration_unique (c : Clock) (s : Service) (reg : Registration) :
  unique_columns (conn s) ->
  unique_columns (conn (AmendRegistration c s reg).1.1.2).
Proof.
  intros Hu. unfold AmendRegistration. cbn [Now fst snd].
  match goal with |- context [exec_update ?sel ?set ?t] =>
    pose proof (exec_update_unique sel set t (fun _ => eq_refl) (fun _ => eq_refl) Hu)
      as H; destruct (exec_update sel set t) end.
  exact H.
Qed.

Lemma UpdateRegistrationStatus_unique (c : Clock) (s : Service) (reg : Registration) :
  unique_columns (conn s) ->
  unique_columns (conn (UpdateRegistrationStatus c s reg).1.1.2).
Proof.
  intros Hu. unfold UpdateRegistrationStatus. cbn [Now fst snd].
  match goal with |- context [exec_update ?sel ?set ?t] =>
    pose proof (exec_update_unique sel set t (fun _ => eq_refl) (fun _ => eq_refl) Hu)
      as H; destruct (exec_update sel set t) end.
  exact H.
Qed.

Lemma SaveRegistration_unique (c : Clock) (s : Service) (reg : Registration) :
  unique_columns (conn s) ->
  unique_columns (conn (SaveRegistration c s reg).1.1.2).
Proof.
  intros Hu. rewrite SaveRegistration_cases. cbv zeta.
  destruct (String.eqb (runtime s) configuration.Development
            || String.eqb (runtime s) configuration.Preproduction).
  - destruct (find _ (conn s)).
    + apply AmendRegistration_unique, Hu.
    + cbn [fst snd conn]. apply exec_insert_unique, Hu.
  - destruct (String.eqb (runtime s) configuration.Production); cbn [fst snd conn].
    + apply exec_insert_unique, Hu.
    + exact Hu.
Qed.

(** X7. The UNIQUE columns stay unique: if no two rows of the table share a
    [registration_id], an [email] or a [vat_id], the same holds of the table
    that [SaveRegistration], [AmendRegistration] and
    [UpdateRegistrationStatus] leave, whatever the registration, the runtime
    and the outcome of the call. *)
Theorem writes_keep_unique_columns (c : Clock) (s : Service) (reg : Registration) :
  unique_columns (conn s) ->
  unique_columns (conn (SaveRegistration c s reg).1.1.2)
  /\ unique_columns (conn (AmendRegistration c s reg).1.1.2)
  /\ unique_columns (conn (UpdateRegistrationStatus c s reg).1.1.2).
Proof.
  intros Hu. split; [|split].
  - apply SaveRegistration_unique, Hu.
  - apply AmendRegistration_unique, Hu.
  - apply UpdateRegistrationStatus_unique, Hu.
Qed.

(** X8. In development and preproduction the amendment needs both keys: when
    no row carries both the tax id and the email of the registration, but
    some row carries its email, its tax id or its registration id,
    [SaveRegistration] returns a UNIQUE-constraint error and the table is
    left as it was. *)
Theorem SaveRegistration_partial_match (c : Clock) (s : Service)
    (reg : Registration) (o : Row) :
  runtime s = configuration.Development \/ runtime s = configuration.Preproduction ->
  absent vat_id email (VatID reg) (Email reg) (conn s) ->
  In o (conn s) ->
  email o = Email reg \/ vat_id o = VatID reg
  \/ registration_id o = RegistrationID reg ->
  exists (reg' : Registration) (column : string),
    SaveRegistration c s reg
    = (snd (Now c), s, reg', Some (ErrUniqueConstraint column)).
Proof.
  intros Henv Habs Hin Hshare.
  assert (String.eqb (runtime s) configuration.Development
          || String.eqb (runtime s) configuration.Preproduction = true) as Hnp.
  { destruct Henv as [-> | ->]; reflexivity. }
  rewrite SaveRegistration_cases. cbv zeta. rewrite Hnp.
  apply find_none_absent in Habs. rewrite Habs.
  match goal with |- context [exec_insert ?r ?t] =>
    destruct (exec_insert_conflict r o t Hin) as [column Hins] end.
  { cbn. intuition congruence. }
  rewrite Hins. cbn [fst snd]. destruct s as [t rt]. eauto.
Qed.

Lemma update_rows_untouched (sel : Row -> bool) (set : Row -> Row) :
  forall todo done,
    (forall r, In r todo -> sel r = false) ->
    update_rows sel set done todo = Some (done ++ todo).
Proof.
  induction todo as [|r rest IH]; intros done Hsel; simpl.
  - rewrite app_nil_r. reflexivity.
  - rewrite (Hsel r) by (left; reflexivity).
    rewrite IH by (intros r' Hr'; apply Hsel; right; exact Hr').
    rewrite <- app_assoc. reflexivity.
Qed.

(** X9. An update that addresses no row is silent: when no row carries both
    the registration id and the email of the registration,
    [UpdateRegistrationStatus] returns no error and leaves the table as it
    was; when no row carries both its email and its tax id, so does
    [AmendRegistration].  The registration handed back has the time of the
    call as [UpdatedAt] all the same. *)
Theorem update_of_absent_registration (c : Clock) (s : Service) (reg : Registration) :
  (absent registration_id email (RegistrationID reg) (Email reg) (conn s) ->
   UpdateRegistrationStatus c s reg
   = (snd (Now c), s, set_UpdatedAt reg (fst (Now c)), None))
  /\ (absent email vat_id (Email reg) (VatID reg) (conn s) ->
      AmendRegistration c s reg
      = (snd (Now c), s, set_UpdatedAt reg (fst (Now c)), None)).
Proof.
  split; intros Habs.
  - unfold UpdateRegistrationStatus, exec_update. cbn [Now fst snd].
    rewrite update_rows_untouched; [destruct s; reflexivity|].
    intros r Hin. unfold status_where. cbn.
    destruct (String.eqb_spec (registration_id r) (RegistrationID reg)) as [Hid|];
      [|reflexivity].
    destruct (String.eqb_spec (email r) (Email reg)) as [Hem|]; [|reflexivity].
    exfalso. apply (Habs r Hin). auto.
  - unfold AmendRegistration, exec_update. cbn [Now fst snd].
    rewrite update_rows_untouched; [destruct s; reflexivity|].
    intros r Hin. unfold amend_where. cbn.
    destruct (String.eqb_spec (email r) (Email reg)) as [Hem|]; [|reflexivity].
    destruct (String.eqb_spec (vat_id r) (VatID reg)) as [Hv|]; [|reflexivity].
    exfalso. apply (Habs r Hin). auto.
Qed.

Lemma update_rows_skip (sel : Row -> bool) (set : Row -> Row) :
  forall pre done todo,
    (forall r, In r pre -> sel r = false) ->
    update_rows sel set done (pre ++ todo) = update_rows sel set (done ++ pre) todo.
Proof.
  induction pre as [|r pre IH]; intros done todo Hsel; simpl.
  - rewrite app_nil_r. reflexivity.
  - rewrite (Hsel r) by (left; reflexivity).
    rewrite IH by (intros r' Hr'; apply Hsel; right; exact Hr').
    rewrite <- app_assoc. reflexivity.
Qed.

(** An UPDATE that addresses one row. *)
Lemma update_rows_single (sel : Row -> bool) (set : Row -> Row)
    (pre post : Table) (r : Row) :
  (forall o, In o (pre ++ post) -> sel o = false) ->
  sel r = true ->
  update_rows sel set [] (pre ++ r :: post)
  = if negb (String.eqb (registration_id (set r)) (registration_id r))
       && existsb (fun o => String.eqb (registration_id o) (registration_id (set r)))
                  (pre ++ post)
    then None
    else Some (pre ++ set r :: post).
Proof.
  intros Hothers Hr.
  rewrite update_rows_skip
    by (intros o Ho; apply Hothers, in_or_app; left; exact Ho).
  cbn [app update_rows]. rewrite Hr.
  destruct (negb _ && _); [reflexivity|].
  rewrite update_rows_untouched
    by (intros o Ho; apply Hothers, in_or_app; right; exact Ho).
  rewrite <- app_assoc. reflexivity.
Qed.

(** In a table without duplicates a row is the only one with its email and
    the only one with its tax id. *)
Lemma unique_columns_split (t : Table) (old : Row) :
  unique_columns t -> In old t ->
  exists pre post : Table,
    t = pre ++ old :: post
    /\ forall o, In o (pre ++ post) ->
         registration_id o <> registration_id old
         /\ email o <> email old /\ vat_id o <> vat_id old.
Proof.
  intros (Hid & Hem & Hvat) Hin.
  apply in_split in Hin. destruct Hin as (pre & post & ->).
  exists pre, post. split; [reflexivity|].
  assert (forall f : Row -> string,
            NoDup (f <$> (pre ++ old :: post)) ->
            forall o, In o (pre ++ post) -> f o <> f old) as Hcol.
  { intros f Hnd o Ho Heq.
    rewrite fmap_app, fmap_cons in Hnd.
    apply NoDup_app in Hnd. destruct Hnd as (_ & Hpre & Hpost).
    apply NoDup_cons in Hpost. destruct Hpost as [Hpost _].
    apply in_app_or in Ho. destruct Ho as [Ho|Ho].
    - apply (Hpre (f o)).
      + apply list_elem_of_fmap. exists o. split; [reflexivity|].
        apply list_elem_of_In, Ho.
      + rewrite Heq. left.
    - apply Hpost. rewrite <- Heq.
      apply list_elem_of_fmap. exists o. split; [reflexivity|].
      apply list_elem_of_In, Ho. }
  intros o Ho. repeat split; eapply Hcol; eassumption.
Qed.


Lemma non_production (env : configuration.RuntimeEnv) :
  env = configuration.Development \/ env = configuration.Preproduction ->
  String.eqb env configuration.Development
  || String.eqb env configuration.Preproduction = true.
Proof. intros [-> | ->]; reflexivity. Qed.

(** A successful save in development or preproduction leaves a row that
    holds the registration. *)
Lemma SaveRegistration_leaves_row (c c1 : Clock) (s s1 : Service)
    (reg r1 : Registration) :
  runtime s = configuration.Development \/ runtime s = configuration.Preproduction ->
  SaveRegistration c s reg = (c1, s1, r1, None) ->
  runtime s1 = runtime s
  /\ exists old : Row, In old (conn s1) /\ holds old reg.
Proof.
  intros Henv. rewrite SaveRegistration_cases. cbv zeta.
  rewrite (non_production _ Henv).
  destruct (find _ (conn s)) as [found|] eqn:Hfind.
  - unfold AmendRegistration, exec_update. cbn [Now fst snd].
    match goal with |- context [update_rows ?sel ?set [] (conn s)] =>
      destruct (update_rows sel set [] (conn s)) as [t'|] eqn:Hupd end;
      [|discriminate].
    apply update_rows_result in Hupd. cbn [app] in Hupd.
    intros Heq. inversion Heq; subst. clear Heq.
    split; [reflexivity|].
    apply find_some in Hfind. destruct Hfind as [Hin Hsel].
    apply andb_true_iff in Hsel. destruct Hsel as [Hv He].
    apply String.eqb_eq in Hv, He. cbn in Hv, He.
    eexists. split.
    + cbn [conn]. apply in_map_iff. exists found. split; [reflexivity|exact Hin].
    + unfold amend_where. cbn. rewrite Hv, He, !String.eqb_refl. cbn.
      repeat split; assumption.
  - destruct (exec_insert _ (conn s)) as [t err] eqn:Hins. cbn [fst snd].
    intros Heq. inversion Heq; subst. clear Heq.
    apply exec_insert_ok in Hins. subst t.
    split; [reflexivity|].
    eexists. split.
    + cbn [conn]. apply in_or_app. right. left. reflexivity.
    + repeat split.
Qed.

(** Saving over the one row of an email and tax id, in development or
    preproduction. *)
Lemma SaveRegistration_over_row (c : Clock) (s : Service) (reg : Registration)
    (pre post : Table) (old : Row) :
  runtime s = configuration.Development \/ runtime s = configuration.Preproduction ->
  conn s = pre ++ old :: post ->
  (forall o, In o (pre ++ post) -> email o <> Email reg) ->
  email old = Email reg -> vat_id old = VatID reg ->
  exists reg' : Registration,
    SaveRegistration c s reg
    = if negb (String.eqb (RegistrationID reg) (registration_id old))
         && existsb (fun o => String.eqb (registration_id o) (RegistrationID reg))
                    (pre ++ post)
      then (snd (Now (snd (Now c))), s, reg',
            Some (ErrUniqueConstraint "registration_id"))
      else (snd (Now (snd (Now c))),
            mkService (pre ++ amended reg (created_at old) (fst (Now c))
                                      (fst (Now (snd (Now c)))) :: post)
                      (runtime s),
            reg', None).
Proof.
  intros Henv Hconn Hothers He Hv.
  rewrite SaveRegistration_cases. cbv zeta.
  rewrite (non_production _ Henv).
  destruct (find _ (conn s)) as [found|] eqn:Hfind.
  2:{ exfalso.
      assert (In old (conn s)) as Hin
        by (rewrite Hconn; apply in_or_app; right; left; reflexivity).
      apply (find_none _ _ Hfind old) in Hin.
      rewrite Hv, He, !String.eqb_refl in Hin. discriminate. }
  unfold AmendRegistration, exec_update. cbn [Now fst snd].
  rewrite Hconn.
  rewrite update_rows_single.
  - cbn [amend_set registration_id RegistrationID set_UpdatedAt].
    destruct (negb _ && _).
    + eexists. rewrite <- Hconn. destruct s; reflexivity.
    + eexists. unfold amended, amend_set. cbn. rewrite He, Hv. reflexivity.
  - intros o Ho. unfold amend_where. cbn.
    apply Hothers in Ho. apply String.eqb_neq in Ho. rewrite Ho. reflexivity.
  - unfold amend_where. cbn. rewrite He, Hv, !String.eqb_refl. reflexivity.
Qed.

Lemma existsb_id_false (id : string) (t : Table) :
  existsb (fun o => String.eqb (registration_id o) id) t = false
  <-> forall o, In o t -> registration_id o <> id.
Proof.
  induction t as [|r t IH]; simpl.
  - split; [intros _ o []|reflexivity].
  - rewrite orb_false_iff, IH, String.eqb_neq.
    split.
    + intros [Hr Ht] o [<-|Ho]; [exact Hr|apply Ht, Ho].
    + intros H. split; [apply H; left; reflexivity|].
      intros o Ho. apply H. right. exact Ho.
Qed.

(** C3. In development and preproduction, let a registration be saved with
    success into a table whose UNIQUE columns hold no value twice.  The
    table then is [pre ++ old :: post], where [old] holds the registration
    and no other row has its email or its tax id: one record for the pair.
    Saving a second registration with the same email and tax id and other
    names never adds a row.  When no other row holds the id of the second
    registration, the save succeeds and the table is the same with [old]
    amended in place: it takes the id, names, company and country of the
    second registration and freshly reset status columns, and keeps its
    [created_at].  When another row holds that id, the save fails on the
    UNIQUE constraint of [registration_id] and the table is as it was.

    In particular, into any table none of whose rows has the email, the tax
    id or one of the ids of the two registrations, both saves succeed and
    leave the table with one more row, the one of the second registration
    created at the time of the first save.

    In production, once a registration is saved, saving one that has the
    same email, the same tax id or the same registration id fails on a
    UNIQUE constraint and leaves the table as it was. *)
Theorem SaveRegistration_conflict_policy :
  (forall (c c1 : Clock) (s s1 : Service) (reg1 r1 reg2 : Registration),
      runtime s = configuration.Development
      \/ runtime s = configuration.Preproduction ->
      unique_columns (conn s) ->
      Email reg2 = Email reg1 -> VatID reg2 = VatID reg1 ->
      SaveRegistration c s reg1 = (c1, s1, r1, None) ->
      exists (pre post : Table) (old : Row),
        conn s1 = pre ++ old :: post
        /\ holds old reg1
        /\ (forall o, In o (pre ++ post) ->
              email o <> Email reg1 /\ vat_id o <> VatID reg1)
        /\ ((forall o, In o (pre ++ post) ->
               registration_id o <> RegistrationID reg2) ->
            exists r2 : Registration,
              SaveRegistration c1 s1 reg2
              = (snd (Now (snd (Now c1))),
                 mkService (pre ++ amended reg2 (created_at old) (fst (Now c1))
                                           (fst (Now (snd (Now c1)))) :: post)
                           (runtime s),
                 r2, None))
        /\ (forall o, In o (pre ++ post) ->
              registration_id o = RegistrationID reg2 ->
              exists r2 : Registration,
                SaveRegistration c1 s1 reg2
                = (snd (Now (snd (Now c1))), s1, r2,
                   Some (ErrUniqueConstraint "registration_id"))))
  /\
  (forall (env : configuration.RuntimeEnv) (c : Clock) (t : Table)
          (reg1 reg2 : Registration),
      env = configuration.Development \/ env = configuration.Preproduction ->
      Email reg2 = Email reg1 -> VatID reg2 = VatID reg1 ->
      (forall o, In o t ->
         email o <> Email reg1 /\ vat_id o <> VatID reg1
         /\ registration_id o <> RegistrationID reg1
         /\ registration_id o <> RegistrationID reg2) ->
      let c1 := snd (Now c) in
      exists r1 r2 : Registration,
        SaveRegistration c (mkService t env) reg1
        = (c1, mkService (t ++ [amended reg1 (fst (Now c)) (fst (Now c))
                                        (fst (Now c))]) env, r1, None)
        /\ SaveRegistration c1 (mkService (t ++ [amended reg1 (fst (Now c))
                                                         (fst (Now c)) (fst (Now c))])
                                          env) reg2
           = (snd (Now (snd (Now c1))),
              mkService (t ++ [amended reg2 (fst (Now c)) (fst (Now c1))
                                       (fst (Now (snd (Now c1))))]) env,
              r2, None))
  /\
  (forall (c c1 : Clock) (s s1 : Service) (reg1 r1 reg2 : Registration),
      runtime s = configuration.Production ->
      SaveRegistration c s reg1 = (c1, s1, r1, None) ->
      Email reg2 = Email reg1 \/ VatID reg2 = VatID reg1
      \/ RegistrationID reg2 = RegistrationID reg1 ->
      exists (r2 : Registration) (column : string),
        SaveRegistration c1 s1 reg2
        = (snd (Now c1), s1, r2, Some (ErrUniqueConstraint column))).
Proof.
  split; [|split].
  - intros c c1 s s1 reg1 r1 reg2 Henv Hu Hemail Hvat Hsave.
    pose proof (SaveRegistration_unique c s reg1 Hu) as Hu1.
    rewrite Hsave in Hu1. cbn in Hu1.
    destruct (SaveRegistration_leaves_row _ _ _ _ _ _ Henv Hsave)
      as (Hrt & old & Hin & Hold).
    destruct (unique_columns_split _ _ Hu1 Hin) as (pre & post & Hconn & Hothers).
    pose proof Hold as (Hid & He & _ & _ & _ & _ & Hv).
    exists pre, post, old.
    split; [exact Hconn|]. split; [exact Hold|].
    split.
    { intros o Ho. destruct (Hothers o Ho) as (_ & H1 & H2).
      rewrite <- He, <- Hv. auto. }
    destruct (SaveRegistration_over_row c1 s1 reg2 pre post old) as [r2 Hsave2].
    { rewrite Hrt. exact Henv. }
    { exact Hconn. }
    { intros o Ho. rewrite Hemail, <- He.
      destruct (Hothers o Ho) as (_ & ? & _). assumption. }
    { congruence. }
    { congruence. }
    split.
    + intros Hfree. exists r2. rewrite Hsave2.
      apply existsb_id_false in Hfree. rewrite Hfree, andb_false_r, Hrt.
      reflexivity.
    + intros o Ho Hsame. exists r2. rewrite Hsave2.
      assert (existsb (fun o => String.eqb (registration_id o) (RegistrationID reg2))
                      (pre ++ post) = true) as Hex.
      { apply existsb_exists. exists o. split; [exact Ho|].
        apply String.eqb_eq, Hsame. }
      assert (String.eqb (RegistrationID reg2) (registration_id old) = false) as Hne.
      { apply String.eqb_neq. intros Heq.
        destruct (Hothers o Ho) as (Hn & _). apply Hn. congruence. }
      rewrite Hex, Hne. reflexivity.
  - intros env c t reg1 reg2 Henv Hemail Hvat Hfresh c1. subst c1.
    assert (SaveRegistration c (mkService t env) reg1
            = (snd (Now c),
               mkService (t ++ [amended reg1 (fst (Now c)) (fst (Now c)) (fst (Now c))])
                         env,
               mkRegistration (RegistrationID reg1) (Email reg1) (FirstName reg1)
                 (LastName reg1) (CompanyName reg1) (Country reg1) (VatID reg1)
                 (fst (Now c)) (fst (Now c)) (fst (Now c)) "" (fst (Now c)) "",
               None)) as Hsave1.
    { rewrite SaveRegistration_cases. cbv zeta. cbn [runtime conn].
      rewrite (non_production _ Henv).
      assert (find (fun r => String.eqb (vat_id r) (VatID reg1)
                             && String.eqb (email r) (Email reg1)) t = None) as Hnone.
      { apply find_none_absent. intros r Hr [Hv _].
        destruct (Hfresh r Hr) as (_ & Hn & _). exact (Hn Hv). }
      rewrite Hnone.
      assert (unique_conflict
                (insert_values
                   (mkRegistration (RegistrationID reg1) (Email reg1) (FirstName reg1)
                      (LastName reg1) (CompanyName reg1) (Country reg1) (VatID reg1)
                      (fst (Now c)) (fst (Now c)) (fst (Now c)) "" (fst (Now c)) ""))
                t = None) as Hfree.
      { unfold unique_conflict. cbn.
        assert (forall (f : Row -> string) (k : string),
                  (forall o, In o t -> f o <> k) ->
                  existsb (fun o => String.eqb (f o) k) t = false) as Hex.
        { intros f k Hf. apply existsb_column_false. intros Hink.
          apply list_elem_of_In, list_elem_of_fmap in Hink.
          destruct Hink as (o & -> & Ho).
          apply (Hf o); [apply list_elem_of_In, Ho|reflexivity]. }
        rewrite (Hex vat_id), (Hex email), (Hex registration_id);
          [reflexivity|..]; intros o Ho;
          destruct (Hfresh o Ho) as (? & ? & ? & ?); assumption. }
      unfold exec_insert. rewrite Hfree. reflexivity. }
    destruct (SaveRegistration_over_row (snd (Now c))
                (mkService (t ++ [amended reg1 (fst (Now c)) (fst (Now c))
                                          (fst (Now c))]) env)
                reg2 t []
                (amended reg1 (fst (Now c)) (fst (Now c)) (fst (Now c))))
      as [r2 Hsave2].
    { exact Henv. }
    { reflexivity. }
    { intros o Ho. rewrite app_nil_r in Ho. rewrite Hemail.
      destruct (Hfresh o Ho) as (? & _). assumption. }
    { cbn. congruence. }
    { cbn. congruence. }
    assert (existsb (fun o => String.eqb (registration_id o) (RegistrationID reg2)) t
            = false) as Hfree2.
    { apply existsb_id_false. intros o Ho.
      destruct (Hfresh o Ho) as (_ & _ & _ & ?). assumption. }
    rewrite app_nil_r, Hfree2, andb_false_r in Hsave2.
    eexists _, r2. split; [exact Hsave1|exact Hsave2].
  - intros c c1 s s1 reg1 r1 reg2 Hrt Hsave Hconf.
    destruct (SaveRegistration_production_ok _ _ _ _ _ _ Hrt Hsave)
      as (-> & Hrt1 & Hconn & Hid & Hem & Hv).
    unfold SaveRegistration. simpl. rewrite Hrt1. simpl.
    match goal with |- context [exec_insert ?r ?t] =>
      destruct (exec_insert_conflict r (insert_values r1) t) as [column Hins] end.
    { rewrite Hconn. apply in_or_app. right. left. reflexivity. }
    { simpl. rewrite Hid, Hem, Hv. intuition congruence. }
    rewrite Hins. destruct s1 as [t1 rt1]. simpl in *. subst rt1.
    eauto.
Qed.
End StoreInvariant.

Section StoreListing.

Import db.

Variable stored : Time -> string.

(** The order of byte strings is transitive. *)
Lemma String_leb_trans (a b c : string) :
  String.leb a b = true -> String.leb b c = true -> String.leb a c = true.
Proof.
  unfold String.leb. revert b c.
  induction a as [|x a IH]; intros [|y b] [|z c]; cbn; try easy.
  unfold Ascii.compare.
  destruct (N.compare_spec (N_of_ascii x) (N_of_ascii y)) as [Hxy|Hxy|Hxy];
    destruct (N.compare_spec (N_of_ascii y) (N_of_ascii z)) as [Hyz|Hyz|Hyz];
    destruct (N.compare_spec (N_of_ascii x) (N_of_ascii z)) as [Hxz|Hxz|Hxz];
    try easy; try lia.
  apply IH.
Qed.

Lemma String_leb_false (a b : string) :
  String.leb a b = false -> String.leb b a = true.
Proof.
  intros H. destruct (String.leb_total a b) as [Hab|Hba]; congruence.
Qed.

Lemma insert_desc_perm (r : Row) (l : list Row) : insert_desc stored r l ≡ₚ r :: l.
Proof.
  induction l as [|o l IH]; simpl; [reflexivity|].
  destruct (String.leb _ _); [reflexivity|].
  rewrite IH. apply Permutation_swap.
Qed.

Lemma order_by_perm (t : Table) : order_by_created_at_desc stored t ≡ₚ t.
Proof.
  induction t as [|r t IH]; simpl; [reflexivity|].
  rewrite insert_desc_perm, IH. reflexivity.
Qed.

Lemma insert_desc_sorted (r : Row) (l : list Row) :
  StronglySorted (text_desc stored) l -> StronglySorted (text_desc stored) (insert_desc stored r l).
Proof.
  induction 1 as [|o l Hl IH Ho]; simpl.
  - constructor; [constructor|constructor].
  - destruct (String.leb (stored (created_at o)) (stored (created_at r))) eqn:Hle.
    + constructor; [constructor; assumption|].
      constructor; [exact Hle|].
      rewrite Forall_forall in Ho |- *. intros x Hx.
      specialize (Ho x Hx). unfold text_desc in *.
      eapply String_leb_trans; eassumption.
    + constructor; [exact IH|].
      rewrite Forall_forall in Ho |- *. intros x Hx.
      rewrite insert_desc_perm in Hx.
      apply elem_of_cons in Hx. destruct Hx as [->|Hx].
      * apply String_leb_false, Hle.
      * apply Ho, Hx.
Qed.

Lemma order_by_sorted (t : Table) :
  StronglySorted (text_desc stored) (order_by_created_at_desc stored t).
Proof.
  induction t as [|r t IH]; simpl; [constructor|].
  apply insert_desc_sorted, IH.
Qed.

Lemma StronglySorted_sublist {A : Type} (R : A -> A -> Prop) (l1 l2 : list A) :
  l1 `sublist_of` l2 -> StronglySorted R l2 -> StronglySorted R l1.
Proof.
  induction 1 as [|x l1 l2 Hsub IH|x l1 l2 Hsub IH]; intros Hs.
  - constructor.
  - apply StronglySorted_inv in Hs. destruct Hs as [Hs Hx].
    constructor; [apply IH, Hs|].
    rewrite Forall_forall in Hx |- *. intros y Hy.
    apply Hx. eapply elem_of_sublist; eauto.
  - apply StronglySorted_inv in Hs. destruct Hs as [Hs _]. apply IH, Hs.
Qed.

(** The rows of a page: a stretch of the ordered table. *)
Lemma page_sublist {A : Type} (limit : Z) (n : nat) (l : list A) :
  (if limit <? 0 then drop n l else take (Z.to_nat limit) (drop n l))
  `sublist_of` l.
Proof.
  destruct (limit <? 0).
  - apply sublist_drop.
  - etrans; [apply sublist_take|apply sublist_drop].
Qed.

Lemma StronglySorted_lookup {A : Type} (R : A -> A -> Prop) (l : list A) :
  StronglySorted R l ->
  forall (i j : nat) (a b : A), (i < j)%nat -> l !! i = Some a -> l !! j = Some b -> R a b.
Proof.
  induction 1 as [|x l Hl IH Hx]; intros i j a b Hij Hi Hj; [discriminate|].
  destruct j as [|j]; [lia|]. simpl in Hj.
  destruct i as [|i]; simpl in Hi.
  - inversion Hi; subst. rewrite Forall_forall in Hx. apply Hx.
    eapply list_elem_of_lookup_2; eauto.
  - apply (IH i j); [lia|assumption|assumption].
Qed.

(** The rows a listing selects. *)
Lemma GetRegistrations_rows (s : Service) (limit offset : Z) :
  GetRegistrations stored s limit offset
  = (scan <$> (if limit <? 0
               then skipn (Z.to_nat offset) (order_by_created_at_desc stored (conn s))
               else firstn (Z.to_nat limit)
                      (skipn (Z.to_nat offset)
                             (order_by_created_at_desc stored (conn s)))),
     None).
Proof. reflexivity. Qed.

(** X10. [GetRegistrations] pages through the table in descending order of
    the text stored for [created_at], whatever text the driver stores for an
    instant.  It never fails; a page holds the scans of rows of the table,
    each followed only by registrations whose stored [created_at] text is not
    greater; with a limit that is not negative it holds [limit]
    registrations, or as many as are left after the offset; with a negative
    limit it holds all that are left, and with no offset besides, a
    permutation of the whole table.  Consecutive pages join up: the page of
    [l1 + l2] at [offset] is the page of [l1] at [offset] followed by the
    page of [l2] at [offset + l1].  Where the order of the stored texts
    respects the order of the instants on the rows of the table (as it does
    for times written under one zone offset), a page runs from the newest
    registration to the oldest. *)
Theorem GetRegistrations_page (s : Service) (limit offset : Z) :
  exists regs : list Registration,
    GetRegistrations stored s limit offset = (regs, None)
    /\ (forall a, In a regs -> exists r, In r (conn s) /\ a = scan r)
    /\ (forall (i j : nat) (a b : Registration),
          (i < j)%nat -> regs !! i = Some a -> regs !! j = Some b ->
          String.leb (stored (CreatedAt b)) (stored (CreatedAt a)) = true)
    /\ ((forall a b : Row, In a (conn s) -> In b (conn s) ->
           String.leb (stored (created_at a)) (stored (created_at b)) = true ->
           created_at a <= created_at b) ->
        forall (i j : nat) (a b : Registration),
          (i < j)%nat -> regs !! i = Some a -> regs !! j = Some b ->
          CreatedAt b <= CreatedAt a)
    /\ (0 <= limit ->
        length regs
        = Nat.min (Z.to_nat limit) (length (conn s) - Z.to_nat offset))
    /\ (limit < 0 ->
        length regs = (length (conn s) - Z.to_nat offset)%nat)
    /\ (limit < 0 -> offset <= 0 -> regs ≡ₚ scan <$> conn s)
    /\ (forall l1 l2 : Z,
          0 <= l1 -> 0 <= l2 -> 0 <= offset -> limit = l1 + l2 ->
          regs = fst (GetRegistrations stored s l1 offset)
                 ++ fst (GetRegistrations stored s l2 (offset + l1))).
Proof.
  rewrite GetRegistrations_rows.
  set (sorted := order_by_created_at_desc stored (conn s)).
  assert (length sorted = length (conn s)) as Hlen
    by (apply Permutation_length, order_by_perm).
  assert (StronglySorted (text_desc stored) sorted) as Hsorted by apply order_by_sorted.
  set (page := if limit <? 0 then skipn (Z.to_nat offset) sorted
               else firstn (Z.to_nat limit) (skipn (Z.to_nat offset) sorted)).
  assert (page `sublist_of` sorted) as Hsub by apply page_sublist.
  assert (forall r, r ∈ page -> In r (conn s)) as Hrows.
  { intros r Hr. apply list_elem_of_In. rewrite <- (order_by_perm (conn s)).
    fold sorted. eapply elem_of_sublist; [exact Hr|exact Hsub]. }
  assert (forall (i j : nat) (ra rb : Row),
            (i < j)%nat -> page !! i = Some ra -> page !! j = Some rb ->
            text_desc stored ra rb) as Horder.
  { apply StronglySorted_lookup, (StronglySorted_sublist _ _ _ Hsub Hsorted). }
  exists (scan <$> page). split; [reflexivity|].
  split; [|split; [|split; [|split; [|split; [|split]]]]].
  - intros a Ha. apply list_elem_of_In, list_elem_of_fmap in Ha.
    destruct Ha as (r & -> & Hr). exists r. split; [|reflexivity].
    apply Hrows, Hr.
  - intros i j a b Hij Hi Hj.
    rewrite list_lookup_fmap in Hi, Hj.
    destruct (page !! i) as [ra|] eqn:Hra; [|discriminate].
    destruct (page !! j) as [rb|] eqn:Hrb; [|discriminate].
    inversion Hi; inversion Hj; subst. cbn.
    apply (Horder i j ra rb Hij Hra Hrb).
  - intros Hagree i j a b Hij Hi Hj.
    rewrite list_lookup_fmap in Hi, Hj.
    destruct (page !! i) as [ra|] eqn:Hra; [|discriminate].
    destruct (page !! j) as [rb|] eqn:Hrb; [|discriminate].
    inversion Hi; inversion Hj; subst. cbn.
    apply Hagree.
    + apply Hrows. eapply list_elem_of_lookup_2, Hrb.
    + apply Hrows. eapply list_elem_of_lookup_2, Hra.
    + apply (Horder i j ra rb Hij Hra Hrb).
  - intros Hl. unfold page. destruct (Z.ltb_spec limit 0) as [|_]; [lia|].
    rewrite length_fmap, length_take, length_drop, Hlen. reflexivity.
  - intros Hl. unfold page. destruct (Z.ltb_spec limit 0) as [_|]; [|lia].
    rewrite length_fmap, length_drop, Hlen. reflexivity.
  - intros Hl Ho. unfold page. destruct (Z.ltb_spec limit 0) as [_|]; [|lia].
    replace (Z.to_nat offset) with 0%nat by lia. cbn [skipn].
    unfold sorted. rewrite order_by_perm. reflexivity.
  - intros l1 l2 H1 H2 Ho ->.
    rewrite !GetRegistrations_rows. cbn [fst]. fold sorted. unfold page.
    destruct (Z.ltb_spec (l1 + l2) 0) as [|_]; [lia|].
    destruct (Z.ltb_spec l1 0) as [|_]; [lia|].
    destruct (Z.ltb_spec l2 0) as [|_]; [lia|].
    rewrite <- fmap_app. f_equal.
    rewrite !Z2Nat.inj_add by lia.
    rewrite <- drop_drop. symmetry. apply take_take_drop.
Qed.

End StoreListing.

(** ** The handlers: refusals and outcomes *)

Section Refusals.

Import server.

Local Arguments Validate : simpl never.
Local Arguments isValidEmail : simpl never.

Lemma Decode_not_a_struct {A : Type} (member : A -> string * json.value -> result A)
    (zero : A) (body : option json.value) :
  not_a_struct body -> exists e, Decode member zero body = Err e.
Proof.
  destruct body as [[| | | | |]|]; simpl; intros H; try destruct H; eauto.
Qed.

(** X11. What the three handlers refuse before doing anything.  Each of
    [HandleValidateEmail], [HandleVerifyCode] and [HandleRegister] answers a
    request that is not a POST with 405, a POST without the
    [X-Requested-With] header with 403 and a body from which no struct can
    be decoded with 400 [Invalid request body]; [HandleValidateEmail]
    answers an email that is empty or not valid with 400
    [A valid email is required], and [HandleRegister] answers form data
    with an empty [website] that fails [Validate] with 400 and the message
    of [Validate].  In all these cases the world is left exactly as it
    was: no map entry, row, clock reading, random draw or call. *)
Theorem handlers_refuse (w : World string) (route : Route) (r : Request) :
  (Method r <> "POST" -> handle route r w = (methodNotAllowed, w))
  /\ (Method r = "POST" -> XRequestedWith r = "" ->
      handle route r w = (csrfMissing, w))
  /\ (Method r = "POST" -> XRequestedWith r <> "" -> not_a_struct (Body r) ->
      handle route r w = (invalidBody, w))
  /\ (Method r = "POST" -> XRequestedWith r <> "" ->
      forall email : string,
        Decode email_member "" (Body r) = Ok email ->
        email = "" \/ isValidEmail email = false ->
        HandleValidateEmail r w
        = (badRequest StatusBadRequest "A valid email is required", w))
  /\ (Method r = "POST" -> XRequestedWith r <> "" ->
      forall (requestData : RegistrationRequest) (err : error),
        decoded r = Ok requestData ->
        Website requestData = "" ->
        Validate requestData = Some err ->
        HandleRegister r w = (badRequest StatusBadRequest (Error err), w)).
Proof.
  split; [|split; [|split; [|split]]].
  - intros Hm. apply String.eqb_neq in Hm.
    destruct route; unfold handle, HandleValidateEmail, HandleVerifyCode,
      HandleRegister; rewrite Hm; reflexivity.
  - intros Hm Hx.
    destruct route; unfold handle, HandleValidateEmail, HandleVerifyCode,
      HandleRegister, validateCSRF; rewrite Hm, Hx; reflexivity.
  - intros Hm Hx Hbody. apply String.eqb_neq in Hx.
    destruct route; unfold handle, HandleValidateEmail, HandleVerifyCode,
      HandleRegister, validateCSRF; rewrite Hm, Hx; cbn [String.eqb Ascii.eqb negb];
      match goal with |- context [Decode ?m ?z (Body r)] =>
        destruct (Decode_not_a_struct m z (Body r) Hbody) as [e ->] end;
      reflexivity.
  - intros Hm Hx email Hdec Hbad. apply String.eqb_neq in Hx.
    unfold HandleValidateEmail, validateCSRF. rewrite Hm, Hx, Hdec.
    cbn [String.eqb Ascii.eqb negb].
    destruct Hbad as [-> | ->]; [reflexivity|].
    rewrite orb_true_r. reflexivity.
  - intros Hm Hx requestData err Hdec Hweb Hval. apply String.eqb_neq in Hx.
    unfold HandleRegister, validateCSRF. unfold decoded in Hdec.
    rewrite Hm, Hx, Hdec, Hweb, Hval. reflexivity.
Qed.

(** X12. [Validate] accepts form data exactly when the first name, the last
    name, the company name, the tax id and the email are not empty, the
    country is one of the codes of [common.Countries] and the email is
    valid. *)
Theorem Validate_accepts (s : RegistrationRequest) :
  Validate s = None
  <-> FirstName s <> "" /\ LastName s <> "" /\ CompanyName s <> ""
      /\ (exists c : common.Country, In c common.Countries /\ common.Code c = Country s)
      /\ VatId s <> "" /\ isValidEmail (Email s) = true.
Proof.
  unfold Validate, common.IsValidCountry.
  split.
  - destruct (String.eqb_spec (FirstName s) ""); [discriminate|].
    destruct (String.eqb_spec (LastName s) ""); [discriminate|].
    destruct (String.eqb_spec (CompanyName s) ""); [discriminate|].
    destruct (String.eqb_spec (Country s) ""); [discriminate|].
    destruct (existsb _ common.Countries) eqn:Hc; [|discriminate].
    destruct (String.eqb_spec (VatId s) ""); [discriminate|].
    destruct (String.eqb_spec (Email s) ""); [discriminate|].
    destruct (isValidEmail (Email s)); [|discriminate].
    intros _. apply existsb_exists in Hc. destruct Hc as (c & Hin & Hc).
    apply String.eqb_eq in Hc.
    repeat split; try assumption. exists c. auto.
  - intros (Hf & Hl & Hco & (c & Hin & Hc) & Hv & He).
    apply String.eqb_neq in Hf, Hl, Hco, Hv.
    rewrite Hf, Hl, Hco, Hv, He.
    assert (existsb (fun c => String.eqb (common.Code c) (Country s)) common.Countries
            = true) as ->.
    { apply existsb_exists. exists c. split; [exact Hin|].
      apply String.eqb_eq, Hc. }
    destruct (String.eqb_spec (Country s) "") as [Hempty|_].
    { exfalso. rewrite Hempty in Hc. revert c Hin Hc.
      apply (proj1 (List.Forall_forall (fun c => common.Code c = "" -> False) _)).
      unfold common.Countries.
      repeat (constructor; [discriminate|]). constructor. }
    cbn [negb].
    destruct (String.eqb_spec (Email s) "") as [Hempty|_]; [|reflexivity].
    rewrite Hempty in He. vm_compute in He. discriminate.
Qed.

End Refusals.

Section WorkflowOutcomes.

Import server.

Context {C : Type}.

Local Arguments Validate : simpl never.
Local Arguments Decode : simpl never.
Local Arguments db.SaveRegistration : simpl never.
Local Arguments db.UpdateRegistrationStatus : simpl never.
Local Arguments credissuance.LEARIssuanceRequest : simpl never.
Local Arguments credissuance.Marshal : simpl never.
Local Arguments decimal : simpl never.
Local Arguments String.append : simpl never.

(** X13. When the initial [SaveRegistration] fails, [HandleRegister] answers
    500 [Failed to save registration] with the error text of the store in
    [data], and stops: the save is the only call it makes, so no credential
    is requested and no mail is sent; the table is the one the failed save
    left. *)
Theorem HandleRegister_save_failure (w : World C) (r : Request)
    (requestData : RegistrationRequest) (c1 : Clock) (d1 : db.Service)
    (reg1 : db.Registration) (err : error) :
  Method r = "POST" ->
  XRequestedWith r <> "" ->
  decoded r = Ok requestData ->
  Website requestData = "" ->
  Validate requestData = None ->
  db.SaveRegistration (snd (Now (clock w))) (DB (server_ w))
                      (newRegistration w requestData)
  = (c1, d1, reg1, Some err) ->
  fst (HandleRegister r w) = saveFailed err
  /\ calls (snd (HandleRegister r w))
     = calls w ++ [CallSaveRegistration (newRegistration w requestData)]
  /\ DB (server_ (snd (HandleRegister r w))) = d1
  /\ EmailRateLimiter (server_ (snd (HandleRegister r w)))
     = EmailRateLimiter (server_ w)
  /\ VerificationCodes (server_ (snd (HandleRegister r w)))
     = VerificationCodes (server_ w).
Proof.
  intros Hpost Hcsrf Hdec Hweb Hval Hsave.
  unfold HandleRegister, validateCSRF.
  rewrite Hpost. simpl.
  apply String.eqb_neq in Hcsrf. rewrite Hcsrf. simpl.
  unfold decoded in Hdec. rewrite Hdec, Hweb, Hval. simpl.
  destruct w as [[d i m lim codes] [k rd] ent dr fmt net cs].
  unfold newRegistration in *. simpl in *.
  unfold mbind, M_bind, bind, generateRegistrationID, SaveRegistration,
    SendJSON, Format, now, randInt, record, setDB,
    mbind, M_bind, mret, M_ret, bind, ret, with_clock, with_server.
  simpl.
  rewrite Hsave. simpl.
  repeat split.
Qed.

(** X14. When the save succeeds and the Issuer returns the credential,
    [HandleRegister] calls, in order, the save, the issuance request, a
    status update with an empty [IssuanceError] and the welcome mail, and no
    operator mail.  When the welcome mail returns, a second status update
    follows and the handler answers 200 [Registration successful]; the
    table then holds a row with the registration's id and email whose
    [issuance_error] is empty and whose [notif_email_error] is the error
    text of the welcome mail, or empty when the mail went out.  When the
    welcome mail panics, the handler ends there: no second status update,
    nothing written to the client, and the row of the registration has an
    empty [issuance_error]. *)
Theorem HandleRegister_issuance_success (w : World C) (r : Request)
    (requestData : RegistrationRequest) (c1 : Clock) (d1 : db.Service)
    (reg1 : db.Registration) (body : list bytes.byte) :
  Method r = "POST" ->
  XRequestedWith r <> "" ->
  decoded r = Ok requestData ->
  Website requestData = "" ->
  Validate requestData = None ->
  db.SaveRegistration (snd (Now (clock w))) (DB (server_ w))
                      (newRegistration w requestData)
  = (c1, d1, reg1, None) ->
  credissuance.LEARIssuanceRequest (network w) (Issuer (server_ w))
                                   (credentialFor requestData)
  = credissuance.Returns (Ok body) ->
  exists regA regB : db.Registration,
    db.IssuanceError regA = ""
    /\ let first :=
         calls w
         ++ [CallSaveRegistration (newRegistration w requestData);
             CallLEARIssuanceRequest (credentialFor requestData);
             CallUpdateRegistrationStatus regA;
             CallSendWelcomeEmail regB] in
       match mail.SendWelcomeEmail (Mail (server_ w)) regB with
       | credissuance.Returns sent =>
           fst (HandleRegister r w) = registrationSuccessful
           /\ exists regC : db.Registration,
                calls (snd (HandleRegister r w))
                = first ++ [CallUpdateRegistrationStatus regC]
                /\ db.IssuanceError regC = ""
                /\ db.NotifEmailError regC
                   = match sent with
                     | Some e => Error e
                     | None => ""
                     end
                /\ recorded_status
                     (db.conn (DB (server_ (snd (HandleRegister r w)))))
                     (db.RegistrationID (newRegistration w requestData))
                     (Email requestData) "" (db.NotifEmailError regC)
       | credissuance.Panics _ =>
           fst (HandleRegister r w) = None
           /\ calls (snd (HandleRegister r w)) = first
           /\ recorded (db.conn (DB (server_ (snd (HandleRegister r w)))))
                       (db.RegistrationID (newRegistration w requestData))
                       (Email requestData) ""
       end.
Proof.
  intros Hpost Hcsrf Hdec Hweb Hval Hsave Hiss.
  destruct (SaveRegistration_stored _ _ _ _ _ _ Hsave)
    as (Hid1 & Hem1 & row & Hin & Hrid & Hrem).
  unfold HandleRegister, validateCSRF.
  rewrite Hpost. simpl.
  apply String.eqb_neq in Hcsrf. rewrite Hcsrf. simpl.
  unfold decoded in Hdec. rewrite Hdec, Hweb, Hval. simpl.
  fold (credentialFor requestData).
  destruct w as [[d i m lim codes] [k rd] ent dr fmt net cs].
  unfold newRegistration in *. simpl in *.
  unfold mbind, M_bind, bind, generateRegistrationID, SaveRegistration,
    UpdateRegistrationStatus, LEARIssuanceRequest, SendIssuerError,
    SendWelcomeEmail, welcome, SendJSON, Format, now, randInt, record, setDB,
    mbind, M_bind, mret, M_ret, bind, ret, with_clock, with_server.
  simpl.
  rewrite Hsave. simpl. rewrite Hiss. simpl.
  rewrite !UpdateRegistrationStatus_eq. simpl.
  set (regA := db.set_IssuanceError
                 (db.set_IssuanceAt reg1 (reading c1 (ticks c1))) "").
  set (regB := db.set_UpdatedAt regA (reading c1 (S (ticks c1)))).
  assert (forall regC : db.Registration,
            db.RegistrationID regC = db.RegistrationID regB ->
            db.Email regC = db.Email regB ->
            db.IssuanceError regC = "" ->
            recorded_status
              ((fun r => if db.status_where regC r then db.status_set regC r else r)
                 <$> ((fun r => if db.status_where regB r then db.status_set regB r
                                else r) <$> db.conn d1))
              (fmt (rd k) +:+ "-" +:+ decimal 8 (ent dr `mod` 100000000))
              (Email requestData) "" (db.NotifEmailError regC)) as Hfinal.
  { intros regC HidC HemC HerrC.
    exists (db.status_set regC (db.status_set regB row)).
    split.
    - apply list_elem_of_In, list_elem_of_fmap.
      exists (db.status_set regB row). split.
      + unfold db.status_where. simpl. rewrite HidC, HemC. simpl.
        rewrite Hrid, Hrem, <- Hid1, <- Hem1, !String.eqb_refl. reflexivity.
      + apply list_elem_of_fmap. exists row. split.
        * unfold db.status_where. simpl.
          rewrite Hrid, Hrem, <- Hid1, <- Hem1, !String.eqb_refl. reflexivity.
        * apply list_elem_of_In, Hin.
    - simpl. rewrite Hrid, Hrem. auto. }
  exists regA, regB.
  split; [reflexivity|].
  destruct (mail.SendWelcomeEmail m regB) as [[werr|]|wmsg] eqn:Hmail; simpl;
    rewrite ?UpdateRegistrationStatus_eq; simpl.
  - split; [reflexivity|].
    exists (db.set_NotifEmailError regB (Error werr)).
    split.
    { rewrite <- !app_assoc. simpl. reflexivity. }
    split; [reflexivity|]. split; [reflexivity|].
    apply (Hfinal (db.set_UpdatedAt (db.set_NotifEmailError regB (Error werr))
                                    (reading c1 (S (S (ticks c1))))));
      reflexivity.
  - split; [reflexivity|].
    exists (db.set_NotifEmailError
              (db.set_NotifEmailAt regB (reading c1 (S (S (ticks c1))))) "").
    split.
    { rewrite <- !app_assoc. simpl. reflexivity. }
    split; [reflexivity|]. split; [reflexivity|].
    apply (Hfinal (db.set_UpdatedAt
                     (db.set_NotifEmailError
                        (db.set_NotifEmailAt regB (reading c1 (S (S (ticks c1))))) "")
                     (reading c1 (S (S (S (ticks c1)))))));
      reflexivity.
  - split; [reflexivity|].
    split; [rewrite <- !app_assoc; reflexivity|].
    rewrite <- Hid1, <- Hem1.
    exact (status_update_recorded regB (db.conn d1) row Hin
             (eq_trans Hrid (eq_sym Hid1)) (eq_trans Hrem (eq_sym Hem1))).
Qed.

End WorkflowOutcomes.

Section WorkflowPanic.

Import server.

Context {C : Type}.

Local Arguments Validate : simpl never.
Local Arguments Decode : simpl never.
Local Arguments db.SaveRegistration : simpl never.
Local Arguments db.UpdateRegistrationStatus : simpl never.
Local Arguments credissuance.LEARIssuanceRequest : simpl never.
Local Arguments credissuance.Marshal : simpl never.
Local Arguments decimal : simpl never.
Local Arguments String.append : simpl never.

(** X29. A registration that is saved and never answered.  When the save
    succeeds and [LEARIssuanceRequest] panics (the token exchange succeeds
    and [http.NewRequest] refuses the configured issuance path), the
    handler ends in that panic: nothing is written to the client, the calls
    made are the save and the issuance request, no status update is made
    and no mail is sent, and the table is the one the save left. *)
Theorem HandleRegister_issuer_panics (w : World C) (r : Request)
    (requestData : RegistrationRequest) (c1 : Clock) (d1 : db.Service)
    (reg1 : db.Registration) (msg : string) :
  Method r = "POST" ->
  XRequestedWith r <> "" ->
  decoded r = Ok requestData ->
  Website requestData = "" ->
  Validate requestData = None ->
  db.SaveRegistration (snd (Now (clock w))) (DB (server_ w))
                      (newRegistration w requestData)
  = (c1, d1, reg1, None) ->
  credissuance.LEARIssuanceRequest (network w) (Issuer (server_ w))
                                   (credentialFor requestData)
  = credissuance.Panics msg ->
  fst (HandleRegister r w) = None
  /\ calls (snd (HandleRegister r w))
     = calls w ++ [CallSaveRegistration (newRegistration w requestData);
                   CallLEARIssuanceRequest (credentialFor requestData)]
  /\ DB (server_ (snd (HandleRegister r w))) = d1.
Proof.
  intros Hpost Hcsrf Hdec Hweb Hval Hsave Hiss.
  unfold HandleRegister, validateCSRF.
  rewrite Hpost. simpl.
  apply String.eqb_neq in Hcsrf. rewrite Hcsrf. simpl.
  unfold decoded in Hdec. rewrite Hdec, Hweb, Hval. simpl.
  fold (credentialFor requestData).
  destruct w as [[d i m lim codes] [k rd] ent dr fmt net cs].
  unfold newRegistration in *. simpl in *.
  unfold mbind, M_bind, bind, generateRegistrationID, SaveRegistration,
    LEARIssuanceRequest, SendJSON, Format, now, randInt, record, setDB,
    mbind, M_bind, mret, M_ret, bind, ret, with_clock, with_server.
  simpl.
  rewrite Hsave. simpl. rewrite Hiss. simpl.
  split; [reflexivity|]. split; [|reflexivity].
  rewrite <- app_assoc. reflexivity.
Qed.

End WorkflowPanic.

Section WorkflowMail.

Import server.

Context {C Template : Type}.

Local Arguments Validate : simpl never.
Local Arguments Decode : simpl never.
Local Arguments db.SaveRegistration : simpl never.
Local Arguments db.UpdateRegistrationStatus : simpl never.
Local Arguments credissuance.LEARIssuanceRequest : simpl never.
Local Arguments credissuance.Marshal : simpl never.
Local Arguments json.written : simpl never.
Local Arguments decimal : simpl never.
Local Arguments String.append : simpl never.
Local Arguments mailer.SendWelcomeEmail : simpl never.
Local Arguments mailer.SendIssuerError : simpl never.

Lemma SendIssuerError_returns (h : mailer.Env Template) (s : mailer.Service)
    (reg : db.Registration) (payload errorMsg : string) (log : list mailer.Op) :
  exists e : option error,
    fst (mailer.SendIssuerError h s reg payload errorMsg log) = credissuance.Returns e.
Proof.
  unfold mailer.SendIssuerError.
  destruct (negb _); [eexists; reflexivity|].
  destruct (mailer.render _ _ _); [|eexists; reflexivity].
  destruct (mailer.deliver _ _ _ _ _ _). eexists. reflexivity.
Qed.

Lemma SendWelcomeEmail_without_address (h : mailer.Env Template) (s : mailer.Service)
    (reg : db.Registration) (log : list mailer.Op) :
  configuration.Enabled (mailer.smtpConfig s) = true ->
  mailer.onboardTeamEmail s = [] ->
  fst (mailer.SendWelcomeEmail h s reg log)
  = credissuance.Panics "runtime error: index out of range [0] with length 0".
Proof.
  intros Hon Hnone. unfold mailer.SendWelcomeEmail. rewrite Hon, Hnone. reflexivity.
Qed.

(** X30. With a mail service that has SMTP enabled and no onboard team
    address, no registration is answered: for every valid registration
    request whose save succeeds, whatever the Issuer does, [HandleRegister]
    ends in a panic and writes nothing to the client, although the
    registration has been saved and its row stays in the table. *)
Theorem HandleRegister_without_onboard_address (h : mailer.Env Template)
    (text : json.value -> string) (s : mailer.Service) (log : list mailer.Op)
    (w : World C) (r : Request) (requestData : RegistrationRequest)
    (c1 : Clock) (d1 : db.Service) (reg1 : db.Registration) :
  Mail (server_ w) = mailer.sender h text s log ->
  configuration.Enabled (mailer.smtpConfig s) = true ->
  mailer.onboardTeamEmail s = [] ->
  Method r = "POST" ->
  XRequestedWith r <> "" ->
  decoded r = Ok requestData ->
  Website requestData = "" ->
  Validate requestData = None ->
  db.SaveRegistration (snd (Now (clock w))) (DB (server_ w))
                      (newRegistration w requestData)
  = (c1, d1, reg1, None) ->
  fst (HandleRegister r w) = None
  /\ (exists rest : list Call,
        calls (snd (HandleRegister r w))
        = calls w ++ CallSaveRegistration (newRegistration w requestData) :: rest)
  /\ length (db.conn (DB (server_ (snd (HandleRegister r w)))))
     = length (db.conn d1).
Proof.
  intros Hmail Hon Hnone Hpost Hcsrf Hdec Hweb Hval Hsave.
  unfold HandleRegister, validateCSRF.
  rewrite Hpost. simpl.
  apply String.eqb_neq in Hcsrf. rewrite Hcsrf. simpl.
  unfold decoded in Hdec. rewrite Hdec, Hweb, Hval. simpl.
  fold (credentialFor requestData).
  destruct w as [[d i m lim codes] [k rd] ent dr fmt net cs].
  unfold newRegistration in *. simpl in *. subst m.
  unfold mbind, M_bind, bind, generateRegistrationID, SaveRegistration,
    UpdateRegistrationStatus, LEARIssuanceRequest, SendIssuerError,
    SendWelcomeEmail, welcome, SendJSON, Format, now, randInt, record, setDB,
    mbind, M_bind, mret, M_ret, bind, ret, with_clock, with_server.
  simpl.
  rewrite Hsave. simpl.
  destruct (credissuance.LEARIssuanceRequest _ _ _) as [[body|e]|msg]; simpl.
  - rewrite !UpdateRegistrationStatus_eq. simpl.
    rewrite (SendWelcomeEmail_without_address h s _ log Hon Hnone). simpl.
    split; [reflexivity|]. split.
    + eexists. rewrite <- !app_assoc. reflexivity.
    + apply length_fmap.
  - rewrite !UpdateRegistrationStatus_eq. simpl.
    match goal with |- context [mailer.SendIssuerError h s ?reg ?p ?m log] =>
      destruct (SendIssuerError_returns h s reg p m log) as [sent Hsent] end.
    rewrite Hsent. simpl.
    rewrite (SendWelcomeEmail_without_address h s _ log Hon Hnone). simpl.
    split; [reflexivity|]. split.
    + eexists. rewrite <- !app_assoc. reflexivity.
    + apply length_fmap.
  - split; [reflexivity|]. split.
    + eexists. rewrite <- !app_assoc. reflexivity.
    + reflexivity.
Qed.

End WorkflowMail.

(** ** The verification gate and the sessions *)

Section GateMore.

Import server.

#[local] Abbreviation GateWorld := (World VerificationCodeEntry).

Local Arguments isValidEmail : simpl never.
Local Arguments generateCode : simpl never.
Local Arguments Z.mul : simpl never.
Local Arguments Sub : simpl never.

Lemma HandleValidateEmail_invalid (w : World string) (email : string) :
  isValidEmail email = false ->
  HandleValidateEmail (codeRequest email) w
  = (badRequest StatusBadRequest "A valid email is required", w).
Proof.
  intros Hinv. unfold HandleValidateEmail, codeRequest. simpl.
  rewrite Hinv, orb_true_r. reflexivity.
Qed.

(** The codes after a request for a code. *)
Lemma HandleValidateEmail_codes (w : World string) (email code : string) :
  fst (HandleValidateEmail (codeRequest email) w) = codeSent code ->
  VerificationCodes (server_ (snd (HandleValidateEmail (codeRequest email) w)))
  = <[email := code]> (VerificationCodes (server_ w)).
Proof.
  destruct (isValidEmail email) eqn:Hvalid.
  - rewrite HandleValidateEmail_limiter by exact Hvalid.
    destruct (EmailRateLimiter (server_ w) !! email) as [entry|].
    + destruct (at_ w 0 - StartTime entry >? 3 * Minute).
      * simpl. intros [= <-]. reflexivity.
      * destruct (Count entry >=? 3).
        -- simpl. discriminate.
        -- simpl. intros [= <-]. reflexivity.
    + simpl. intros [= <-]. reflexivity.
  - rewrite HandleValidateEmail_invalid by exact Hvalid. discriminate.
Qed.

(** X15. Round trip through the handlers: a code that [HandleValidateEmail]
    has just sent for an email is accepted by [HandleVerifyCode] for that
    email, once.  Before that a request with another code is answered 400
    and changes nothing; after it every code is answered 400. *)
Theorem issued_code_verifies_once (w : World string) (email code : string) :
  let w1 := snd (HandleValidateEmail (codeRequest email) w) in
  let w2 := snd (HandleVerifyCode (verifyRequest email code) w1) in
  fst (HandleValidateEmail (codeRequest email) w) = codeSent code ->
  fst (HandleVerifyCode (verifyRequest email code) w1) = emailVerified
  /\ (forall code' : string, code' <> code ->
        HandleVerifyCode (verifyRequest email code') w1 = (invalidCode, w1))
  /\ (forall code' : string,
        HandleVerifyCode (verifyRequest email code') w2 = (invalidCode, w2)).
Proof.
  intros w1 w2 Hsent.
  pose proof (HandleValidateEmail_codes w email code Hsent) as Hcodes.
  fold w1 in Hcodes.
  assert (VerificationCodes (server_ w1) !! email = Some code) as Hlook
    by (rewrite Hcodes; apply lookup_insert_eq).
  assert (HandleVerifyCode (verifyRequest email code) w1
          = (emailVerified,
             with_server w1
               (mkServer (DB (server_ w1)) (Issuer (server_ w1)) (Mail (server_ w1))
                         (EmailRateLimiter (server_ w1))
                         (delete email (VerificationCodes (server_ w1)))))) as Hok.
  { unfold HandleVerifyCode, verifyRequest. simpl.
    unfold mbind, M_bind, bind, getCodes. simpl.
    rewrite Hlook, String.eqb_refl. reflexivity. }
  split; [rewrite Hok; reflexivity|]. split.
  - intros code' Hne.
    unfold HandleVerifyCode, verifyRequest. simpl.
    unfold mbind, M_bind, bind, getCodes. simpl.
    rewrite Hlook.
    destruct (String.eqb_spec code code') as [->|_]; [congruence|reflexivity].
  - intros code'. unfold w2. rewrite Hok. cbn [snd].
    unfold HandleVerifyCode, verifyRequest. simpl.
    unfold mbind, M_bind, bind, getCodes. simpl.
    rewrite lookup_delete_eq. reflexivity.
Qed.

Lemma HandleValidateEmail_cases (w : World string) (r : Request) :
  snd (HandleValidateEmail r w) = w
  \/ exists email : string,
       Decode email_member "" (Body r) = Ok email
       /\ snd (HandleValidateEmail r w)
          = snd (HandleValidateEmail (codeRequest email) w)
       /\ isValidEmail email = true.
Proof.
  unfold HandleValidateEmail at 1 2.
  destruct (negb (String.eqb (Method r) "POST")); [left; reflexivity|].
  destruct (negb (validateCSRF r)); [left; reflexivity|].
  destruct (Decode email_member "" (Body r)) as [email|e] eqn:Hdec;
    [|left; reflexivity].
  destruct (String.eqb email "" || negb (isValidEmail email)) eqn:Hbad;
    [left; reflexivity|].
  right. exists email. split; [reflexivity|].
  apply orb_false_iff in Hbad. destruct Hbad as [Hne Hv].
  apply negb_false_iff in Hv. split; [|exact Hv].
  unfold HandleValidateEmail, codeRequest. simpl.
  rewrite Hne, Hv. reflexivity.
Qed.

(** The world a request for a code leaves: the limiter and the codes change
    at [email] at most, the clock and the random source advance. *)
Lemma HandleValidateEmail_step (w : World string) (email : string) :
  isValidEmail email = true ->
  exists (entry : RateLimitEntry) (codes : gmap string string) (n d : nat),
    (snd (HandleValidateEmail (codeRequest email) w)
     = after w (<[email := entry]> (EmailRateLimiter (server_ w))) codes n d
     \/ snd (HandleValidateEmail (codeRequest email) w)
        = after w (EmailRateLimiter (server_ w)) codes n d)
    /\ (codes = VerificationCodes (server_ w)
        \/ exists code, codes = <[email := code]> (VerificationCodes (server_ w)))
    /\ (counts_bounded w -> 1 <= Count entry <= 3).
Proof.
  intros Hvalid. rewrite HandleValidateEmail_limiter by exact Hvalid.
  destruct (EmailRateLimiter (server_ w) !! email) as [entry|] eqn:Hlook.
  - destruct (at_ w 0 - StartTime entry >? 3 * Minute).
    + do 4 eexists. split; [left; reflexivity|]. split; [right; eauto|].
      simpl. lia.
    + destruct (Z.geb_spec (Count entry) 3).
      * exists entry. do 3 eexists. split; [right; reflexivity|].
        split; [left; reflexivity|]. intros Hb. eapply Hb; eauto.
      * do 4 eexists. split; [left; reflexivity|]. split; [right; eauto|].
        simpl. intros Hb. specialize (Hb _ _ Hlook). lia.
  - do 4 eexists. split; [left; reflexivity|]. split; [right; eauto|].
    simpl. lia.
Qed.

(** X16. A request for a code concerns one email only.  Whatever the request,
    [HandleValidateEmail] leaves the limiter entry and the stored code of
    every email other than the one its body names as they were, and it
    never touches the table or calls the store, the Issuer or the mail
    service. *)
Theorem HandleValidateEmail_frame (w : World string) (r : Request) (other : string) :
  let w' := snd (HandleValidateEmail r w) in
  Decode email_member "" (Body r) <> Ok other ->
  EmailRateLimiter (server_ w') !! other = EmailRateLimiter (server_ w) !! other
  /\ VerificationCodes (server_ w') !! other = VerificationCodes (server_ w) !! other
  /\ DB (server_ w') = DB (server_ w)
  /\ calls w' = calls w.
Proof.
  intros w' Hother. unfold w'.
  destruct (HandleValidateEmail_cases w r) as [-> | (email & Hdec & -> & Hvalid)];
    [repeat split|].
  assert (email <> other) as Hne by congruence.
  destruct (HandleValidateEmail_step w email Hvalid)
    as (entry & codes & n & d & [-> | ->] & Hcodes & _); simpl;
    rewrite ?lookup_insert_ne by exact Hne;
    (split; [reflexivity|]);
    (split; [|split; reflexivity]);
    (destruct Hcodes as [-> | [code ->]];
       [reflexivity|rewrite lookup_insert_ne by exact Hne; reflexivity]).
Qed.

End GateMore.

Section RegistrationAndGate.

Import server.

Context {C : Type}.

Local Arguments Validate : simpl never.
Local Arguments Decode : simpl never.
Local Arguments db.SaveRegistration : simpl never.
Local Arguments db.UpdateRegistrationStatus : simpl never.
Local Arguments credissuance.LEARIssuanceRequest : simpl never.
Local Arguments credissuance.Marshal : simpl never.
Local Arguments decimal : simpl never.
Local Arguments String.append : simpl never.

Lemma HandleRegister_with_maps (w : World C) (r : Request)
    (limiter : gmap string RateLimitEntry) (codes : gmap string C) :
  HandleRegister r (with_maps w limiter codes)
  = (fst (HandleRegister r w),
     with_maps (snd (HandleRegister r w)) limiter codes).
Proof.
  unfold HandleRegister.
  destruct (negb (String.eqb (Method r) "POST")); [reflexivity|].
  destruct (negb (validateCSRF r)); [reflexivity|].
  destruct (Decode RegistrationRequest_member zero_RegistrationRequest (Body r))
    as [requestData|]; [|reflexivity].
  destruct (negb (String.eqb (Website requestData) "")); [reflexivity|].
  destruct (Validate requestData); [reflexivity|].
  destruct w as [[d i m l0 c0] [k rd] ent dr fmt net cs].
  unfold with_maps, mbind, M_bind, bind, generateRegistrationID, SaveRegistration,
    UpdateRegistrationStatus, LEARIssuanceRequest, SendIssuerError,
    SendWelcomeEmail, welcome, SendJSON, Format, now, randInt, record, setDB,
    mbind, M_bind, mret, M_ret, bind, ret, with_clock, with_server.
  simpl.
  destruct (db.SaveRegistration _ _ _) as [[[c1 d1] reg1] [err|]]; simpl;
    [reflexivity|].
  destruct (credissuance.LEARIssuanceRequest _ _ _) as [[body|e]|msg]; simpl;
    [| |reflexivity];
    rewrite !UpdateRegistrationStatus_eq; simpl;
    try (destruct (mail.SendIssuerError m _ _ _); simpl; [|reflexivity]);
    (destruct (mail.SendWelcomeEmail m _) as [[werr|]|wmsg]; simpl;
     [| |reflexivity]);
    rewrite !UpdateRegistrationStatus_eq; reflexivity.
Qed.

Lemma with_own_maps (w : World C) :
  with_maps w (EmailRateLimiter (server_ w)) (VerificationCodes (server_ w)) = w.
Proof. destruct w as [[d i m l0 c0] c ent dr fmt net cs]. reflexivity. Qed.

Lemma HandleRegister_keeps_maps (w : World C) (r : Request) :
  EmailRateLimiter (server_ (snd (HandleRegister r w))) = EmailRateLimiter (server_ w)
  /\ VerificationCodes (server_ (snd (HandleRegister r w)))
     = VerificationCodes (server_ w).
Proof.
  pose proof (HandleRegister_with_maps w r (EmailRateLimiter (server_ w))
                (VerificationCodes (server_ w))) as H.
  rewrite with_own_maps in H.
  apply (f_equal snd) in H. cbn [snd] in H.
  rewrite H. split; reflexivity.
Qed.

(** X17. Registration does not look at the verification gate.  The reply of
    [HandleRegister], the table it leaves and the calls it makes are the
    same whatever the rate limiter and the stored verification codes hold,
    in particular whether or not a code was ever requested or verified for
    the email; and it leaves both maps as they were. *)
Theorem HandleRegister_ignores_gate (w : World C) (r : Request)
    (limiter : gmap string RateLimitEntry) (codes : gmap string C) :
  let w' := with_maps w limiter codes in
  fst (HandleRegister r w') = fst (HandleRegister r w)
  /\ DB (server_ (snd (HandleRegister r w'))) = DB (server_ (snd (HandleRegister r w)))
  /\ calls (snd (HandleRegister r w')) = calls (snd (HandleRegister r w))
  /\ EmailRateLimiter (server_ (snd (HandleRegister r w'))) = limiter
  /\ VerificationCodes (server_ (snd (HandleRegister r w'))) = codes.
Proof.
  intros w'. unfold w'. rewrite HandleRegister_with_maps.
  repeat split.
Qed.

End RegistrationAndGate.

Section Sessions.

Import server.

Local Arguments isValidEmail : simpl never.
Local Arguments generateCode : simpl never.
Local Arguments Z.mul : simpl never.
Local Arguments Sub : simpl never.

Lemma HandleVerifyCode_keeps_limiter (w : World string) (r : Request) :
  EmailRateLimiter (server_ (snd (HandleVerifyCode r w))) = EmailRateLimiter (server_ w).
Proof.
  unfold HandleVerifyCode.
  destruct (negb (String.eqb (Method r) "POST")); [reflexivity|].
  destruct (negb (validateCSRF r)); [reflexivity|].
  destruct (Decode verify_member ("", "") (Body r)) as [[reqEmail reqCode]|];
    [|reflexivity].
  unfold mbind, M_bind, bind, getCodes. simpl.
  destruct (VerificationCodes (server_ w) !! reqEmail) as [expected|]; [|reflexivity].
  destruct (negb (String.eqb expected reqCode)); reflexivity.
Qed.

Lemma handle_counts_bounded (route : Route) (r : Request) (w : World string) :
  counts_bounded w -> counts_bounded (snd (handle route r w)).
Proof.
  intros Hb. destruct route; unfold handle.
  - destruct (HandleValidateEmail_cases w r) as [-> | (email & _ & -> & Hvalid)];
      [exact Hb|].
    destruct (HandleValidateEmail_step w email Hvalid)
      as (entry & codes & n & d & [-> | ->] & _ & Hentry).
    + intros e x. unfold after. simpl.
      destruct (decide (email = e)) as [->|Hne].
      * rewrite lookup_insert_eq. intros [= <-]. apply Hentry, Hb.
      * rewrite lookup_insert_ne by exact Hne. apply Hb.
    + exact Hb.
  - intros e x. rewrite HandleVerifyCode_keeps_limiter. apply Hb.
  - intros e x. rewrite (proj1 (HandleRegister_keeps_maps w r)). apply Hb.
Qed.

(** X18. The limiter never counts past three.  From a server whose limiter
    entries all count between one and three requests (the new server, whose
    limiter is empty, is one), every entry still does after any session:
    any sequence of requests, well-formed or not, to the three handlers. *)
Theorem session_counts_bounded (l : list (Route * Request)) (w : World string) :
  counts_bounded w -> counts_bounded (session l w).
Proof.
  revert w. induction l as [|[route r] l IH]; intros w Hb; simpl.
  - exact Hb.
  - apply IH, handle_counts_bounded, Hb.
Qed.

End Sessions.

Section Expiry.

Import server.

#[local] Abbreviation GateWorld := (World VerificationCodeEntry).

Local Arguments Z.mul : simpl never.
Local Arguments Sub : simpl never.

(** X19. Codes expire at the sweep.  After [RegisterEmailAttempt] for any
    email, [VerifyCode email code] succeeds exactly when a code was stored
    for [email], it is [code], and it was stored not more than 15 minutes
    before the first clock reading of the attempt. *)
Theorem RegisterEmailAttempt_expires_codes (w : GateWorld)
    (attempt email code : string) :
  fst (VerifyCode email code (snd (RegisterEmailAttempt attempt w))) = true
  <-> exists entry : VerificationCodeEntry,
        VerificationCodes (server_ w) !! email = Some entry
        /\ Code entry = code
        /\ at_ w 0 - CreatedAt entry <= 15 * Minute.
Proof.
  rewrite VerifyCode_unfold.
  assert (VerificationCodes (server_ (snd (RegisterEmailAttempt attempt w)))
          = filter (fun kv : string * VerificationCodeEntry =>
                      ~ (expirationLimit < Sub (at_ w 0) (CreatedAt kv.2)))
                   (VerificationCodes (server_ w))) as ->.
  { rewrite RegisterEmailAttempt_limiter. cbv zeta.
    match goal with |- context [filter ?P ?m !! attempt] =>
      destruct (filter P m !! attempt) as [entry|] end.
    - destruct (at_ w 1 - StartTime entry >? 3 * Minute); [reflexivity|].
      destruct (Count entry >=? 3); reflexivity.
    - reflexivity. }
  match goal with |- context [filter ?P ?m !! email] =>
    destruct (filter P m !! email) as [entry|] eqn:Hlook end.
  - apply map_lookup_filter_Some in Hlook. destruct Hlook as [Hlook Hfresh].
    cbn [snd] in Hfresh. rewrite Sub_expired in Hfresh.
    change expirationLimit with (15 * Minute) in Hfresh.
    destruct (String.eqb_spec (Code entry) code) as [Hc|Hc]; cbn [fst].
    + split; [intros _; exists entry; repeat split; [exact Hlook|exact Hc|lia]|
              reflexivity].
    + split; [discriminate|].
      intros (entry' & Hl & Hc' & _). congruence.
  - cbn [fst]. split; [discriminate|].
    intros (entry & Hl & Hc & Hfresh). exfalso.
    apply map_lookup_filter_None in Hlook. destruct Hlook as [Hlook|Hlook];
      [congruence|].
    apply (Hlook entry Hl). cbn [snd]. rewrite Sub_expired.
    change expirationLimit with (15 * Minute). lia.
Qed.

End Expiry.

Section Formats.

Import server.

Context {C : Type}.

Lemma digit_char (d : Z) :
  0 <= d < 10 -> is_digit (ascii_of_N (Z.to_N (48 + d))) = true.
Proof.
  intros Hd.
  assert (d = 0 \/ d = 1 \/ d = 2 \/ d = 3 \/ d = 4 \/ d = 5 \/ d = 6 \/ d = 7
          \/ d = 8 \/ d = 9) as Hcases by lia.
  repeat (destruct Hcases as [-> | Hcases]; [reflexivity|]).
  subst. reflexivity.
Qed.

Lemma decimal_format (width : nat) (n : Z) :
  String.length (decimal width n) = width /\ all_digits (decimal width n) = true.
Proof.
  induction width as [|width [IHl IHd]]; [split; reflexivity|].
  cbn [decimal String.length all_digits].
  rewrite IHl, IHd, digit_char; [split; reflexivity|].
  apply Z.mod_pos_bound. lia.
Qed.

(** X20. The shape of what is generated.  [generateCode] always returns six
    decimal digits, and [generateRegistrationID] the date of the clock
    reading in the layout [20060102], a hyphen and eight decimal digits;
    each reads the random source once. *)
Theorem generated_formats (w : World C) :
  String.length (fst (generateCode w)) = 6%nat
  /\ all_digits (fst (generateCode w)) = true
  /\ drawn (snd (generateCode w)) = S (drawn w)
  /\ (exists digits : string,
        fst (generateRegistrationID w)
        = Format20060102 w (at_ w 0) +:+ "-" +:+ digits
        /\ String.length digits = 8%nat
        /\ all_digits digits = true)
  /\ drawn (snd (generateRegistrationID w)) = S (drawn w).
Proof.
  destruct w as [srv [k rd] ent dr fmt net cs].
  unfold generateCode, generateRegistrationID, Format, now, randInt, at_,
    mbind, M_bind, mret, M_ret, bind, ret, with_clock.
  cbn [fst snd Now clock ticks reading drawn entropy Format20060102 Nat.add].
  destruct (decimal_format 6 (ent dr mod 1000000)) as [H6l H6d].
  destruct (decimal_format 8 (ent dr mod 100000000)) as [H8l H8d].
  split; [exact H6l|]. split; [exact H6d|]. split; [reflexivity|].
  split; [|reflexivity].
  eexists. split; [reflexivity|]. split; assumption.
Qed.

End Formats.

(** ** The issuance client: failures, key files and identifiers *)

Section IssuanceFailures.

Import credissuance.

(** X22. How [LEARIssuanceRequest] fails before the Issuer answers.  If the
    token exchange fails, its error is returned, whatever the issuance path
    and the network.  If it succeeds and [http.NewRequest] refuses the
    configured issuance path, the call does not return an error: it panics
    on the nil request, and this is the only way it panics.  If the request
    is built and the round trip fails, the error of the round trip is
    returned. *)
Theorem LEARIssuanceRequest_failures (net : Network) (l : LEARIssuance)
    (learCredData : LEARIssuanceRequestBody) :
  let token := TokenRequest net (verifierTokenEndpoint l) (machineCredential l)
                            (myDidkey l) (verifierURL l) (privateKey l) in
  (forall err : error, token = Err err ->
     LEARIssuanceRequest net l learCredData = Returns (Err err))
  /\ ((exists msg, LEARIssuanceRequest net l learCredData = Panics msg)
      <-> (exists access_token, token = Ok access_token)
          /\ NewRequest_accepts net (credentialIssuancePath l) = false)
  /\ (forall (access_token msg : string),
        token = Ok access_token ->
        NewRequest_accepts net (credentialIssuancePath l) = true ->
        Do net (issuanceRequest l access_token learCredData) = Failed msg ->
        LEARIssuanceRequest net l learCredData
        = Returns (Err (ErrExternal "net/http" msg))).
Proof.
  intros token. subst token. unfold LEARIssuanceRequest.
  destruct (TokenRequest net _ _ _ _ _) as [access_token|err0].
  - fold (issuanceRequest l access_token learCredData).
    destruct (NewRequest_accepts net (credentialIssuancePath l)); cbn [negb].
    + split; [discriminate|]. split.
      * split; [|intros [_ H]; discriminate].
        intros [msg H]. exfalso.
        destruct (Do net _) as [resp|m]; cbn [from] in H; [|discriminate].
        destruct ((StatusCode resp <? 200) || (StatusCode resp >? 399));
          [discriminate|].
        destruct (ReadAll resp); discriminate.
      * intros t msg [= <-] _ ->. reflexivity.
    + split; [discriminate|]. split.
      * split; [intros _; split; [eauto|reflexivity]|intros _; eauto].
      * intros t msg _ H. discriminate.
  - split; [intros err [= <-]; reflexivity|]. split.
    + split; [intros [msg H]; discriminate|intros [[t H] _]; discriminate].
    + intros t msg H. discriminate.
Qed.

End IssuanceFailures.

Section KeyFile.

Import credissuance.

Lemma substring_all (s : string) : String.substring 0 (String.length s) s = s.
Proof. induction s as [|c s IH]; simpl; [reflexivity|]. rewrite IH. reflexivity. Qed.

(** A text that begins with two hexadecimal digits carries no prefix. *)
Lemma TrimPrefix_hex (s : string) :
  begins_with_hex_pair s = true ->
  strings_.TrimPrefix s "0x" = s /\ strings_.TrimPrefix s "0X" = s.
Proof.
  destruct s as [|p [|q s]]; try discriminate.
  unfold begins_with_hex_pair, strings_.TrimPrefix. cbn [String.prefix].
  destruct (hex.fromHexChar p) eqn:Hp; [|discriminate].
  destruct (hex.fromHexChar q) eqn:Hq; [|discriminate].
  intros _.
  destruct (ascii_dec "0" p) as [<-|]; [|split; reflexivity].
  destruct (ascii_dec "x" q) as [<-|]; [discriminate|].
  destruct (ascii_dec "X" q) as [<-|]; [discriminate|].
  split; reflexivity.
Qed.

Lemma TrimPrefix_0x (s : string) :
  strings_.TrimPrefix ("0x" +:+ s) "0x" = s
  /\ strings_.TrimPrefix ("0X" +:+ s) "0x" = "0X" +:+ s
  /\ strings_.TrimPrefix ("0X" +:+ s) "0X" = s.
Proof.
  unfold strings_.TrimPrefix.
  change ("0x" +:+ s) with (String "0" (String "x" s)).
  change ("0X" +:+ s) with (String "0" (String "X" s)).
  cbn.
  replace (String.length s - 0)%nat with (String.length s) by lia.
  rewrite substring_all. repeat split; destruct s; reflexivity.
Qed.

(** Decoding stops at the first pair that is not two digits. *)
Lemma DecodeString_stops (k suffix : string) :
  hex_digits k = true ->
  Nat.Even (String.length k) ->
  begins_with_hex_pair suffix = false ->
  fst (hex.DecodeString (k +:+ suffix)) = fst (hex.DecodeString k).
Proof.
  intros Hk [n Hn] Hs.
  revert k Hk Hn.
  induction n as [|n IH]; intros k Hk Hn.
  - destruct k; [|discriminate].
    change ("" +:+ suffix) with suffix.
    destruct suffix as [|a [|b s]]; [reflexivity|reflexivity|].
    cbn [begins_with_hex_pair] in Hs. cbn [hex.DecodeString].
    destruct (hex.fromHexChar a); [|reflexivity].
    destruct (hex.fromHexChar b); [discriminate|reflexivity].
  - destruct k as [|p [|q k]]; [discriminate|cbn in Hn; lia|].
    cbn [hex_digits] in Hk.
    destruct (hex.fromHexChar p) eqn:Hp; [|discriminate].
    destruct (hex.fromHexChar q) eqn:Hq; [|discriminate].
    change (String p (String q k) +:+ suffix) with (String p (String q (k +:+ suffix))).
    cbn [hex.DecodeString]. rewrite Hp, Hq.
    assert (fst (hex.DecodeString (k +:+ suffix)) = fst (hex.DecodeString k)) as H.
    { apply IH; [exact Hk|]. cbn in Hn. lia. }
    destruct (hex.DecodeString (k +:+ suffix)), (hex.DecodeString k).
    cbn in H |- *. rewrite H. reflexivity.
Qed.

Lemma hex_pair_begins (k suffix : string) :
  hex_digits k = true -> k <> "" -> Nat.Even (String.length k) ->
  begins_with_hex_pair (k +:+ suffix) = true /\ begins_with_hex_pair k = true.
Proof.
  destruct k as [|p [|q k]]; [congruence| |].
  - intros _ _ [n Hn]. cbn in Hn. lia.
  - change (String p (String q k) +:+ suffix)
      with (String p (String q (k +:+ suffix))).
    cbn [hex_digits begins_with_hex_pair].
    destruct (hex.fromHexChar p); [|discriminate].
    destruct (hex.fromHexChar q); [|discriminate]. auto.
Qed.

(** The scalar read from a key file, whatever its dress. *)
Lemma rawScalar_forms (k prefix suffix : string) :
  hex_digits k = true -> k <> "" -> Nat.Even (String.length k) ->
  prefix = "" \/ prefix = "0x" \/ prefix = "0X" ->
  begins_with_hex_pair suffix = false ->
  rawScalar (prefix +:+ (k +:+ suffix)) = rawScalar k.
Proof.
  intros Hk Hne Heven Hprefix Hsuffix.
  destruct (hex_pair_begins k suffix Hk Hne Heven) as [Hks Hkk].
  destruct (TrimPrefix_hex _ Hks) as [Hs1 Hs2].
  destruct (TrimPrefix_hex _ Hkk) as [Hk1 Hk2].
  destruct (TrimPrefix_0x (k +:+ suffix)) as (H0x & H0X1 & H0X2).
  unfold rawScalar. rewrite Hk1, Hk2.
  destruct Hprefix as [-> | [-> | ->]].
  - change ("" +:+ (k +:+ suffix)) with (k +:+ suffix).
    rewrite Hs1, Hs2. apply DecodeString_stops; assumption.
  - rewrite H0x, Hs2. apply DecodeString_stops; assumption.
  - rewrite H0X1, H0X2. apply DecodeString_stops; assumption.
Qed.

(** X23. The dress of the key file does not matter.  Let the key file hold an
    even, non-zero number of hexadecimal digits [k].  A key file that holds
    the same digits after the prefix [0x] or [0X], or followed by anything
    that does not begin with two hexadecimal digits (a line end, a comment,
    a stray digit), gives the same result of [NewLEARIssuance]: the text
    after the digits is dropped without an error. *)
Theorem NewLEARIssuance_key_file_forms (ReadFile ReadFile' : string -> io string)
    (config : EnvConfig) (k prefix suffix : string) :
  hex_digits k = true -> k <> "" -> Nat.Even (String.length k) ->
  prefix = "" \/ prefix = "0x" \/ prefix = "0X" ->
  begins_with_hex_pair suffix = false ->
  ReadFile (PrivateKeyFile config) = Done k ->
  ReadFile' (PrivateKeyFile config) = Done (prefix +:+ (k +:+ suffix)) ->
  ReadFile' (MachineCredentialFile config) = ReadFile (MachineCredentialFile config) ->
  NewLEARIssuance ReadFile' config = NewLEARIssuance ReadFile config.
Proof.
  intros Hk Hne Heven Hprefix Hsuffix Hread Hread' Hmachine.
  unfold NewLEARIssuance. rewrite Hread, Hread', Hmachine. cbn [from].
  change (fst (hex.DecodeString
                 (strings_.TrimPrefix
                    (strings_.TrimPrefix (prefix +:+ (k +:+ suffix)) "0x") "0X")))
    with (rawScalar (prefix +:+ (k +:+ suffix))).
  change (fst (hex.DecodeString
                 (strings_.TrimPrefix (strings_.TrimPrefix k "0x") "0X")))
    with (rawScalar k).
  rewrite (rawScalar_forms k prefix suffix) by assumption.
  reflexivity.
Qed.

End KeyFile.

Section IdentifierShape.

Import credissuance.

Local Arguments Z.mul : simpl never.
Local Arguments Z.pow : simpl never.
Local Arguments Z.modulo : simpl never.
Local Arguments Z.div : simpl never.

(** After [j] steps the conversion has produced the [j] low digits. *)
Lemma digits_low (j : nat) :
  forall (fuel : nat) (n : Z) (acc : list Z),
    58 ^ Z.of_nat j <= n ->
    exists low : list Z,
      length low = j
      /\ base58.digits (j + fuel) n acc
         = base58.digits fuel (n / 58 ^ Z.of_nat j) (low ++ acc).
Proof.
  induction j as [|j IH]; intros fuel n acc Hn.
  - exists []. split; [reflexivity|].
    cbn [Nat.add app]. rewrite Z.pow_0_r, Z.div_1_r. reflexivity.
  - rewrite Nat2Z.inj_succ, Z.pow_succ_r in Hn by lia.
    assert (0 < 58 ^ Z.of_nat j) as Hpos by (apply Z.pow_pos_nonneg; lia).
    cbn [Nat.add base58.digits].
    destruct (Z.leb_spec n 0) as [|_]; [lia|].
    destruct (IH fuel (n / 58) (n mod 58 :: acc)) as (low & Hlen & Heq).
    { apply Z.div_le_lower_bound; lia. }
    exists (low ++ [n mod 58]). split.
    + rewrite length_app, Hlen. cbn. lia.
    + rewrite Heq, <- app_assoc. cbn [app].
      rewrite Nat2Z.inj_succ, Z.pow_succ_r by lia.
      rewrite Z.div_div by lia. reflexivity.
Qed.

Lemma length_string_of_list_ascii (l : list ascii) :
  String.length (string_of_list_ascii l) = length l.
Proof. induction l as [|c l IH]; simpl; [reflexivity|]. rewrite IH. reflexivity. Qed.

Lemma to_Z_cons (b : bytes.byte) (bs : list bytes.byte) :
  bytes.to_Z (b :: bs) = b * 256 ^ Z.of_nat (length bs) + bytes.to_Z bs.
Proof.
  unfold bytes.to_Z at 1. cbn [fold_left]. rewrite to_Z_acc. lia.
Qed.

(** The number the tag bytes and a compressed key denote. *)
Lemma tagged_key_number (c x : Z) (bs : list bytes.byte) :
  length bs = 32%nat ->
  bytes.to_Z bs = x mod 256 ^ 32 ->
  bytes.to_Z (128 :: 36 :: c :: bs) = (8397824 + c) * 256 ^ 32 + x mod 256 ^ 32.
Proof.
  intros Hlen Hbs.
  rewrite !to_Z_cons. cbn [length]. rewrite Hlen, Hbs.
  change (Z.of_nat 32) with 32. change (Z.of_nat 33) with 33.
  change (Z.of_nat 34) with 34.
  replace (256 ^ 34) with (65536 * 256 ^ 32) by reflexivity.
  replace (256 ^ 33) with (256 * 256 ^ 32) by reflexivity.
  lia.
Qed.

Lemma tagged_key_quotient (N : Z) :
  8397826 * 256 ^ 32 <= N < 8397828 * 256 ^ 32 ->
  58 ^ 46 <= N /\ N / 58 ^ 46 = 741.
Proof.
  intros [Hlo Hhi].
  assert (58 ^ 46 <= 8397826 * 256 ^ 32) as H1 by (vm_compute; discriminate).
  assert (741 * 58 ^ 46 <= 8397826 * 256 ^ 32) as H2 by (vm_compute; discriminate).
  assert (8397828 * 256 ^ 32 <= 742 * 58 ^ 46) as H3 by (vm_compute; discriminate).
  assert (0 < 58 ^ 46) as Hpos by reflexivity.
  split; [lia|].
  symmetry. apply (Z.div_unique_pos N (58 ^ 46) 741 (N - 741 * 58 ^ 46)); lia.
Qed.

Lemma digits_top (low : list Z) : base58.digits 24 741 low = 12 :: 45 :: low.
Proof. vm_compute. reflexivity. Qed.

Lemma Encode_tagged (c : Z) (bs : list bytes.byte) :
  base58.Encode (128 :: 36 :: c :: bs)
  = string_of_list_ascii
      (map base58.encode
         (base58.digits (2 * length (128 :: 36 :: c :: bs))
                        (bytes.to_Z (128 :: 36 :: c :: bs)) [])).
Proof. reflexivity. Qed.

(** The base58 text of the tag bytes and a compressed P-256 key. *)
Lemma Encode_compressed (x y : Z) :
  exists rest : string,
    base58.Encode
      (varintPrefix
       ++ compress (4 :: bytes.big_endian 32 x ++ bytes.big_endian 32 y))
    = "Dn" +:+ rest
    /\ String.length rest = 46%nat.
Proof.
  rewrite compress_uncompressed.
  set (c := if Z.even y then 2 else 3).
  assert (c = 2 \/ c = 3) as Hc by (unfold c; destruct (Z.even y); auto).
  clearbody c.
  change (varintPrefix ++ c :: bytes.big_endian 32 x)
    with (128 :: 36 :: c :: bytes.big_endian 32 x).
  rewrite Encode_tagged.
  rewrite (tagged_key_number c x)
    by (apply length_big_endian || apply (to_Z_big_endian 32)).
  cbn [length]. rewrite length_big_endian.
  assert (0 <= x mod 256 ^ 32 < 256 ^ 32) as Hx
    by (apply Z.mod_pos_bound; reflexivity).
  destruct (tagged_key_quotient ((8397824 + c) * 256 ^ 32 + x mod 256 ^ 32))
    as [Hbig Hq]; [lia|].
  destruct (digits_low 46 24 _ [] Hbig) as (low & Hlen & Heq).
  change (2 * 35)%nat with (46 + 24)%nat.
  change (Z.of_nat 46) with 46 in Heq.
  rewrite Heq, Hq, app_nil_r, digits_top.
  exists (string_of_list_ascii (map base58.encode low)). split.
  - reflexivity.
  - rewrite length_string_of_list_ascii, length_map. exact Hlen.
Qed.

(** X24. Only identifiers of P-256 keys are accepted: whenever
    [NewLEARIssuance] returns a client, the configured [MyDidkey] is
    [did:key:zDn] followed by 46 more characters, and the client carries it
    as its own identifier. *)
Theorem NewLEARIssuance_identifier_shape (ReadFile : string -> io string)
    (config : EnvConfig) (l : LEARIssuance) :
  NewLEARIssuance ReadFile config = Ok l ->
  myDidkey l = MyDidkey config
  /\ exists rest : string,
       MyDidkey config = "did:key:zDn" +:+ rest
       /\ String.length rest = 46%nat.
Proof.
  unfold NewLEARIssuance.
  destruct (from "os" (ReadFile (PrivateKeyFile config))) as [raw|]; [|discriminate].
  destruct (ecdsa.ParseRawPrivateKey _) as [key|]; [|discriminate].
  unfold ecdsa.Bytes.
  destruct (String.eqb_spec
              (didKeyOf (4 :: bytes.big_endian 32 (ecdsa.X (ecdsa.PublicKey_ key))
                           ++ bytes.big_endian 32 (ecdsa.Y (ecdsa.PublicKey_ key))))
              (MyDidkey config)) as [Hdid|]; [|discriminate].
  cbn [negb].
  destruct (from "os" (ReadFile (MachineCredentialFile config))) as [buf|];
    [|discriminate].
  intros [= <-]. split; [reflexivity|].
  rewrite <- Hdid. unfold didKeyOf.
  destruct (Encode_compressed (ecdsa.X (ecdsa.PublicKey_ key))
                              (ecdsa.Y (ecdsa.PublicKey_ key)))
    as (rest & Heq & Hlen).
  exists rest. split; [|exact Hlen].
  rewrite Heq. reflexivity.
Qed.

End IdentifierShape.

(** ** The email pattern *)

Section Patterns.

Import regexp.

Lemma append_cons (c : ascii) (s1 s2 : string) :
  String c s1 +:+ s2 = String c (s1 +:+ s2).
Proof. reflexivity. Qed.

Lemma append_nil_l (s : string) : "" +:+ s = s.
Proof. reflexivity. Qed.

Lemma append_eq_nil (s1 s2 : string) : s1 +:+ s2 = "" -> s1 = "" /\ s2 = "".
Proof. destruct s1; [auto|discriminate]. Qed.

Lemma matches_fail (s : string) : ~ matches Fail s.
Proof. intros H. inversion H. Qed.

Lemma matches_eps_inv (s : string) : matches Eps s -> s = "".
Proof. intros H. inversion H. reflexivity. Qed.

Lemma matches_cat_inv (r1 r2 : Regexp) (s : string) :
  matches (Cat r1 r2) s ->
  exists s1 s2, s = s1 +:+ s2 /\ matches r1 s1 /\ matches r2 s2.
Proof. intros H. inversion H; subst. eauto. Qed.

Lemma matches_alt_inv (r1 r2 : Regexp) (s : string) :
  matches (Alt r1 r2) s -> matches r1 s \/ matches r2 s.
Proof. intros H. inversion H; subst; auto. Qed.

Lemma matches_class_inv (f : ascii -> bool) (s : string) :
  matches (Class f) s -> exists c, s = String c "" /\ f c = true.
Proof. intros H. inversion H; subst. eauto. Qed.

Lemma nullable_matches (r : Regexp) : nullable r = true <-> matches r "".
Proof.
  induction r as [| |f|r1 IH1 r2 IH2|r1 IH1 r2 IH2|r IH]; simpl.
  - split; [discriminate|]. intros H. inversion H.
  - split; [intros _; constructor|reflexivity].
  - split; [discriminate|]. intros H. inversion H.
  - rewrite andb_true_iff, IH1, IH2. split.
    + intros [H1 H2]. apply (matches_cat _ _ "" "" H1 H2).
    + intros H. apply matches_cat_inv in H.
      destruct H as (s1 & s2 & Heq & H1 & H2).
      symmetry in Heq. apply append_eq_nil in Heq. destruct Heq; subst. auto.
  - rewrite orb_true_iff, IH1, IH2. split.
    + intros [H|H]; [apply matches_alt_l|apply matches_alt_r]; exact H.
    + apply matches_alt_inv.
  - split; [intros _; constructor|reflexivity].
Qed.

Lemma matches_cat_smart (r1 r2 : Regexp) (s : string) :
  matches (cat r1 r2) s <-> matches (Cat r1 r2) s.
Proof.
  assert (forall r, matches (Cat Fail r) s <-> matches Fail s) as Hfl.
  { intros r. split; intros H; [|destruct (matches_fail _ H)].
    apply matches_cat_inv in H. destruct H as (s1 & s2 & _ & H & _).
    destruct (matches_fail _ H). }
  assert (forall r, matches (Cat r Fail) s <-> matches Fail s) as Hfr.
  { intros r. split; intros H; [|destruct (matches_fail _ H)].
    apply matches_cat_inv in H. destruct H as (s1 & s2 & _ & _ & H).
    destruct (matches_fail _ H). }
  assert (forall r, matches (Cat Eps r) s <-> matches r s) as Heps.
  { intros r. split; intros H.
    - apply matches_cat_inv in H. destruct H as (s1 & s2 & -> & H1 & H2).
      apply matches_eps_inv in H1. subst. exact H2.
    - rewrite <- (append_nil_l s). constructor; [constructor|exact H]. }
  destruct r1, r2; cbn [cat]; rewrite ?Hfl, ?Hfr, ?Heps; reflexivity.
Qed.

Lemma matches_alt_smart (r1 r2 : Regexp) (s : string) :
  matches (alt r1 r2) s <-> matches (Alt r1 r2) s.
Proof.
  assert (forall r, matches (Alt Fail r) s <-> matches r s) as Hfl.
  { intros r. split; intros H; [|apply matches_alt_r, H].
    apply matches_alt_inv in H. destruct H as [H|H]; [destruct (matches_fail _ H)|exact H]. }
  assert (forall r, matches (Alt r Fail) s <-> matches r s) as Hfr.
  { intros r. split; intros H; [|apply matches_alt_l, H].
    apply matches_alt_inv in H. destruct H as [H|H]; [exact H|destruct (matches_fail _ H)]. }
  destruct r1, r2; cbn [alt]; rewrite ?Hfl, ?Hfr; reflexivity.
Qed.

(** A non-empty word of [Star r] begins with a non-empty word of [r]. *)
Lemma matches_star_cons_inv (r : Regexp) (c : ascii) (s : string) :
  matches (Star r) (String c s) ->
  exists s1 s2, s = s1 +:+ s2 /\ matches r (String c s1) /\ matches (Star r) s2.
Proof.
  intros H. remember (Star r) as r' eqn:Hr. remember (String c s) as w eqn:Hw.
  revert c s Hw.
  induction H as [| | | | | |r0 s1 s2 H1 _ H2 IH2]; try discriminate.
  inversion Hr; subst r0. intros c s Hw.
  destruct s1 as [|c1 s1].
  - rewrite append_nil_l in Hw. apply (IH2 eq_refl c s Hw).
  - rewrite append_cons in Hw. inversion Hw; subst. eauto.
Qed.

Lemma deriv_matches (r : Regexp) :
  forall (c : ascii) (s : string), matches (deriv c r) s <-> matches r (String c s).
Proof.
  induction r as [| |f|r1 IH1 r2 IH2|r1 IH1 r2 IH2|r IH]; intros c s; cbn [deriv].
  - split; intros H; inversion H.
  - split; intros H; inversion H.
  - destruct (f c) eqn:Hf.
    + split; intros H.
      * apply matches_eps_inv in H. subst. constructor. exact Hf.
      * apply matches_class_inv in H. destruct H as (c' & Heq & _).
        inversion Heq; subst. constructor.
    + split; intros H; [inversion H|].
      apply matches_class_inv in H. destruct H as (c' & Heq & H).
      inversion Heq; subst. congruence.
  - assert (matches (Cat (deriv c r1) r2) s \/ (nullable r1 = true /\ matches (deriv c r2) s)
            <-> matches (Cat r1 r2) (String c s)) as Hcat.
    { split.
      - intros [H|[Hn H]].
        + apply matches_cat_inv in H. destruct H as (s1 & s2 & -> & H1 & H2).
          rewrite <- append_cons. constructor; [apply IH1, H1|exact H2].
        + rewrite <- (append_nil_l (String c s)).
          constructor; [apply nullable_matches, Hn|apply IH2, H].
      - intros H. apply matches_cat_inv in H. destruct H as (s1 & s2 & Heq & H1 & H2).
        destruct s1 as [|c1 s1].
        + rewrite append_nil_l in Heq. subst s2.
          right. split; [apply nullable_matches, H1|apply IH2, H2].
        + rewrite append_cons in Heq. inversion Heq; subst.
          left. constructor; [apply IH1, H1|exact H2]. }
    destruct (nullable r1).
    + rewrite matches_alt_smart, <- Hcat. split.
      * intros H. apply matches_alt_inv in H.
        destruct H as [H|H]; [left; apply matches_cat_smart, H|right; auto].
      * intros [H|[_ H]];
          [apply matches_alt_l, matches_cat_smart, H|apply matches_alt_r, H].
    + rewrite matches_cat_smart, <- Hcat. split; [auto|].
      intros [H|[H _]]; [exact H|discriminate].
  - rewrite matches_alt_smart. split.
    + intros H. apply matches_alt_inv in H.
      destruct H as [H|H]; [apply matches_alt_l, IH1, H|apply matches_alt_r, IH2, H].
    + intros H. apply matches_alt_inv in H.
      destruct H as [H|H]; [apply matches_alt_l, IH1, H|apply matches_alt_r, IH2, H].
  - rewrite matches_cat_smart. split.
    + intros H. apply matches_cat_inv in H. destruct H as (s1 & s2 & -> & H1 & H2).
      rewrite <- append_cons. constructor; [apply IH, H1|exact H2].
    + intros H. apply matches_star_cons_inv in H.
      destruct H as (s1 & s2 & -> & H1 & H2).
      constructor; [apply IH, H1|exact H2].
Qed.

(** The matcher decides the words of the expression. *)
Lemma MatchString_matches (s : string) :
  forall r : Regexp, MatchString r s = true <-> matches r s.
Proof.
  induction s as [|c s IH]; intros r; cbn [MatchString].
  - apply nullable_matches.
  - rewrite IH. apply deriv_matches.
Qed.

Lemma matches_star_class (f : ascii -> bool) (s : string) :
  matches (Star (Class f)) s <-> all_chars f s = true.
Proof.
  split.
  - induction s as [|c s IH]; [reflexivity|].
    intros H. apply matches_star_cons_inv in H.
    destruct H as (s1 & s2 & -> & H1 & H2).
    apply matches_class_inv in H1. destruct H1 as (c' & Heq & Hf).
    inversion Heq; subst. rewrite append_nil_l in *.
    cbn [all_chars]. rewrite Hf. apply IH. exact H2.
  - induction s as [|c s IH]; [intros _; constructor|].
    cbn [all_chars]. intros H. apply andb_true_iff in H. destruct H as [Hf Hs].
    change (String c s) with (String c "" +:+ s).
    constructor; [constructor; exact Hf|apply IH, Hs].
Qed.

Lemma matches_plus_class (f : ascii -> bool) (s : string) :
  matches (plus (Class f)) s <-> s <> "" /\ all_chars f s = true.
Proof.
  unfold plus. split.
  - intros H. apply matches_cat_inv in H. destruct H as (s1 & s2 & -> & H1 & H2).
    apply matches_class_inv in H1. destruct H1 as (c & -> & Hf).
    apply matches_star_class in H2.
    rewrite append_cons, append_nil_l. cbn [all_chars]. rewrite Hf, H2.
    split; [discriminate|reflexivity].
  - destruct s as [|c s]; [intros [H _]; congruence|].
    cbn [all_chars]. intros [_ H]. apply andb_true_iff in H. destruct H as [Hf Hs].
    change (String c s) with (String c "" +:+ s).
    constructor; [constructor; exact Hf|apply matches_star_class, Hs].
Qed.

End Patterns.

Section ValidEmail.

Import server.

(** X21. The addresses [isValidEmail] accepts.  An address is valid exactly
    when its lower-case form is a local part, [@], a domain, a dot and a
    top-level name, where the local part is one or more of the lower-case
    letters, the digits and [._%+-], the domain one or more of the
    lower-case letters, the digits and [.-], and the top-level name two or
    more lower-case letters. *)
Theorem isValidEmail_accepts (email : string) :
  isValidEmail email = true
  <-> exists localPart domain tld : string,
        strings_.ToLower email = localPart +:+ "@" +:+ domain +:+ "." +:+ tld
        /\ localPart <> "" /\ all_chars local_char localPart = true
        /\ domain <> "" /\ all_chars domain_char domain = true
        /\ (2 <= String.length tld)%nat /\ all_chars is_lower tld = true.
Proof.
  unfold isValidEmail. rewrite MatchString_matches.
  generalize (strings_.ToLower email). intros s.
  unfold emailPattern.
  change (fun c : ascii =>
            is_lower c || is_digit c || is_char "." c || is_char "_" c
            || is_char "%" c || is_char "+" c || is_char "-" c) with local_char.
  change (fun c : ascii =>
            is_lower c || is_digit c || is_char "." c || is_char "-" c)
    with domain_char.
  split.
  - intros H.
    apply matches_cat_inv in H. destruct H as (l & s1 & -> & Hl & H).
    apply matches_cat_inv in H. destruct H as (a & s2 & -> & Ha & H).
    apply matches_cat_inv in H. destruct H as (d & s3 & -> & Hd & H).
    apply matches_cat_inv in H. destruct H as (p & t & -> & Hp & H).
    apply matches_cat_inv in H. destruct H as (t1 & t' & -> & H1 & H).
    apply matches_cat_inv in H. destruct H as (t2 & t3 & -> & H2 & H3).
    apply matches_plus_class in Hl, Hd. destruct Hl as [Hl1 Hl2], Hd as [Hd1 Hd2].
    apply matches_class_inv in Ha, Hp, H1, H2.
    destruct Ha as (ca & -> & Hca), Hp as (cp & -> & Hcp),
      H1 as (c1 & -> & Hc1), H2 as (c2 & -> & Hc2).
    apply matches_star_class in H3.
    apply Ascii.eqb_eq in Hca, Hcp. subst ca cp.
    exists l, d, (String c1 (String c2 t3)).
    split; [reflexivity|].
    repeat split; try assumption.
    + cbn. lia.
    + cbn [all_chars]. rewrite Hc1, Hc2, H3. reflexivity.
  - intros (l & d & t & -> & Hl1 & Hl2 & Hd1 & Hd2 & Ht1 & Ht2).
    destruct t as [|c1 [|c2 t3]]; cbn in Ht1; try lia.
    cbn [all_chars] in Ht2.
    apply andb_true_iff in Ht2. destruct Ht2 as [Hc1 Ht2].
    apply andb_true_iff in Ht2. destruct Ht2 as [Hc2 Ht3].
    constructor; [apply matches_plus_class; auto|].
    change ("@" +:+ d +:+ "." +:+ String c1 (String c2 t3))
      with (String "@" "" +:+ (d +:+ (String "." ""
              +:+ (String c1 "" +:+ (String c2 "" +:+ t3))))).
    constructor; [constructor; reflexivity|].
    constructor; [apply matches_plus_class; auto|].
    constructor; [constructor; reflexivity|].
    constructor; [constructor; exact Hc1|].
    constructor; [constructor; exact Hc2|].
    apply matches_star_class, Ht3.
Qed.

End ValidEmail.

(** ** Countries and issued credentials *)

Section Countries.

Import common.

Lemma Countries_named :
  Forall (fun c => Name c <> "" /\ GetCountryName (Code c) = Name c) Countries.
Proof.
  unfold Countries.
  repeat (apply List.Forall_cons; [split; [discriminate|reflexivity]|]).
  apply List.Forall_nil.
Qed.

(** X26. The two lookups of the country list agree.  A code is valid exactly
    when it has a name, that is when [GetCountryName] does not return the
    empty string, and exactly when it is the code of a listed country; and
    [GetCountryName] returns the name of every listed country from its code
    (no code is listed twice). *)
Theorem IsValidCountry_named (code : string) :
  (IsValidCountry code = true <-> GetCountryName code <> "")
  /\ (IsValidCountry code = true <-> exists c, In c Countries /\ Code c = code)
  /\ (forall c, In c Countries -> GetCountryName (Code c) = Name c).
Proof.
  pose proof (proj1 (List.Forall_forall _ _) Countries_named) as Hnamed.
  split; [|split].
  - unfold IsValidCountry, GetCountryName.
    destruct (find (fun c => String.eqb (Code c) code) Countries) as [c|] eqn:Hfind.
    + apply find_some in Hfind. destruct Hfind as [Hin Hc].
      split; [intros _; apply (Hnamed c Hin)|intros _].
      apply existsb_exists. eauto.
    + split; [|congruence]. intros H.
      apply existsb_exists in H. destruct H as (c & Hin & Hc).
      apply (find_none _ _ Hfind) in Hin. congruence.
  - unfold IsValidCountry. rewrite existsb_exists.
    split; intros (c & Hin & Hc); exists c; (split; [exact Hin|]);
      apply String.eqb_eq; exact Hc.
  - intros c Hin. apply (Hnamed c Hin).
Qed.

End Countries.

Section IssuedCredential.

Import credissuance.

Local Arguments Marshal_Payload : simpl never.
Local Arguments Marshal_Mandator : simpl never.
Local Arguments Marshal_Mandatee : simpl never.
Local Arguments Marshal_Power : simpl never.
Local Arguments Strings_MarshalJSON : simpl never.

Lemma entries_of_member (k : string) (v : json.value) (x : string * json.value)
    (members : list (string * json.value)) :
  In (k, v) members -> x = (k, v) \/ In x (all_members v) ->
  In x (entries_of members).
Proof.
  intros Hin Hx. unfold entries_of. apply in_flat_map.
  exists (k, v). split; [exact Hin|].
  cbn [fst snd]. destruct Hx as [->|Hx]; [left; reflexivity|right; exact Hx].
Qed.

(** The members of a power are members of the request that holds it. *)
Lemma Marshal_power_members (b : LEARIssuanceRequestBody) (p : Power)
    (x : string * json.value) :
  In p (Power_ (Payload_ b)) ->
  In x (all_members (Marshal_Power p)) ->
  In x (all_members (Marshal b)).
Proof.
  intros Hp Hx. unfold Marshal. rewrite all_members_object.
  apply (entries_of_member "payload" (Marshal_Payload (Payload_ b)));
    [rewrite !in_app_iff; do 4 right; left; reflexivity|].
  right. unfold Marshal_Payload. rewrite all_members_object.
  destruct (Nat.eqb_spec (length (Power_ (Payload_ b))) 0) as [Hlen|_].
  { destruct (Power_ (Payload_ b)); [destruct Hp|discriminate]. }
  apply (entries_of_member "power" (json.JArray (map Marshal_Power (Power_ (Payload_ b)))));
    [rewrite in_app_iff; right; left; reflexivity|].
  right. rewrite all_members_array. apply in_flat_map.
  exists (Marshal_Power p). split; [apply in_map, Hp|exact Hx].
Qed.

Lemma Marshal_Power_action (p : Power) :
  Action p <> [] ->
  In ("action", Strings_MarshalJSON (Action p)) (all_members (Marshal_Power p)).
Proof.
  intros Hne. unfold Marshal_Power. rewrite all_members_object.
  apply (entries_of_member "action" (Strings_MarshalJSON (Action p)));
    [|left; reflexivity].
  rewrite !in_app_iff. do 3 right.
  destruct (Action p); [congruence|left; reflexivity].
Qed.

(** X25. The credential request of a registration reads back.  The request
    [HandleRegister] builds from any form data carries the actions
    [execute] and [verify], which are written as an array, and
    [ParseLEARIssuanceRequestBody] recovers the request from its wire
    form. *)
Theorem credentialFor_reads_back (requestData : server.RegistrationRequest) :
  In ("action", json.JArray [json.JString "execute"; json.JString "verify"])
     (all_members (Marshal (credentialFor requestData)))
  /\ ParseLEARIssuanceRequestBody (Marshal (credentialFor requestData))
     = Ok (credentialFor requestData).
Proof.
  split.
  - apply (Marshal_power_members _
             (mkPower "domain" "DOME" "Onboarding" ["execute"; "verify"]));
      [left; reflexivity|].
    apply (Marshal_Power_action
             (mkPower "domain" "DOME" "Onboarding" ["execute"; "verify"])).
    discriminate.
  - unfold ParseLEARIssuanceRequestBody, Marshal, credentialFor.
    cbn [Schema OperationMode Format ResponseUri Payload_].
    cbn [json.omitempty_string String.eqb Ascii.eqb Bool.eqb app].
    cbn [json.decode_struct json.foldM Body_member].
    cbn. rewrite read_Payload; [reflexivity|].
    cbn [Power_]. intros q [<-|[]]. cbn. discriminate.
Qed.

End IssuedCredential.

(** ** The mail service *)

Section Mail.

Import configuration.
Import mailer.

Context {Template : Type}.

Local Arguments String.append : simpl never.

(** X27. The mail service and the team addresses.  A service built by
    [NewMailService] from a configuration with SMTP disabled never touches
    the network: both mails return no error and the log of network
    operations is as before.  A service built from a configuration with
    SMTP enabled, a readable password file and no onboard team address is
    built without complaint, and [SendWelcomeEmail] then panics on the
    missing address, before any template is read or any network operation
    made. *)
Theorem NewMailService_then_SendWelcomeEmail (h : Env Template)
    (runtime : configuration.RuntimeEnv) (cfg : MailConfig)
    (reg : db.Registration) (payload errorMsg : string) (log : list Op) :
  (Enabled (SMTP cfg) = false ->
   exists s : Service,
     NewMailService h runtime cfg = Ok s
     /\ SendWelcomeEmail h s reg log = (credissuance.Returns None, log)
     /\ SendIssuerError h s reg payload errorMsg log = (credissuance.Returns None, log))
  /\ (Enabled (SMTP cfg) = true ->
      OnboardTeamEmail cfg = [] ->
      forall passwordBytes : string,
        ReadFile h (PasswordFile (SMTP cfg)) = Done passwordBytes ->
        exists s : Service,
          NewMailService h runtime cfg = Ok s
          /\ SendWelcomeEmail h s reg log
             = (credissuance.Panics
                  "runtime error: index out of range [0] with length 0",
                log)).
Proof.
  split.
  - intros Hoff. unfold NewMailService. rewrite Hoff. cbn [negb].
    eexists. split; [reflexivity|].
    unfold SendWelcomeEmail, SendIssuerError. cbn [smtpConfig].
    rewrite Hoff. split; reflexivity.
  - intros Hon Hnone passwordBytes Hread.
    unfold NewMailService. rewrite Hon, Hread. cbn [negb].
    eexists. split; [reflexivity|].
    unfold SendWelcomeEmail. cbn [smtpConfig onboardTeamEmail].
    rewrite Hon, Hnone. reflexivity.
Qed.

Lemma recipients_accepted (h : Env Template) (to : list string) :
  (forall log op, answer h log op = None) ->
  forall log, recipients h to log = (None, log ++ map Client_Rcpt to).
Proof.
  intros Hyes. induction to as [|addr to IH]; intros log; cbn [recipients map].
  - rewrite app_nil_r. reflexivity.
  - unfold perform. rewrite Hyes, IH, <- app_assoc. reflexivity.
Qed.

(** X28. What a welcome mail is, when everything goes well.  With SMTP
    enabled, an onboard team address, a template that renders and a network
    that refuses nothing, [SendWelcomeEmail] returns no error.  The sender
    is the SMTP user name; the recipients are the registrant followed by the
    addresses of the CC list, all named in the [To] header; the message is
    the [From], [To] and [Subject] lines, the MIME lines and the rendered
    body.  With [TLS] set and port 465 the session is: dial, client,
    authentication, sender, one recipient after the other, data, the
    message, close, quit, and the connection closed; otherwise the message
    is handed to [smtp.SendMail] in one call. *)
Theorem SendWelcomeEmail_delivers (h : Env Template) (s : Service)
    (reg : db.Registration) (first : string) (others : list string)
    (tmpl : Template) (body : string) (log : list Op) :
  let to := db.Email reg :: ccTeamEmail s in
  let from := Username (smtpConfig s) in
  let msg := message from to "Welcome to DOME Marketplace!" body in
  let addr := Host (smtpConfig s) +:+ ":" +:+ pretty (Port (smtpConfig s)) in
  let auth := mkAuth "" from (password s) (Host (smtpConfig s)) in
  Enabled (smtpConfig s) = true ->
  onboardTeamEmail s = first :: others ->
  ParseFiles h "src/email/email_welcome.html" = Done tmpl ->
  ExecuteTemplate h tmpl "content"
    [("RegistrationID", db.RegistrationID reg); ("Email", db.Email reg);
     ("FirstName", db.FirstName reg); ("LastName", db.LastName reg);
     ("CompanyName", db.CompanyName reg); ("Country", db.Country reg);
     ("VatID", db.VatID reg); ("Runtime", runtime s);
     ("OnboardTeamEmail", first)] = Done body ->
  (forall log op, answer h log op = None) ->
  SendWelcomeEmail h s reg log
  = (credissuance.Returns None,
     log ++ (if TLS (smtpConfig s) && (Port (smtpConfig s) =? 465)
             then [tls_Dial "tcp" addr (Host (smtpConfig s));
                   smtp_NewClient (Host (smtpConfig s));
                   Client_Auth auth; Client_Mail from]
                  ++ map Client_Rcpt to
                  ++ [Client_Data; Writer_Write msg; Writer_Close; Client_Quit;
                      Conn_Close]
             else [smtp_SendMail addr auth from to msg])).
Proof.
  intros to from msg addr auth Hon Hfirst Hparse Hexec Hyes.
  unfold SendWelcomeEmail, render. rewrite Hon, Hfirst, Hparse, Hexec.
  cbn [negb app]. fold to.
  unfold deliver. fold from. fold msg. fold addr. fold auth.
  destruct (TLS (smtpConfig s) && (Port (smtpConfig s) =? 465)).
  - unfold session, perform. rewrite !Hyes.
    rewrite recipients_accepted by exact Hyes.
    rewrite !Hyes. cbn [snd].
    rewrite <- !app_assoc. reflexivity.
  - unfold perform. rewrite Hyes. reflexivity.
Qed.

End Mail.

(** ** The properties at concrete inputs *)

Section Instances.

Import server.

(** C2 at the sample form with [website] set to [http://bot.example]. *)
Lemma HandleRegister_honeypot_witness :
  Website (formData "http://bot.example") <> ""
  /\ HandleRegister (formRequest "http://bot.example") sampleWorld
     = (registrationSuccessful, sampleWorld).
Proof.
  assert (Website (formData "http://bot.example") <> "") as Hweb
    by discriminate.
  split; [exact Hweb|].
  apply (HandleRegister_honeypot sampleWorld (formRequest "http://bot.example")
           (formData "http://bot.example")).
  - reflexivity.
  - discriminate.
  - vm_compute. reflexivity.
  - exact Hweb.
Defined.

(** C1 at the sample form, with the Issuer answering 500.  With a mail
    service that sends, the reply is the success reply and the stored row
    carries the error message.  With the mail service that
    [NewMailService] makes of the configuration of the package's own test
    (SMTP enabled, no onboard team address), the row carries the error
    message as well, but the welcome mail panics and the client gets no
    reply. *)
Lemma HandleRegister_issuance_failure_witness :
  Validate (formData "") = None
  /\ snd savedSample = None
  /\ fst (HandleRegister (formRequest "") sampleWorld) = registrationSuccessful
  /\ recorded (db.conn (DB (server_ (snd (HandleRegister (formRequest "") sampleWorld)))))
              "20260222-12345678" "ana@example.com"
              "error calling LEAR Issuance Endpoint: 500 Internal Server Error"
  /\ mailer.NewMailService sampleEnv "dev" testMailConfig = Ok testService
  /\ fst (HandleRegister (formRequest "") testWorld) = None
  /\ recorded (db.conn (DB (server_ (snd (HandleRegister (formRequest "") testWorld)))))
              "20260222-12345678" "ana@example.com"
              "error calling LEAR Issuance Endpoint: 500 Internal Server Error".
Proof.
  assert (Validate (formData "") = None) as Hval by (vm_compute; reflexivity).
  assert (snd savedSample = None) as Hsaved by (vm_compute; reflexivity).
  split; [exact Hval|]. split; [exact Hsaved|].
  destruct (HandleRegister_issuance_failure sampleWorld (formRequest "") (formData "")
              (fst (fst (fst savedSample))) (snd (fst (fst savedSample)))
              (snd (fst savedSample)) (statusError serverError))
    as (regA & regB & _ & _ & _ & _ & Hrec & Hreply).
  { reflexivity. }
  { discriminate. }
  { vm_compute. reflexivity. }
  { reflexivity. }
  { exact Hval. }
  { vm_compute. reflexivity. }
  { vm_compute. reflexivity. }
  destruct (HandleRegister_issuance_failure testWorld (formRequest "") (formData "")
              (fst (fst (fst savedSample))) (snd (fst (fst savedSample)))
              (snd (fst savedSample)) (statusError serverError))
    as (regA' & regB' & _ & _ & _ & _ & Hrec' & Hreply').
  { reflexivity. }
  { discriminate. }
  { vm_compute. reflexivity. }
  { reflexivity. }
  { exact Hval. }
  { vm_compute. reflexivity. }
  { vm_compute. reflexivity. }
  cbv zeta in Hreply, Hreply'.
  change (mail.SendIssuerError (Mail (server_ sampleWorld)) regB
            (json.written (credissuance.Marshal (credentialFor (formData ""))))
            (Error (statusError serverError)))
    with (@credissuance.Returns (option error) None) in Hreply.
  change (mail.SendWelcomeEmail (Mail (server_ sampleWorld)) regB)
    with (@credissuance.Returns (option error) None) in Hreply.
  change (mail.SendIssuerError (Mail (server_ testWorld)) regB'
            (json.written (credissuance.Marshal (credentialFor (formData ""))))
            (Error (statusError serverError)))
    with (@credissuance.Returns (option error) None) in Hreply'.
  change (mail.SendWelcomeEmail (Mail (server_ testWorld)) regB')
    with (@credissuance.Panics (option error)
            "runtime error: index out of range [0] with length 0") in Hreply'.
  cbv iota in Hreply, Hreply'.
  split; [exact (proj1 Hreply)|].
  split; [exact Hrec|].
  split; [reflexivity|].
  split; [exact (proj1 Hreply')|exact Hrec'].
Defined.

(** C6 at [sampleWorld], one clock reading per second: the fourth request
    is refused and stores no code. *)
Lemma HandleValidateEmail_window_witness :
  isValidEmail "ana@example.com" = true
  /\ opensWindow sampleWorld "ana@example.com"
  /\ at_ thirdRequestWorld 0 - windowStart thirdRequestWorld "ana@example.com"
     <= 3 * Minute
  /\ fst (HandleValidateEmail (codeRequest "ana@example.com") sampleWorld)
     = codeSent "345678"
  /\ fst (HandleValidateEmail (codeRequest "ana@example.com") thirdRequestWorld)
     = tooManyRequests
  /\ VerificationCodes
       (server_ (snd (HandleValidateEmail (codeRequest "ana@example.com")
                        thirdRequestWorld)))
     = VerificationCodes (server_ thirdRequestWorld).
Proof.
  assert (isValidEmail "ana@example.com" = true) as Hvalid
    by (vm_compute; reflexivity).
  assert (opensWindow sampleWorld "ana@example.com") as Hopen by exact I.
  assert (at_ thirdRequestWorld 0 - windowStart thirdRequestWorld "ana@example.com"
          <= 3 * Minute) as H4 by (vm_compute; discriminate).
  split; [exact Hvalid|]. split; [exact Hopen|]. split; [exact H4|].
  destruct (HandleValidateEmail_window sampleWorld "ana@example.com")
    as (H1 & _ & _ & _ & Hlimited & _).
  - exact Hvalid.
  - exact Hopen.
  - vm_compute. discriminate.
  - vm_compute. discriminate.
  - split; [exact H1|].
    assert (HandleValidateEmail (codeRequest "ana@example.com") thirdRequestWorld
            = (tooManyRequests,
               after thirdRequestWorld
                     (EmailRateLimiter (server_ thirdRequestWorld))
                     (VerificationCodes (server_ thirdRequestWorld)) 1 0))
      as Hfourth.
    { apply Hlimited. vm_compute. discriminate. }
    rewrite Hfourth. split; reflexivity.
Defined.

(** C8 at a response with status 500. *)
Lemma LEARIssuanceRequest_status_witness :
  credissuance.StatusCode serverError = 500
  /\ credissuance.LEARIssuanceRequest sampleNetwork sampleIssuance credissuance.Cred1
     = credissuance.Returns (Err (statusError serverError)).
Proof.
  split; [reflexivity|].
  destruct (LEARIssuanceRequest_status sampleNetwork sampleIssuance
              credissuance.Cred1 "access-token" serverError)
    as [[_ Hfail] _].
  - reflexivity.
  - reflexivity.
  - reflexivity.
  - apply Hfail. right. reflexivity.
Defined.

(** C9, amended, at [blankRequest]: its empty [action] is one of the three
    cases. *)
Lemma Marshal_omits_empty_witness :
  In ("action", json.JString "") (all_members (credissuance.Marshal blankRequest))
  /\ empty_by_design blankRequest "action" (json.JString "").
Proof.
  assert (In ("action", json.JString "")
             (all_members (credissuance.Marshal blankRequest))) as Hin
    by (vm_compute; intuition).
  split; [exact Hin|].
  apply (Marshal_omits_empty blankRequest "action" (json.JString "") Hin).
  reflexivity.
Defined.

(** C4, amended, at the key file holding the scalar 1, with the machine
    credential present: the client is built. *)
Lemma NewLEARIssuance_identifier_witness :
  completeFiles (credissuance.PrivateKeyFile sampleConfig) = Done sampleKeyFile
  /\ ecdsa.ParseRawPrivateKey (rawScalar sampleKeyFile) = Ok sampleKey
  /\ credissuance.NewLEARIssuance completeFiles sampleConfig = Ok sampleIssuance.
Proof.
  assert (ecdsa.ParseRawPrivateKey (rawScalar sampleKeyFile) = Ok sampleKey)
    as Hparse by (vm_compute; reflexivity).
  split; [reflexivity|]. split; [exact Hparse|].
  destruct (NewLEARIssuance_identifier completeFiles sampleConfig sampleKeyFile
              sampleKey) as (_ & _ & _ & _ & Hbuild).
  - reflexivity.
  - exact Hparse.
  - rewrite Hbuild; [reflexivity|]. vm_compute. reflexivity.
Defined.

(** C3 next to the row of another company.  In development the sample
    registration and then the renamed one are saved: the table ends with two
    rows, the second one holding the renamed registration, created at the
    time of the first save.  In production the renamed registration is
    refused after the sample one and the table keeps its two rows. *)
Lemma SaveRegistration_conflict_policy_witness :
  (exists (pre post : list db.Row) (old : db.Row),
     db.conn (db.SaveRegistration sampleClock
                (db.mkService [neighbourRow] configuration.Development)
                sampleRegistration).1.1.2
     = pre ++ old :: post
     /\ holds old sampleRegistration)
  /\ (exists r1 r2 : db.Registration,
        db.SaveRegistration sampleClock
          (db.mkService [neighbourRow] configuration.Development) sampleRegistration
        = (snd (Now sampleClock),
           db.mkService [neighbourRow; amended sampleRegistration 0 0 0]
                        configuration.Development,
           r1, None)
        /\ db.SaveRegistration (snd (Now sampleClock))
             (db.mkService [neighbourRow; amended sampleRegistration 0 0 0]
                           configuration.Development)
             renamedRegistration
           = (snd (Now (snd (Now (snd (Now sampleClock))))),
              db.mkService
                [neighbourRow; amended renamedRegistration 0 Second (2 * Second)]
                configuration.Development,
              r2, None))
  /\ (exists (r2 : db.Registration) (column : string),
        db.SaveRegistration (snd (Now sampleClock))
          (db.mkService [neighbourRow; amended sampleRegistration 0 0 0]
                        configuration.Production)
          renamedRegistration
        = (snd (Now (snd (Now sampleClock))),
           db.mkService [neighbourRow; amended sampleRegistration 0 0 0]
                        configuration.Production,
           r2, Some (ErrUniqueConstraint column))).
Proof.
  destruct SaveRegistration_conflict_policy as (Hamend & Hfresh & Hprod).
  split; [|split].
  - destruct (Hamend sampleClock (snd (Now sampleClock))
                (db.mkService [neighbourRow] configuration.Development)
                (db.mkService [neighbourRow; amended sampleRegistration 0 0 0]
                              configuration.Development)
                sampleRegistration
                (db.mkRegistration "20260222-12345678" "ana@example.com" "Ana" "Ruiz"
                                   "Acme" "ES" "B12345678" 0 0 0 "" 0 "")
                renamedRegistration)
      as (pre & post & old & Hconn & Hold & _).
    + left. reflexivity.
    + repeat split; apply NoDup_singleton.
    + reflexivity.
    + reflexivity.
    + reflexivity.
    + exists pre, post, old. split; [exact Hconn|exact Hold].
  - destruct (Hfresh configuration.Development sampleClock [neighbourRow]
                sampleRegistration renamedRegistration)
      as (r1 & r2 & Hfirst & Hsecond).
    + left. reflexivity.
    + reflexivity.
    + reflexivity.
    + intros o [<-|[]]. repeat split; discriminate.
    + exists r1, r2. split; [exact Hfirst|exact Hsecond].
  - apply (Hprod sampleClock (snd (Now sampleClock))
             (db.mkService [neighbourRow] configuration.Production)
             (db.mkService [neighbourRow; amended sampleRegistration 0 0 0]
                           configuration.Production)
             sampleRegistration
             (db.mkRegistration "20260222-12345678" "ana@example.com" "Ana" "Ruiz"
                                "Acme" "ES" "B12345678" 0 0 0 "" 0 "")
             renamedRegistration).
    + reflexivity.
    + reflexivity.
    + left. reflexivity.
Defined.

(** X1 at [sampleGate]: the fourth attempt is refused. *)
Lemma RegisterEmailAttempt_window_witness :
  monotone (clock sampleGate)
  /\ at_ sampleGate 7 - at_ sampleGate 1 <= 3 * Minute
  /\ fst (RegisterEmailAttempt "ana@example.com" sampleGate) = true
  /\ fst (RegisterEmailAttempt "ana@example.com" thirdAttemptWorld) = false.
Proof.
  assert (monotone (clock sampleGate)) as Hmono.
  { intros n m Hnm. simpl. unfold Second. lia. }
  assert (at_ sampleGate 7 - at_ sampleGate 1 <= 3 * Minute) as H4
    by (vm_compute; discriminate).
  split; [exact Hmono|]. split; [exact H4|].
  destruct (RegisterEmailAttempt_window sampleGate "ana@example.com")
    as (H1 & _ & _ & Hlimited & _).
  - exact Hmono.
  - reflexivity.
  - vm_compute. discriminate.
  - split; [exact H1|]. exact (proj1 (Hlimited H4)).
Defined.

(** X3 at the table holding the sample registration: saving it again
    leaves one row. *)
Lemma SaveRegistration_amends_in_place_witness :
  snd savedSample = None
  /\ exists (c' : Clock) (reg' : db.Registration) (err : option error),
       db.SaveRegistration (fst (fst (fst savedSample))) (snd (fst (fst savedSample)))
                           (newRegistration sampleWorld (formData ""))
       = (c',
          db.mkService
            [db.mkRow "20260222-12345678" "ana@example.com" "Ana" "Ruiz" "Acme"
                      "ES" "B12345678"
                      (1 * Second) (3 * Second) (2 * Second) "" (2 * Second) ""]
            configuration.Development,
          reg', err)
       /\ err = None.
Proof.
  split; [vm_compute; reflexivity|].
  destruct (SaveRegistration_amends_in_place
              (fst (fst (fst savedSample))) (snd (fst (fst savedSample)))
              (newRegistration sampleWorld (formData ""))
              (db.mkRow "20260222-12345678" "ana@example.com" "Ana" "Ruiz" "Acme"
                        "ES" "B12345678"
                        (1 * Second) (1 * Second) (1 * Second) ""
                        (1 * Second) ""))
    as (c' & reg' & t' & err & Hsave & _).
  - left. reflexivity.
  - left. reflexivity.
  - reflexivity.
  - reflexivity.
  - exists c', reg', err. rewrite Hsave.
    assert (db.SaveRegistration (fst (fst (fst savedSample)))
              (snd (fst (fst savedSample)))
              (newRegistration sampleWorld (formData ""))
            = (c', db.mkService t' configuration.Development, reg', err)) as H
      by exact Hsave.
    vm_compute in H. injection H as _ <- _ <-.
    split; reflexivity.
Defined.

(** X4 at the request built for the sample form, whose action list has two
    elements.  A request with a byte that is no UTF-8 does not come back:
    the byte is read back as U+FFFD. *)
Lemma Parse_Marshal_witness :
  credissuance.ParseLEARIssuanceRequestBody
    (json.written (credissuance.Marshal (credentialFor (formData ""))))
  = Ok (credentialFor (formData ""))
  /\ credissuance.ParseLEARIssuanceRequestBody
       (json.written (credissuance.Marshal garbledRequest))
     = Ok replacedRequest.
Proof.
  split; [|vm_compute; reflexivity].
  apply Parse_Marshal.
  - apply valid_strings_checked. vm_compute. reflexivity.
  - intros p [<-|[]]. discriminate.
Defined.

End Instances.

Section MoreInstances.

Import server.

(** The round trip through the table at the sample registration, saved
    into the empty development table. *)
Lemma SaveRegistration_then_GetRegistration_witness :
  snd savedSample = None
  /\ exists found : db.Registration,
       db.GetRegistration (snd (fst (fst savedSample))) "B12345678" "ana@example.com"
       = (Some found, None)
       /\ db.RegistrationID found = "20260222-12345678".
Proof.
  split; [reflexivity|].
  destruct (SaveRegistration_then_GetRegistration
              (snd (Now (clock sampleWorld))) (fst (fst (fst savedSample)))
              (DB (server_ sampleWorld)) (snd (fst (fst savedSample)))
              (newRegistration sampleWorld (formData "")) (snd (fst savedSample)))
    as (found & Hget & _ & Hid & _).
  - reflexivity.
  - exists found. split; [exact Hget|exact Hid].
Defined.

(** The UNIQUE columns after saving the sample registration over
    [sampleRow] in production. *)
Lemma writes_keep_unique_columns_witness :
  unique_columns [sampleRow]
  /\ unique_columns
       (db.conn (db.SaveRegistration sampleClock
                   (db.mkService [sampleRow] configuration.Production)
                   sampleRegistration).1.1.2).
Proof.
  assert (unique_columns [sampleRow]) as Hu.
  { repeat split; apply NoDup_singleton. }
  split; [exact Hu|].
  apply (writes_keep_unique_columns sampleClock
           (db.mkService [sampleRow] configuration.Production) sampleRegistration Hu).
Defined.

(** In development, a registration with the email of [sampleRow] and
    another tax id is refused. *)
Lemma SaveRegistration_partial_match_witness :
  exists (reg' : db.Registration) (column : string),
    db.SaveRegistration sampleClock
      (db.mkService [sampleRow] configuration.Development) otherCompany
    = (snd (Now sampleClock), db.mkService [sampleRow] configuration.Development,
       reg', Some (ErrUniqueConstraint column)).
Proof.
  apply (SaveRegistration_partial_match sampleClock
           (db.mkService [sampleRow] configuration.Development) otherCompany sampleRow).
  - left. reflexivity.
  - intros r [<-|[]] [Hv _]. discriminate.
  - left. reflexivity.
  - left. reflexivity.
Defined.

(** A status update for a registration the empty table does not hold. *)
Lemma update_of_absent_registration_witness :
  db.UpdateRegistrationStatus sampleClock (db.mkService [] configuration.Development)
                              sampleRegistration
  = (snd (Now sampleClock), db.mkService [] configuration.Development,
     db.set_UpdatedAt sampleRegistration (fst (Now sampleClock)), None).
Proof.
  apply (proj1 (update_of_absent_registration sampleClock
                  (db.mkService [] configuration.Development) sampleRegistration)).
  intros r [].
Defined.

(** The listing of the two registrations of the night the clocks go back.
    For a process in UTC the later one comes first; for a process in Madrid
    the earlier one does, its stored text being the greater. *)
Lemma GetRegistrations_page_witness :
  fst (db.GetRegistrations textUTC
         (db.mkService [summerRow; winterRow] configuration.Production) (-1) 0)
  = [db.scan winterRow; db.scan summerRow]
  /\ (forall (i j : nat) (a b : db.Registration),
        (i < j)%nat ->
        [db.scan winterRow; db.scan summerRow] !! i = Some a ->
        [db.scan winterRow; db.scan summerRow] !! j = Some b ->
        db.CreatedAt b <= db.CreatedAt a)
  /\ fst (db.GetRegistrations textMadrid
            (db.mkService [summerRow; winterRow] configuration.Production) (-1) 0)
     = [db.scan summerRow; db.scan winterRow].
Proof.
  destruct (GetRegistrations_page textUTC
              (db.mkService [summerRow; winterRow] configuration.Production) (-1) 0)
    as (regs & Hregs & _ & _ & Hnewest & _).
  assert (regs = [db.scan winterRow; db.scan summerRow]) as ->.
  { apply (f_equal fst) in Hregs. symmetry. exact Hregs. }
  split; [reflexivity|]. split; [|reflexivity].
  apply Hnewest.
  intros a b [<-|[<-|[]]] [<-|[<-|[]]] Hle; vm_compute in Hle |- *;
    discriminate.
Defined.

(** A GET request to the registration handler. *)
Lemma handlers_refuse_witness :
  handle Register (mkRequest "GET" "XMLHttpRequest" None) sampleWorld
  = (methodNotAllowed, sampleWorld).
Proof.
  apply (proj1 (handlers_refuse sampleWorld Register
                  (mkRequest "GET" "XMLHttpRequest" None))).
  discriminate.
Defined.

(** The sample form in production, where its email and tax id are already
    registered: the reply is 500 and carries the error text of the store,
    which names the tax id. *)
Lemma HandleRegister_save_failure_witness :
  fst (HandleRegister (formRequest "") productionWorld)
  = saveFailed (ErrUniqueConstraint "vat_id")
  /\ calls (snd (HandleRegister (formRequest "") productionWorld))
     = [CallSaveRegistration (newRegistration productionWorld (formData ""))].
Proof.
  destruct (HandleRegister_save_failure productionWorld (formRequest "") (formData "")
              (snd (Now (snd (Now (clock productionWorld)))))
              (DB (server_ productionWorld))
              (db.mkRegistration "20260222-12345678" "ana@example.com" "Ana" "Ruiz"
                 "Acme" "ES" "B12345678" Second Second Second "" Second "")
              (ErrUniqueConstraint "vat_id"))
    as (Hresp & Hcalls & _).
  - reflexivity.
  - discriminate.
  - vm_compute. reflexivity.
  - reflexivity.
  - vm_compute. reflexivity.
  - vm_compute. reflexivity.
  - split; [exact Hresp|exact Hcalls].
Defined.

(** The sample form on a new development server whose Issuer issues the
    credential. *)
Lemma HandleRegister_issuance_success_witness :
  fst (HandleRegister (formRequest "") issuingWorld) = registrationSuccessful
  /\ exists notifError : string,
       recorded_status
         (db.conn (DB (server_ (snd (HandleRegister (formRequest "") issuingWorld)))))
         "20260222-12345678" "ana@example.com" "" notifError.
Proof.
  destruct (HandleRegister_issuance_success issuingWorld (formRequest "") (formData "")
              (fst (fst (fst savedSample))) (snd (fst (fst savedSample)))
              (snd (fst savedSample)) [123; 125])
    as (regA & regB & _ & Hreply).
  { reflexivity. }
  { discriminate. }
  { vm_compute. reflexivity. }
  { reflexivity. }
  { vm_compute. reflexivity. }
  { vm_compute. reflexivity. }
  { vm_compute. reflexivity. }
  cbv zeta in Hreply.
  change (mail.SendWelcomeEmail (Mail (server_ issuingWorld)) regB)
    with (@credissuance.Returns (option error) None) in Hreply.
  cbv iota in Hreply.
  destruct Hreply as (Hresp & regC & _ & _ & _ & Hrec).
  split; [exact Hresp|]. eexists. exact Hrec.
Defined.

(** The code sent for the sample address verifies once. *)
Lemma issued_code_verifies_once_witness :
  fst (HandleValidateEmail (codeRequest "ana@example.com") sampleWorld)
  = codeSent "345678"
  /\ fst (HandleVerifyCode (verifyRequest "ana@example.com" "345678")
            (snd (HandleValidateEmail (codeRequest "ana@example.com") sampleWorld)))
     = emailVerified.
Proof.
  assert (fst (HandleValidateEmail (codeRequest "ana@example.com") sampleWorld)
          = codeSent "345678") as Hsent by (vm_compute; reflexivity).
  split; [exact Hsent|].
  apply (issued_code_verifies_once sampleWorld "ana@example.com" "345678" Hsent).
Defined.

(** A request for a code for the sample address leaves the entries of
    another address alone. *)
Lemma HandleValidateEmail_frame_witness :
  EmailRateLimiter
    (server_ (snd (HandleValidateEmail (codeRequest "ana@example.com")
                     thirdRequestWorld))) !! "bob@example.com"
  = EmailRateLimiter (server_ thirdRequestWorld) !! "bob@example.com".
Proof.
  apply (HandleValidateEmail_frame thirdRequestWorld (codeRequest "ana@example.com")
           "bob@example.com").
  vm_compute. discriminate.
Defined.

(** The limiter of a new server after the sample session. *)
Lemma session_counts_bounded_witness :
  counts_bounded issuingWorld
  /\ counts_bounded (session sampleSession issuingWorld).
Proof.
  assert (counts_bounded issuingWorld) as Hb.
  { intros email entry H. discriminate. }
  split; [exact Hb|].
  apply (session_counts_bounded sampleSession issuingWorld Hb).
Defined.

(** The key file with prefix and line end gives the client of the bare
    digits. *)
Lemma NewLEARIssuance_key_file_forms_witness :
  credissuance.NewLEARIssuance dressedKeyFiles sampleConfig
  = credissuance.NewLEARIssuance bareKeyFiles sampleConfig.
Proof.
  apply (NewLEARIssuance_key_file_forms bareKeyFiles dressedKeyFiles sampleConfig
           bareKey "0x" (String (ascii_of_nat 10) "")).
  - reflexivity.
  - discriminate.
  - exists 32%nat. reflexivity.
  - right. left. reflexivity.
  - reflexivity.
  - reflexivity.
  - reflexivity.
  - reflexivity.
Defined.

(** The identifier of [sampleConfig], accepted with [completeFiles]. *)
Lemma NewLEARIssuance_identifier_shape_witness :
  credissuance.NewLEARIssuance completeFiles sampleConfig = Ok sampleIssuance
  /\ exists rest : string,
       credissuance.MyDidkey sampleConfig = "did:key:zDn" +:+ rest
       /\ String.length rest = 46%nat.
Proof.
  assert (credissuance.NewLEARIssuance completeFiles sampleConfig = Ok sampleIssuance)
    as Hnew by (vm_compute; reflexivity).
  split; [exact Hnew|].
  apply (NewLEARIssuance_identifier_shape completeFiles sampleConfig sampleIssuance Hnew).
Defined.

(** A token exchange that fails. *)
Lemma LEARIssuanceRequest_failures_witness :
  credissuance.LEARIssuanceRequest noTokenNetwork sampleIssuance credissuance.Cred1
  = credissuance.Returns (Err (Errorf "token request failed")).
Proof.
  apply (proj1 (LEARIssuanceRequest_failures noTokenNetwork sampleIssuance
                  credissuance.Cred1)).
  reflexivity.
Defined.

End MoreInstances.

Section MailInstances.

Import configuration.
Import mailer.

(** A service built without an onboard team address panics at the welcome
    mail. *)
Lemma NewMailService_then_SendWelcomeEmail_witness :
  exists s : Service,
    NewMailService sampleEnv "dev" noOnboardTeam = Ok s
    /\ SendWelcomeEmail sampleEnv s sampleRegistration []
       = (credissuance.Panics "runtime error: index out of range [0] with length 0",
          []).
Proof.
  apply (proj2 (NewMailService_then_SendWelcomeEmail sampleEnv "dev" noOnboardTeam
                  sampleRegistration "" "" [])
               eq_refl eq_refl ("secret" +:+ newline) eq_refl).
Defined.

(** The welcome mail of the sample registration over implicit TLS: the
    registrant and the CC address are the recipients, in this order. *)
Lemma SendWelcomeEmail_delivers_witness :
  fst (SendWelcomeEmail sampleEnv sampleService sampleRegistration [])
  = credissuance.Returns None
  /\ List.filter (fun op => match op with Client_Rcpt _ => true | _ => false end)
                 (snd (SendWelcomeEmail sampleEnv sampleService sampleRegistration []))
     = [Client_Rcpt "ana@example.com"; Client_Rcpt "team@example.com"].
Proof.
  rewrite (SendWelcomeEmail_delivers sampleEnv sampleService sampleRegistration
             "onboard@example.com" [] tt "<p>Welcome</p>" []
             eq_refl eq_refl eq_refl eq_refl (fun _ _ => eq_refl)).
  split; [reflexivity|]. vm_compute. reflexivity.
Defined.

(** The sample form on a server whose Issuer issues the credential and
    whose mail service has no onboard team address: the registration is
    saved and the client gets no reply. *)
Lemma HandleRegister_without_onboard_address_witness :
  fst (server.HandleRegister (formRequest "") testIssuingWorld) = None
  /\ length (db.conn (server.DB (server.server_
               (snd (server.HandleRegister (formRequest "") testIssuingWorld)))))
     = 1%nat.
Proof.
  destruct (HandleRegister_without_onboard_address sampleEnv (fun _ => "{}")
              testService [] testIssuingWorld (formRequest "") (formData "")
              (fst (fst (fst savedSample))) (snd (fst (fst savedSample)))
              (snd (fst savedSample)))
    as (Hresp & _ & Hlen).
  - reflexivity.
  - reflexivity.
  - reflexivity.
  - reflexivity.
  - discriminate.
  - vm_compute. reflexivity.
  - reflexivity.
  - vm_compute. reflexivity.
  - vm_compute. reflexivity.
  - split; [exact Hresp|]. rewrite Hlen. reflexivity.
Defined.

End MailInstances.

Section PanicInstances.

Import server.

(** The sample form when the issuance path is refused: the row is saved,
    the client gets nothing. *)
Lemma HandleRegister_issuer_panics_witness :
  fst (HandleRegister (formRequest "") refusingWorld) = None
  /\ length (db.conn (DB (server_ (snd (HandleRegister (formRequest "")
                                           refusingWorld))))) = 1%nat.
Proof.
  destruct (HandleRegister_issuer_panics refusingWorld (formRequest "") (formData "")
              (fst (fst (fst savedSample))) (snd (fst (fst savedSample)))
              (snd (fst savedSample))
              "runtime error: invalid memory address or nil pointer dereference")
    as (Hresp & _ & Hdb).
  - reflexivity.
  - discriminate.
  - vm_compute. reflexivity.
  - reflexivity.
  - vm_compute. reflexivity.
  - vm_compute. reflexivity.
  - vm_compute. reflexivity.
  - split; [exact Hresp|]. rewrite Hdb. reflexivity.
Defined.

End PanicInstances.
